(** * Slack notification bot: reconciliation engine

    A shallow embedding of [pkg/slackbot] (the file that defines
    [postMessage], [ReviewRequestMessage], [createPipelineMessage], ...)
    together with the properties of its create / update / suppress logic.

    Conventions of the embedding:
    - a Go [string] is a Rocq [string] (a sequence of bytes);
    - a Go [int] / [int64] is a [Z]; the only place where the width matters
      is [strconv.Atoi], whose range check (64-bit [int]) is written out;
    - a Go [error] is an [option GoError] ([None] is [nil]);
    - a pointer that the code compares with [nil] is an [option];
      dereferencing [nil] is the outcome [Panicked];
    - the map [o.Timestamps] is a [gmap string (gmap string MessageReference)];
    - the chat client, the git provider and the other collaborators are
      fields of the receiver [o]; the chat client is a state machine whose
      calls are logged. *)

From Stdlib Require Import ZArith Ascii String List Lia Bool Sorting.Sorted.
From stdpp Require Import base option gmap strings list.

Local Open Scope string_scope.
Local Open Scope Z_scope.

(** ** Go strings *)

Module GoStrings.

(** [strings.HasPrefix]. *)
Definition HasPrefix (s p : string) : bool := String.prefix p s.

(** [s[n:]]. *)
Fixpoint drop_bytes (n : nat) (s : string) : string :=
  match n, s with
  | O, _ => s
  | S n', String _ s' => drop_bytes n' s'
  | S _, EmptyString => EmptyString
  end.

(** [s[:n]]. *)
Fixpoint take_bytes (n : nat) (s : string) : string :=
  match n, s with
  | O, _ => EmptyString
  | S n', String c s' => String c (take_bytes n' s')
  | S _, EmptyString => EmptyString
  end.

(** [strings.TrimPrefix]. *)
Definition TrimPrefix (s p : string) : string :=
  if HasPrefix s p then drop_bytes (String.length p) s else s.

(** [strings.HasSuffix]. *)
Definition HasSuffix (s p : string) : bool :=
  (String.length p <=? String.length s)%nat &&
  String.eqb (drop_bytes (String.length s - String.length p) s) p.

(** [strings.TrimSuffix]. *)
Definition TrimSuffix (s p : string) : string :=
  if HasSuffix s p then take_bytes (String.length s - String.length p) s else s.

Definition lower_byte (c : ascii) : ascii :=
  let n := nat_of_ascii c in
  if ((65 <=? n) && (n <=? 90))%nat then ascii_of_nat (n + 32) else c.

(** [strings.ToLower], on the bytes of the string: the letters [A]..[Z]
    are mapped to [a]..[z] and every other byte is kept.  Go also maps the
    upper-case letters of Unicode, so the model follows the source on
    strings of ASCII. *)
Fixpoint ToLower (s : string) : string :=
  match s with
  | EmptyString => EmptyString
  | String c s' => String (lower_byte c) (ToLower s')
  end.

(** [strings.Split(s, sep)] for a one-byte separator: as many pieces as
    there are separators, plus one. *)
Fixpoint Split (s : string) (sep : ascii) : list string :=
  match s with
  | EmptyString => [EmptyString]
  | String c s' =>
      if Ascii.eqb c sep then EmptyString :: Split s' sep
      else match Split s' sep with
           | [] => [String c EmptyString]
           | p :: ps => String c p :: ps
           end
  end.

(** [strings.LastIndex(s, sep)] for a one-byte separator; [-1] when the
    separator does not occur. *)
Fixpoint LastIndex_from (i : Z) (last : Z) (s : string) (sep : ascii) : Z :=
  match s with
  | EmptyString => last
  | String c s' =>
      LastIndex_from (i + 1) (if Ascii.eqb c sep then i else last) s' sep
  end.

Definition LastIndex (s : string) (sep : ascii) : Z := LastIndex_from 0 (-1) s sep.

(** [strings.Replace(s, old, new, -1)] for a non-empty [old]: every
    non-overlapping occurrence, from the left.  [inside] counts the bytes
    of the occurrence being replaced that are still to be skipped. *)
Fixpoint Replace_from (inside : nat) (s old new : string) : string :=
  match s with
  | EmptyString => EmptyString
  | String c s' =>
      match inside with
      | S k => Replace_from k s' old new
      | O =>
          if String.prefix old s
          then new +:+ Replace_from (String.length old - 1) s' old new
          else String c (Replace_from O s' old new)
      end
  end.

Definition ReplaceAll (s old new : string) : string := Replace_from O s old new.

(** [strings.Join]. *)
Fixpoint Join (l : list string) (sep : string) : string :=
  match l with
  | [] => EmptyString
  | [x] => x
  | x :: l' => x +:+ sep +:+ Join l' sep
  end.

End GoStrings.

Import GoStrings.

(** ** Go errors and [strconv.Atoi] *)

Inductive NumErrKind := ErrSyntax | ErrRange.

(** The error values the package builds or passes on: [strconv.NumError],
    [fmt.Errorf], [errors.Wrap] / [errors.Wrapf], [errors.WithStack], and the
    errors returned by the collaborators. *)
Inductive GoError :=
| NumError (func num : string) (kind : NumErrKind)
| Errorf (msg : string)
| Wrap (cause : GoError) (msg : string)
| WithStack (cause : GoError)
| External (msg : string).

(** A Go [error] value; [None] is [nil]. *)
Definition error := option GoError.

(** Outcome of a call that may fault on a [nil] dereference. *)
Inductive Outcome (A : Type) :=
| Done (a : A)
| Panicked.
Arguments Done {A} a.
Arguments Panicked {A}.

Definition bindO {A B} (m : Outcome A) (k : A -> Outcome B) : Outcome B :=
  match m with
  | Done a => k a
  | Panicked => Panicked
  end.

Notation "'try!' x := m 'in' k" := (bindO m (fun x => k))
  (at level 10, x pattern, m at level 100, k at level 200, only parsing).

Module Strconv.

Definition maxUint64 : Z := 18446744073709551615.
Definition maxInt64 : Z := 9223372036854775807.
Definition minInt64 : Z := -9223372036854775808.

Definition is_digit (c : ascii) : bool :=
  let n := nat_of_ascii c in ((48 <=? n) && (n <=? 57))%nat.

Definition digit_val (c : ascii) : Z := Z.of_nat (nat_of_ascii c) - 48.

(** The loop of [ParseUint(s, 10, 64)]: each byte is first checked to be
    a digit, then the accumulator is checked for overflow. *)
Fixpoint parse_digits (n : Z) (s : string) : Z + NumErrKind :=
  match s with
  | EmptyString => inl n
  | String c s' =>
      if is_digit c then
        let n1 := n * 10 + digit_val c in
        if n1 >? maxUint64 then inr ErrRange else parse_digits n1 s'
      else inr ErrSyntax
  end.

(** [strconv.Atoi] on a platform whose [int] is 64 bits wide.  (Its fast
    path for short strings computes the same result as [ParseInt].) *)
Definition Atoi (s : string) : Z * error :=
  let syntax := (0, Some (NumError "Atoi" s ErrSyntax)) in
  match s with
  | EmptyString => syntax
  | String c s' =>
      let neg := Ascii.eqb c "-" in
      let body := if Ascii.eqb c "-" || Ascii.eqb c "+" then s' else s in
      match body with
      | EmptyString => syntax
      | _ =>
          match parse_digits 0 body with
          | inr ErrSyntax => syntax
          | inr ErrRange =>
              (if neg then minInt64 else maxInt64, Some (NumError "Atoi" s ErrRange))
          | inl un =>
              if negb neg && (maxInt64 <? un) then
                (maxInt64, Some (NumError "Atoi" s ErrRange))
              else if neg && (maxInt64 + 1 <? un) then
                (minInt64, Some (NumError "Atoi" s ErrRange))
              else (if neg then - un else un, None)
          end
      end
  end.

(** The decimal digits of a natural number, most significant first;
    [fuel] bounds the number of digits. *)
Fixpoint digits_of (fuel : nat) (n : Z) (acc : string) : string :=
  match fuel with
  | O => acc
  | S fuel' =>
      let acc' := String (ascii_of_nat (Z.to_nat (48 + n mod 10))) acc in
      if n <? 10 then acc' else digits_of fuel' (n / 10) acc'
  end.

(** [strconv.FormatInt(n, 10)] for a 64-bit [n]. *)
Definition FormatInt (n : Z) : string :=
  if n <? 0 then String "-" (digits_of 20 (- n) EmptyString)
  else digits_of 20 n EmptyString.

End Strconv.

Import Strconv.

(** ** Data model *)

(** [v1alpha1.PipelineState], a string type: the named constants of the
    library, and [OtherState s] for any other value. *)
Inductive PipelineState :=
| TriggeredState
| PendingState
| RunningState
| SuccessState
| FailureState
| AbortedState
| OtherState (s : string).

#[local] Set Warnings "-register-all".

(** [record.ActivityStageOrStep]; the children are pointers. *)
Inductive ActivityStageOrStep :=
| mkStageOrStep (name : string) (status : PipelineState)
                (steps : list (option ActivityStageOrStep)).

Definition StageName (s : ActivityStageOrStep) : string :=
  match s with mkStageOrStep n _ _ => n end.
Definition StageStatus (s : ActivityStageOrStep) : PipelineState :=
  match s with mkStageOrStep _ st _ => st end.
Definition StageSteps (s : ActivityStageOrStep) : list (option ActivityStageOrStep) :=
  match s with mkStageOrStep _ _ l => l end.

(** [record.ActivityRecord].  [StartTime] and [CompletionTime] are pointers
    to a time; a present time is kept as its [Unix()] seconds. *)
Record ActivityRecord := {
  Name : string;
  Owner : string;
  Repo : string;
  Branch : string;
  BuildIdentifier : string;
  Context : string;
  Status : PipelineState;
  GitURL : string;
  LinkURL : string;
  LogURL : string;
  StartTime : option Z;
  CompletionTime : option Z;
  Stages : list (option ActivityStageOrStep)
}.

(** [kube.PipelineDetails]. *)
Record PipelineDetails := {
  GitOwner : string;
  GitRepository : string;
  BranchName : string;
  Pipeline : string;
  Build : string;
  DetailsContext : string
}.

(** [createPipelineDetails]. *)
Definition createPipelineDetails (activity : ActivityRecord) : PipelineDetails :=
  let repoOwner := Owner activity in
  let repoName := Repo activity in
  let buildNumber := BuildIdentifier activity in
  let branchName := "" in
  let context := Context activity in
  let pipeline := Owner activity +:+ "/" +:+ Repo activity +:+ "/" +:+ Branch activity in
  let '(repoOwner, repoName, branchName) :=
    if negb (String.eqb pipeline "") then
      let paths := Split pipeline "/" in
      if (2 <? Z.of_nat (List.length paths)) then
        (if String.eqb repoOwner "" then nth 0 paths "" else repoOwner,
         if String.eqb repoName "" then nth 1 paths "" else repoName,
         nth 2 paths "")
      else (repoOwner, repoName, branchName)
    else (repoOwner, repoName, branchName) in
  let branchName := if String.eqb branchName "" then "master" else branchName in
  let pipeline :=
    if String.eqb pipeline "" && (negb (String.eqb repoName "") && negb (String.eqb repoOwner ""))
    then repoOwner +:+ "/" +:+ repoName +:+ "/" +:+ branchName
    else pipeline in
  {| GitOwner := repoOwner;
     GitRepository := repoName;
     BranchName := branchName;
     Pipeline := pipeline;
     Build := buildNumber;
     DetailsContext := context |}.

(** [getPullRequestNumber]: the pull request number of the activity, or 0
    if it is not a pull request. *)
Definition getPullRequestNumber (activity : ActivityRecord) : Z * error :=
  let pipelineDetails := createPipelineDetails activity in
  if HasPrefix (ToLower (BranchName pipelineDetails)) "pr-" then
    Atoi (TrimPrefix (ToLower (BranchName pipelineDetails)) "pr-")
  else (0, None).

(** *** Statuses *)

(** [slackapp.Status]. *)
Record slackapp_Status := { Emoji : string; Text : string }.

(** The fields of [slackapp.Statuses]. *)
Inductive StatusKind :=
| Merged | Closed | Aborted | Errored | Failed | Approved | NotApproved
| NeedsOkToTest | Hold | Pending | Running | Succeeded | LGTM | Unknown.

(** A non-nil [*slackapp.Status].  The fourteen pointers of the package
    variable [defaultStatuses] are fourteen distinct allocations,
    [DefaultStatus k]; any other pointer is an allocation [ConfigStatus id]
    made when the configuration was loaded, kept with the value it points
    to.  Two pointers are [==] when they are the same allocation. *)
Inductive StatusPtr :=
| DefaultStatus (k : StatusKind)
| ConfigStatus (id : nat) (s : slackapp_Status).

#[global] Instance StatusKind_eq_dec : EqDecision StatusKind.
Proof. solve_decision. Defined.
#[global] Instance slackapp_Status_eq_dec : EqDecision slackapp_Status.
Proof. solve_decision. Defined.
#[global] Instance StatusPtr_eq_dec : EqDecision StatusPtr.
Proof. solve_decision. Defined.

(** The values of the [defaultStatuses] table. *)
Definition defaultStatusValue (k : StatusKind) : slackapp_Status :=
  match k with
  | Merged => {| Emoji := ":purple_heart:"; Text := "merged" |}
  | Closed => {| Emoji := ":closed_book:"; Text := "closed and not merged" |}
  | Aborted => {| Emoji := ":red_circle:"; Text := "build aborted" |}
  | Errored => {| Emoji := ":red_circle:"; Text := "build errored" |}
  | Failed => {| Emoji := ":red_circle:"; Text := "build failed" |}
  | Approved => {| Emoji := ":+1:"; Text := "approved" |}
  | NotApproved => {| Emoji := ":wave:"; Text := "not approved" |}
  | NeedsOkToTest => {| Emoji := ":wave:"; Text := "needs /ok-to-test" |}
  | Hold => {| Emoji := ":octagonal_sign:"; Text := "hold" |}
  | Pending => {| Emoji := ":question:"; Text := "build pending" |}
  | Running => {| Emoji := ":white_circle:"; Text := "build running" |}
  | Succeeded => {| Emoji := ":white_check_mark:"; Text := "build succeeded" |}
  | LGTM => {| Emoji := ":+1:"; Text := "lgtm" |}
  | Unknown => {| Emoji := ":grey_question:"; Text := "" |}
  end.

(** [defaultStatuses.k], a pointer. *)
Definition defaultStatuses (k : StatusKind) : StatusPtr := DefaultStatus k.

(** [*p]. *)
Definition deref (p : StatusPtr) : slackapp_Status :=
  match p with
  | DefaultStatus k => defaultStatusValue k
  | ConfigStatus _ s => s
  end.

(** [slackapp.Statuses]: one pointer per kind, [nil] when the kind has no
    override. *)
Definition Statuses := StatusKind -> option StatusPtr.

(** [getStatus]. *)
Definition getStatus (overrideStatus : option StatusPtr) (defaultStatus : StatusPtr) : StatusPtr :=
  match overrideStatus with
  | None => defaultStatus
  | Some p => p
  end.

(** *** Pull requests, users, rules *)

(** [gits.GitUser]. *)
Record GitUser := { Login : string }.

(** [gits.GitPullRequest].  [Labels] holds the names of the labels (label
    pointers and their [Name] pointers are taken to be non-nil, as the git
    provider builds them); [Merged] is a [*bool]; [IsClosed] is the result of
    the method of that name; [UpdatedAt] is a pointer to a time, kept as its
    [Unix()] seconds. *)
Record GitPullRequest := {
  URL : string;
  Title : string;
  Author : option GitUser;
  RequestedReviewers : list GitUser;
  Labels : list string;
  PRMerged : option bool;
  IsClosed : bool;
  UpdatedAt : option Z
}.

(** [jenkinsv1.User], with the fields of its [Spec] that are read. *)
Record User := {
  UserName : string;
  SpecName : string;
  SpecURL : string;
  SpecEmail : string
}.

(** [slack.User]. *)
Record SlackUser := { ID : string }.

(** [slackapp.Org]. *)
Record Org := { OrgName : string; Repos : list string }.

(** [slackapp.SlackBotMode]: one notification rule. *)
Record SlackBotMode := {
  Orgs : list Org;
  IgnoreLabels : list string;
  Channel : string;
  DirectMessage : bool;
  NotifyReviewers : bool
}.

(** *** Messages *)

(** [slack.AttachmentAction], [slack.AttachmentField], [slack.Attachment]
    with the fields the package sets; [Ts] is a [json.Number], a string. *)
Record AttachmentAction := { ActionType : string; ActionText : string; ActionURL : string }.
Record AttachmentField := { FieldValue : string; FieldShort : bool }.
Record Attachment := {
  CallbackID : string;
  Color : string;
  AttTitle : string;
  AttText : string;
  Fallback : string;
  Actions : list AttachmentAction;
  Fields : list AttachmentField;
  Ts : string;
  FooterIcon : string;
  MarkdownIn : list string
}.

(** [slack.MsgOption], as far as the package builds them. *)
Inductive MsgOption :=
| MsgOptionAttachments (attachments : list Attachment)
| MsgOptionUpdate (timestamp : string).

(** [MessageReference]. *)
Record MessageReference := { ChannelID : string; Timestamp : string }.

(** *** Collaborators *)

(** [gits.GitRepository], the [gitInfo] of a URL. *)
Record GitRepositoryInfo := { Organisation : string; RepositoryName : string }.

(** [gits.GitProvider] together with the user lookup that a
    [users.GitUserResolver] built on it performs. *)
Record GitProvider := {
  GetPullRequest : string -> GitRepositoryInfo -> Z -> option GitPullRequest * error;
  ResolveUser : option GitUser -> option User * error;
  ProviderKey : string
}.

(** [users.GitUserResolver]. *)
Record GitUserResolver := {
  ResolverNamespace : string;
  ResolverGitProvider : GitProvider
}.

Definition Resolve (r : GitUserResolver) (user : option GitUser) : option User * error :=
  ResolveUser (ResolverGitProvider r) user.

Definition GitProviderKey (r : GitUserResolver) : string :=
  ProviderKey (ResolverGitProvider r).

(** A query of the merge configuration ([cfg.Keeper.Queries]). *)
Record KeeperQuery := { ForRepo : string -> string -> bool; QueryLabels : list string }.

(** A call made on the chat client. *)
Inductive SlackCall :=
| CallOpenConversation (user : string)
| CallSendMessage (channelId : string) (options : list MsgOption).

(** The chat client: a state machine with the two calls the package makes.
    [OpenConversation] returns the id of the opened channel;
    [SendMessageContext] returns the channel id and the timestamp of the
    message. *)
Record SlackClient (CS : Type) := {
  OpenConversation : CS -> string -> CS * (string + GoError);
  SendMessageContext : CS -> string -> list MsgOption -> CS * (string * string + GoError)
}.
Arguments OpenConversation {CS}.
Arguments SendMessageContext {CS}.

(** [jenkinsv1.PipelineActivity]: its build identifier ([Spec.Build]), by
    which the siblings are sorted, and what [jx.ConvertPipelineActivity]
    returns for it. *)
Record PipelineActivity := { SpecBuild : string; Converted : ActivityRecord + GoError }.

(** [SlackBotOptions] without its mutable part: the rules, the status
    overrides and the collaborators.  Calls to the git provider, the cluster
    and the user directory are functions of their arguments. *)
Record SlackBotOptions (CS : Type) := {
  Pipelines : list SlackBotMode;
  PullRequests : list SlackBotMode;
  OStatuses : Statuses;
  Namespace : string;
  Client : SlackClient CS;
  CreateGitProviderForURLWithoutKind : string -> (GitProvider * GitRepositoryInfo) + GoError;
  SlackUserLogin : option User -> string * error;
  GetProwConfig : list KeeperQuery + GoError;
  getPipelineActivities : string -> string -> Z -> list PipelineActivity + GoError
}.
Arguments Pipelines {CS}.
Arguments PullRequests {CS}.
Arguments OStatuses {CS}.
Arguments Namespace {CS}.
Arguments Client {CS}.
Arguments CreateGitProviderForURLWithoutKind {CS}.
Arguments SlackUserLogin {CS}.
Arguments GetProwConfig {CS}.
Arguments getPipelineActivities {CS}.

(** The mutable part: [o.Timestamps], the state of the chat client, and the
    calls made on it so far, oldest first. *)
Record BotState (CS : Type) := {
  Timestamps : gmap string (gmap string MessageReference);
  slack : CS;
  calls : list SlackCall
}.
Arguments Timestamps {CS}.
Arguments slack {CS}.
Arguments calls {CS}.

(** ** The package *)

(** [a == b] on strings. *)
Definition str_eqb (a b : string) : bool := String.eqb a b.

(** The loop of [pipelineStatus]: the status of the last stage; a [nil]
    stage faults. *)
Fixpoint lastStageStatus (statusType : PipelineState)
    (stages : list (option ActivityStageOrStep)) : Outcome PipelineState :=
  match stages with
  | [] => Done statusType
  | None :: _ => Panicked
  | Some step :: rest => lastStageStatus (StageStatus step) rest
  end.

(** [pipelineStatus].  The [switch] has an empty case for the aborted and
    failed states (a Go case does not fall through) and returns only for the
    succeeded state; every other activity takes the status of its last
    stage. *)
Definition pipelineStatus (activity : ActivityRecord) : Outcome PipelineState :=
  let statusType := Status activity in
  let returned :=
    match statusType with
    | AbortedState | FailureState => None
    | SuccessState => Some statusType
    | _ => None
    end in
  match returned with
  | Some r => Done r
  | None => lastStageStatus statusType (Stages activity)
  end.

(** [attachmentColor]. *)
Definition attachmentColor (statusType : PipelineState) : string :=
  match statusType with
  | FailureState => "danger"
  | SuccessState => "good"
  | RunningState | PendingState => "#3AA3E3"
  | _ => ""
  end.

(** [pipelineIcon]. *)
Definition pipelineIcon (statusType : PipelineState) : string :=
  match statusType with
  | FailureState => ""
  | SuccessState => ""
  | RunningState | PendingState => ""
  | _ => ""
  end.

(** [link]. *)
Definition link (text url : string) : string :=
  if negb (str_eqb url "") then
    let text := if str_eqb text "" then url else text in
    "<" +:+ url +:+ "|" +:+ text +:+ ">"
  else text.

(** [mentionUser]. *)
Definition mentionUser (id : string) : string := "<@" +:+ id +:+ ">".

(** [channelName]. *)
Definition channelName (channel : string) : string :=
  if negb (HasPrefix channel "#") then "#" +:+ channel else channel.

(** [pullRequestName]. *)
Definition pullRequestName (url : string) : string :=
  let idx := LastIndex url "/" in
  if 0 <? idx then "#" +:+ drop_bytes (Z.to_nat (idx + 1)) url else url.

(** [repositoryName]. *)
Definition repositoryName (act : ActivityRecord) : string :=
  let details := createPipelineDetails act in
  let gitURL := GitURL act in
  let ownerURL := TrimSuffix gitURL "/" in
  let idx := LastIndex ownerURL "/" in
  let ownerURL := if 0 <? idx then take_bytes (Z.to_nat (idx + 1)) ownerURL else ownerURL in
  link (GitOwner details) ownerURL +:+ "/" +:+ link (GitRepository details) gitURL.

(** [buildNumber]. *)
Definition buildNumber (activity : ActivityRecord) : string :=
  link ("#" +:+ BuildIdentifier activity) (LinkURL activity).

(** [pipelineName]. *)
Definition pipelineName (activity : ActivityRecord) : string * error :=
  let name := Owner activity +:+ "/" +:+ Repo activity +:+ "/" +:+ Branch activity in
  if HasSuffix name "/master" then ("Release Pipeline", None)
  else
    let '(prn, err) := getPullRequestNumber activity in
    match err with
    | Some e => ("", Some (Wrap e ("getting pull request number from " +:+ Name activity)))
    | None => if 0 <? prn then ("Pull Request Pipeline", None) else ("Pipeline", None)
    end.

(** [containsOneOf]. *)
Definition containsOneOf (a : list string) (x : list string) : bool :=
  existsb (fun n => existsb (fun y => str_eqb y n) x) a.

(** [getLastUpdatedTime]. *)
Definition getLastUpdatedTime (pr : option GitPullRequest) (activity : option ActivityRecord) : Z :=
  let updatedEpochTime := -1 in
  let updatedEpochTime :=
    match pr with
    | Some p => match UpdatedAt p with Some t => t | None => updatedEpochTime end
    | None => updatedEpochTime
    end in
  let updatedEpochTime :=
    match activity with
    | Some a =>
        match StartTime a with
        | Some start => if updatedEpochTime <? start then start else updatedEpochTime
        | None => updatedEpochTime
        end
    | None => updatedEpochTime
    end in
  let updatedEpochTime :=
    match activity with
    | Some a =>
        match CompletionTime a with
        | Some completed => if updatedEpochTime <? completed then completed else updatedEpochTime
        | None => updatedEpochTime
        end
    | None => updatedEpochTime
    end in
  updatedEpochTime.

(** [SlackAnnotationPrefix]. *)
Definition SlackAnnotationPrefix : string := "bot.slack.apps.jenkins-x.io".

(** [annotationKey]. *)
Definition annotationKey (channel messageType : string) : string :=
  SlackAnnotationPrefix +:+ "-" +:+ messageType +:+ "/" +:+ TrimPrefix channel "#".

Section Bot.

Context {CS : Type}.

(** Helpers of the package that are declared outside the file embedded
    here, and [strings.Title]. *)
Variable strings_Title : string -> string.
Variable getUserFriendlyMapping : string -> string.

Variable o : SlackBotOptions CS.

(** [statusString]. *)
Definition statusString (statusType : PipelineState) : string :=
  match statusType with
  | FailureState | AbortedState =>
      Emoji (deref (getStatus (OStatuses o Failed) (defaultStatuses Failed)))
  | SuccessState =>
      Emoji (deref (getStatus (OStatuses o Succeeded) (defaultStatuses Succeeded)))
  | RunningState | PendingState =>
      Emoji (deref (getStatus (OStatuses o Running) (defaultStatuses Running)))
  | _ => ""
  end.

(** [getPullRequest]: the pull request of the activity, or [nil] if it is
    not a pull request. *)
Definition getPullRequest (activity : ActivityRecord)
  : option GitPullRequest * option GitUserResolver * error :=
  let '(prn, err) := getPullRequestNumber activity in
  if 0 <? prn then
    match err with
    | Some e => (None, None, Some e)
    | None =>
        if str_eqb (GitURL activity) "" then
          (None, None, Some (Errorf ("no GitURL on PipelineActivity " +:+ Name activity)))
        else
          match CreateGitProviderForURLWithoutKind o (GitURL activity) with
          | inr e => (None, None, Some e)
          | inl (gitProvider, gitInfo) =>
              let '(prn, err) := getPullRequestNumber activity in
              match err with
              | Some e => (None, None, Some e)
              | None =>
                  let resolver := {| ResolverNamespace := Namespace o;
                                     ResolverGitProvider := gitProvider |} in
                  let '(pr, err) := GetPullRequest gitProvider (Organisation gitInfo) gitInfo prn in
                  (pr, Some resolver, err)
              end
          end
    end
  else (None, None, None).

(** The first loop of [isEnabled]. *)
Fixpoint orgsFound (activity : ActivityRecord) (found : bool) (orgs : list Org) : bool :=
  match orgs with
  | [] => found
  | org :: rest =>
      if str_eqb (OrgName org) (Owner activity) then
        match Repos org with
        | [] => true
        | repos =>
            orgsFound activity
              (if existsb (fun r => str_eqb r (Repo activity)) repos then true else found) rest
        end
      else orgsFound activity found rest
  end.

(** The second loop of [isEnabled], on a non-nil pull request: the names
    of the labels of the pull request that are to be ignored. *)
Definition ignoredLabels (ignoreLabels : list string) (pr : GitPullRequest) : list string :=
  flat_map (fun l => List.filter (fun v => str_eqb v l) (Labels pr)) ignoreLabels.

(** [isEnabled]. *)
Definition isEnabled (activity : ActivityRecord) (orgs : list Org) (ignoreLabels : list string)
  : Outcome (bool * option GitPullRequest * option GitUserResolver * error) :=
  if (0 <? Z.of_nat (List.length orgs)) && negb (orgsFound activity false orgs) then
    Done (false, None, None, None)
  else
    let '(pr, resolver, err) := getPullRequest activity in
    match err with
    | Some e => Done (false, None, None, Some (WithStack e))
    | None =>
        if 0 <? Z.of_nat (List.length ignoreLabels) then
          match pr with
          | None => Panicked
          | Some p =>
              let found := ignoredLabels ignoreLabels p in
              if 0 <? Z.of_nat (List.length found) then Done (false, None, None, None)
              else Done (true, pr, resolver, None)
          end
        else Done (true, pr, resolver, None)
    end.

(** [isLgtmRepo]. *)
Definition isLgtmRepo (activity : ActivityRecord) : bool * error :=
  match GetProwConfig o with
  | inr e => (false, Some (Wrap e "getting prow config"))
  | inl queries =>
      let pipeDetails := createPipelineDetails activity in
      (existsb (fun query =>
                  ForRepo query (GitOwner pipeDetails) (GitRepository pipeDetails)
                  && existsb (fun l => str_eqb l "lgtm") (QueryLabels query)) queries,
       None)
  end.

(** [mentionOrLinkUser]. *)
Definition mentionOrLinkUser (user : option User) : Outcome (string * error) :=
  let '(id, err) := SlackUserLogin o user in
  match err with
  | Some e => Done ("", Some e)
  | None =>
      if negb (str_eqb id "") then Done (mentionUser id, None)
      else
        match user with
        | None => Panicked
        | Some u =>
            if negb (str_eqb (SpecName u) "") && negb (str_eqb (SpecURL u) "") then
              Done (link (SpecName u) (SpecURL u), None)
            else if negb (str_eqb (SpecName u) "") then Done (SpecName u, None)
            else Done ("", None)
        end
  end.

(** [resolveGitUserToSlackUser]; a [nil] resolver is taken to fault when it
    is used. *)
Definition resolveGitUserToSlackUser (user : option GitUser) (resolver : option GitUserResolver)
  : Outcome (string * error) :=
  match resolver with
  | None => Panicked
  | Some r =>
      let '(resolved, err) := Resolve r user in
      match err with
      | Some e => Done ("", Some e)
      | None => Done (SlackUserLogin o resolved)
      end
  end.

(** *** Stage attachments *)

Definition knownPipelineStageTypes : list string :=
  ["setup"; "setVersion"; "preBuild"; "build"; "postBuild"; "promote"; "pipeline"].

(** White space, among the bytes of ASCII.  [strings.TrimSpace] and
    [strings.Fields] also cut at the white space of Unicode, so the model
    follows the source on step names without such characters. *)
Definition is_space (c : ascii) : bool :=
  let n := nat_of_ascii c in ((n =? 32) || ((9 <=? n) && (n <=? 13)))%nat.

Fixpoint takeWord (s : string) : string :=
  match s with
  | EmptyString => EmptyString
  | String c s' => if is_space c then EmptyString else String c (takeWord s')
  end.

(** [strings.Fields(name)[0]], or [None] when [strings.TrimSpace(name)]
    is empty. *)
Fixpoint firstField (s : string) : option string :=
  match s with
  | EmptyString => None
  | String c s' => if is_space c then firstField s' else Some (takeWord s)
  end.

(** Modelled from the spec: [containsIgnoreCase] is declared outside the
    file embedded here; a step name is recognised when its first word is
    one of the keywords, compared case-insensitively. *)
Definition containsIgnoreCase (l : list string) (w : string) : bool :=
  existsb (fun k => str_eqb (ToLower k) (ToLower w)) l.

(** [isUserPipelineStep]. *)
Definition isUserPipelineStep (name : string) : bool :=
  match firstField name with
  | None => false
  | Some firstWord => if containsIgnoreCase knownPipelineStageTypes firstWord then true else false
  end.

(** [createStepAttachment]. *)
Definition createStepAttachment (step : option ActivityStageOrStep)
    (name description iconUrl : string) : Outcome Attachment :=
  match step with
  | None => Panicked
  | Some st =>
      let text := description in
      let textName := strings_Title name in
      let textName := if str_eqb textName "" then StageName st else textName in
      let textName := getUserFriendlyMapping textName in
      let stepStatus := StageStatus st in
      let textMessage := statusString stepStatus +:+ " " +:+ textName in
      let textMessage :=
        if negb (str_eqb text "") then textMessage +:+ " " +:+ text else textMessage in
      Done {| CallbackID := ""; Color := attachmentColor stepStatus; AttTitle := "";
              AttText := textMessage; Fallback := ""; Actions := []; Fields := [];
              Ts := ""; FooterIcon := iconUrl; MarkdownIn := ["fields"] |}
  end.

(** The loop of [createStageAttachments] over the steps of a stage. *)
Fixpoint stepAttachments (attachments : list Attachment)
    (steps : list (option ActivityStageOrStep)) : Outcome (list Attachment) :=
  match steps with
  | [] => Done attachments
  | None :: _ => Panicked
  | Some step :: rest =>
      if isUserPipelineStep (StageName step) then
        try! a := createStepAttachment (Some step) "" "" "" in
        stepAttachments (attachments ++ [a])%list rest
      else stepAttachments attachments rest
  end.

(** [createStageAttachments], on a non-nil stage. *)
Definition createStageAttachments (activity : ActivityRecord) (stage : ActivityStageOrStep)
  : Outcome (list Attachment) :=
  let name := StageName stage in
  let name := if str_eqb name "" then "Stage" else name in
  try! first := createStepAttachment (Some stage) name "" "" in
  let attachments := [first] in
  if negb (str_eqb (StageName stage) "meta pipeline") then
    stepAttachments attachments (StageSteps stage)
  else Done attachments.

(** [createAttachments]. *)
Definition createAttachments (activity : ActivityRecord) (step : option ActivityStageOrStep)
  : Outcome (list Attachment) :=
  match step with
  | Some stage => createStageAttachments activity stage
  | None => Done []
  end.

(** The last loop of [createPipelineMessage]. *)
Fixpoint stageAttachments (activity : ActivityRecord) (attachments : list Attachment)
    (stages : list (option ActivityStageOrStep)) : Outcome (list Attachment) :=
  match stages with
  | [] => Done attachments
  | step :: rest =>
      try! sa := createAttachments activity step in
      stageAttachments activity
        (if 0 <? Z.of_nat (List.length sa) then (attachments ++ sa)%list else attachments) rest
  end.

(** *** The pipeline message *)

(** [attachment.Ts = ts]. *)
Definition setTs (a : Attachment) (ts : string) : Attachment :=
  {| CallbackID := CallbackID a; Color := Color a; AttTitle := AttTitle a;
     AttText := AttText a; Fallback := Fallback a; Actions := Actions a;
     Fields := Fields a; Ts := ts; FooterIcon := FooterIcon a;
     MarkdownIn := MarkdownIn a |}.

Definition button (text url : string) : AttachmentAction :=
  {| ActionType := "button"; ActionText := text; ActionURL := url |}.

(** [createPipelineMessage]; [now] is the [Unix()] value of [time.Now()].
    The result is the attachments ([None] for a [nil] slice), the
    [createIfMissing] flag and the error. *)
Definition createPipelineMessage (now : Z) (activity : ActivityRecord)
    (pr : option GitPullRequest) : Outcome (option (list Attachment) * bool * error) :=
  try! status := pipelineStatus activity in
  let icon := pipelineIcon status in
  let '(pipelineName, err) := pipelineName activity in
  match err with
  | Some e => Done (None, false, Some (Wrap e ("getting pipeline name for " +:+ Name activity)))
  | None =>
      let messageText := icon +:+ pipelineName +:+ " " +:+ repositoryName activity in
      let '(prn, err) := getPullRequestNumber activity in
      match err with
      | Some e => Done (None, false, Some e)
      | None =>
          try! messageText :=
            (if 0 <? prn then
               match pr with
               | None => Panicked
               | Some p => Done (messageText +:+ link (pullRequestName (URL p)) (URL p))
               end
             else Done messageText) in
          let messageText := messageText +:+ " (Build " +:+ buildNumber activity +:+ ")" in
          let fallback : list string := [] in
          let actions : list AttachmentAction := [] in
          let '(fallback, actions) :=
            if negb (str_eqb (GitURL activity) "") then
              ((fallback ++ ["Repo: " +:+ GitURL activity])%list,
               (actions ++ [button "Repository" (GitURL activity)])%list)
            else (fallback, actions) in
          let '(fallback, actions) :=
            if negb (str_eqb (LinkURL activity) "") then
              ((fallback ++ ["Build: " +:+ LinkURL activity])%list,
               (actions ++ [button "Pipeline" (LinkURL activity)])%list)
            else (fallback, actions) in
          let '(fallback, actions) :=
            if negb (str_eqb (LogURL activity) "") then
              ((fallback ++ ["Logs: " +:+ LogURL activity])%list,
               (actions ++ [button "Build Logs"
                              (ReplaceAll (LogURL activity) "gs://"
                                 "https://storage.cloud.google.com/")])%list)
            else (fallback, actions) in
          let attachment :=
            {| CallbackID := "pipelineactivity:" +:+ Name activity;
               Color := attachmentColor status;
               AttTitle := messageText;
               AttText := "";
               Fallback := Join fallback ", ";
               Actions := actions;
               Fields := [];
               Ts := "";
               FooterIcon := "";
               MarkdownIn := [] |} in
          let lastUpdatedTime := getLastUpdatedTime None (Some activity) in
          let attachment :=
            if 0 <? lastUpdatedTime then setTs attachment (FormatInt lastUpdatedTime)
            else attachment in
          let dayAgo := now - 24 * 3600 in
          let createIfMissing := true in
          let createIfMissing := if lastUpdatedTime <? dayAgo then false else createIfMissing in
          let attachments := [attachment] in
          try! attachments := stageAttachments activity attachments (Stages activity) in
          Done (Some attachments, createIfMissing, None)
      end
  end.

(** *** The review message *)

(** The loop of [createReviewersMessage] over the requested reviewers:
    the mentions, or the error that ends the function. *)
Fixpoint reviewerMentions (resolver : GitUserResolver) (mentions : list string)
    (requested : list GitUser) : Outcome (list string * error) :=
  match requested with
  | [] => Done (mentions, None)
  | r :: rest =>
      let '(u, err) := Resolve resolver (Some r) in
      match err with
      | Some e =>
          Done (mentions,
                Some (Wrap e ("resolving " +:+ GitProviderKey resolver +:+ " user "
                              +:+ Login r +:+ " as Jenkins X user")))
      | None =>
          match u with
          | Some usr =>
              try! me := mentionOrLinkUser u in
              let '(mention, err) := me in
              match err with
              | Some e =>
                  Done (mentions,
                        Some (Wrap e ("generating mention or link for user record "
                                      +:+ UserName usr +:+ " with email " +:+ SpecEmail usr)))
              | None => reviewerMentions resolver (mentions ++ [mention])%list rest
              end
          | None => reviewerMentions resolver mentions rest
          end
      end
  end.

(** The review status computed by [createReviewersMessage] (the
    assignments to [reviewStatus], in the order of the source). *)
Definition reviewStatusOf (lgtmRepo : bool) (pr : GitPullRequest) : StatusPtr :=
  let reviewStatus := getStatus (OStatuses o NotApproved) (defaultStatuses NotApproved) in
  let reviewStatus :=
    if lgtmRepo then
      if containsOneOf (Labels pr) ["lgtm"]
      then getStatus (OStatuses o LGTM) (defaultStatuses LGTM) else reviewStatus
    else
      if containsOneOf (Labels pr) ["approved"]
      then getStatus (OStatuses o Approved) (defaultStatuses Approved) else reviewStatus in
  let reviewStatus :=
    if containsOneOf (Labels pr) ["do-not-merge/hold"]
    then getStatus (OStatuses o Hold) (defaultStatuses Hold) else reviewStatus in
  let reviewStatus :=
    if containsOneOf (Labels pr) ["needs-ok-to-test"]
    then getStatus (OStatuses o NeedsOkToTest) (defaultStatuses NeedsOkToTest)
    else reviewStatus in
  reviewStatus.

(** The build status computed by [createReviewersMessage]. *)
Definition buildStatusOf (pr : GitPullRequest) (activity : ActivityRecord) : StatusPtr :=
  let buildStatus := getStatus (OStatuses o Unknown) (defaultStatuses Unknown) in
  if match PRMerged pr with Some b => b | None => false end then
    getStatus (OStatuses o Merged) (defaultStatuses Merged)
  else if IsClosed pr then
    getStatus (OStatuses o Closed) (defaultStatuses Closed)
  else
    match Status activity with
    | PendingState => getStatus (OStatuses o Pending) (defaultStatuses Pending)
    | RunningState => getStatus (OStatuses o Running) (defaultStatuses Running)
    | SuccessState => getStatus (OStatuses o Succeeded) (defaultStatuses Succeeded)
    | FailureState => getStatus (OStatuses o Failed) (defaultStatuses Failed)
    | AbortedState => getStatus (OStatuses o Aborted) (defaultStatuses Aborted)
    | _ => buildStatus
    end.

(** [createReviewersMessage].  The result is the attachments ([None] for
    a [nil] slice), the reviewers, the build status ([None] for [nil]) and
    the error. *)
Definition createReviewersMessage (activity : ActivityRecord) (notifyReviewers : bool)
    (pr : option GitPullRequest) (resolver : option GitUserResolver)
  : Outcome (option (list Attachment) * list (option SlackUser) * option StatusPtr * error) :=
  match pr, resolver with
  | None, _ => Panicked
  | _, None => Panicked
  | Some p, Some rs =>
      let '(author, err) := Resolve rs (Author p) in
      match err with
      | Some e => Done (None, [], None, Some (WithStack e))
      | None =>
          let attachments : list Attachment := [] in
          let actions : list AttachmentAction := [] in
          let fallback : list string := [] in
          try! status := pipelineStatus activity in
          try! an := mentionOrLinkUser author in
          let '(authorName, err) := an in
          match err with
          | Some e => Done (None, [], None, Some e)
          | None =>
              let mentions : list string := [] in
              let reviewers : list (option SlackUser) := [] in
              try! ms := (if notifyReviewers
                          then reviewerMentions rs mentions (RequestedReviewers p)
                          else Done (mentions, None)) in
              let '(mentions, err) := ms in
              match err with
              | Some e => Done (None, [], None, Some e)
              | None =>
                  let '(lgtmRepo, err) := isLgtmRepo activity in
                  match err with
                  | Some e =>
                      Done (None, [], None,
                            Some (Wrap e ("checking if repo for " +:+ Name activity
                                          +:+ " is configured for lgtm")))
                  | None =>
                      let reviewStatus := reviewStatusOf lgtmRepo p in
                      let buildStatus := buildStatusOf p activity in
                      let mentionsString := Join mentions " " in
                      let pleaseText := "please" in
                      let pleaseText :=
                        if (Z.of_nat (List.length mentions) =? 0) then "Please" else pleaseText in
                      let messageText :=
                        mentionsString +:+ " " +:+ pleaseText +:+ " review "
                        +:+ link ("Pull Request " +:+ pullRequestName (URL p)
                                  +:+ " (" +:+ Title p +:+ ")") (URL p)
                        +:+ " created on " +:+ repositoryName activity
                        +:+ " by " +:+ authorName in
                      let attachment :=
                        {| CallbackID := "preview:" +:+ Name activity;
                           Color := attachmentColor status;
                           AttTitle := "";
                           AttText := messageText;
                           Fallback := Join fallback ", ";
                           Actions := actions;
                           Fields :=
                             [ {| FieldValue := Emoji (deref reviewStatus) +:+ " "
                                                +:+ Text (deref reviewStatus);
                                  FieldShort := true |};
                               {| FieldValue := Emoji (deref buildStatus) +:+ " "
                                                +:+ Text (deref buildStatus);
                                  FieldShort := true |} ];
                           Ts := "";
                           FooterIcon := "";
                           MarkdownIn := [] |} in
                      let updatedEpochTime := getLastUpdatedTime (Some p) (Some activity) in
                      let attachment :=
                        if 0 <? updatedEpochTime
                        then setTs attachment (FormatInt updatedEpochTime) else attachment in
                      let attachments := (attachments ++ [attachment])%list in
                      Done (Some attachments, reviewers, Some buildStatus, None)
                  end
              end
          end
      end
  end.

(** *** Sibling activities *)

(** The build number by which the activities are sorted. *)
Definition buildKey (a : PipelineActivity) : Z := fst (Atoi (SpecBuild a)).

(** [a] is put after the activities of [l] whose build number is not above
    its own. *)
Fixpoint insertByBuild (a : PipelineActivity) (l : list PipelineActivity)
  : list PipelineActivity :=
  match l with
  | [] => [a]
  | b :: l' => if buildKey b <=? buildKey a then b :: insertByBuild a l' else a :: b :: l'
  end.

(** Modelled from the spec: the type [byBuildNumber], whose order
    [sort.Sort] uses, is declared outside the file embedded here; the
    activities are sorted ascending by build identifier interpreted as an
    integer, ties keeping the order of retrieval. *)
Definition sortByBuildNumber (l : list PipelineActivity) : list PipelineActivity :=
  fold_left (fun acc a => insertByBuild a acc) l [].

(** The conversion loop of [findPipelineActivities]. *)
Fixpoint convertAll (records : list ActivityRecord) (items : list PipelineActivity)
  : list ActivityRecord + GoError :=
  match items with
  | [] => inl records
  | a :: rest =>
      match Converted a with
      | inr e => inr e
      | inl rec => convertAll (records ++ [rec])%list rest
      end
  end.

(** [findPipelineActivities]: the oldest and the latest sibling of the
    activity by build number, and all of them. *)
Definition findPipelineActivities (activity : ActivityRecord)
  : option ActivityRecord * option ActivityRecord * list ActivityRecord * error :=
  let '(prn, err) := getPullRequestNumber activity in
  match err with
  | Some e => (None, None, [], Some e)
  | None =>
      let pipelineDetails := createPipelineDetails activity in
      match getPipelineActivities o (GitOwner pipelineDetails) (GitRepository pipelineDetails) prn with
      | inr e => (None, None, [], Some e)
      | inl items =>
          match convertAll [] (sortByBuildNumber items) with
          | inr e => (None, None, [], Some e)
          | inl records =>
              if 0 <? Z.of_nat (List.length records) then
                (head records, last records, records, None)
              else (None, None, [], None)
          end
      end
  end.

(** *** Posting *)

Definition pullRequestReviewMessageType : string := "pr".
Definition pipelineMessageType : string := "pipeline".

(** [o.Timestamps[channel][key]]: reading a missing outer or inner entry
    gives [nil]. *)
Definition lookupRef (ts : gmap string (gmap string MessageReference))
    (channel key : string) : option MessageReference :=
  match ts !! channel with
  | Some inner => inner !! key
  | None => None
  end.

(** [o.Timestamps[channel][key] = ref]; [postMessage] has created the inner
    map of the channel by then. *)
Definition storeRef (ts : gmap string (gmap string MessageReference))
    (channel key : string) (ref : MessageReference)
  : gmap string (gmap string MessageReference) :=
  <[channel := <[key := ref]> (default ∅ (ts !! channel))]> ts.

(** [o.Timestamps = ts]. *)
Definition withTimestamps (st : BotState CS)
    (ts : gmap string (gmap string MessageReference)) : BotState CS :=
  {| Timestamps := ts; slack := slack st; calls := calls st |}.

(** One call on the chat client: the client moves on and the call is
    logged. *)
Definition called (st : BotState CS) (s' : CS) (c : SlackCall) : BotState CS :=
  {| Timestamps := Timestamps st; slack := s'; calls := (calls st ++ [c])%list |}.

(** [postMessage]. *)
Definition postMessage (channel : string) (directMessage : bool) (messageType : string)
    (activity : ActivityRecord) (all : list ActivityRecord) (attachments : list Attachment)
    (createIfMissing : bool) (st : BotState CS) : BotState CS * error :=
  let timestamp := "" in
  let channelId := channel in
  let messageRef := lookupRef (Timestamps st) channel (Name activity) in
  let '(timestamp, channelId) :=
    match messageRef with
    | Some ref => (Timestamp ref, ChannelID ref)
    | None => (timestamp, channelId)
    end in
  let st :=
    match Timestamps st !! channel with
    | Some _ => st
    | None => withTimestamps st (<[channel := ∅]> (Timestamps st))
    end in
  let options := [MsgOptionAttachments attachments] in
  let opened : BotState CS * (string + GoError) :=
    if directMessage then
      let '(s', res) := OpenConversation (Client o) (slack st) channel in
      let st := called st s' (CallOpenConversation channel) in
      match res with
      | inr e => (st, inr (Wrap e ("(open converation channelId: " +:+ channelId +:+ ")")))
      | inl conversationId => (st, inl conversationId)
      end
    else (st, inl channelId) in
  match opened with
  | (st, inr e) => (st, Some e)
  | (st, inl channelId) =>
      let post := true in
      let '(options, post) :=
        if negb (str_eqb timestamp "") then
          ((options ++ [MsgOptionUpdate timestamp])%list, post)
        else if createIfMissing then (options, post)
        else (options, false) in
      if post then
        let '(s', res) := SendMessageContext (Client o) (slack st) channelId options in
        let st := called st s' (CallSendMessage channelId options) in
        match res with
        | inr e => (st, Some (Wrap e "(post channelId: , timestamp: )"))
        | inl (channelId, timestamp) =>
            (withTimestamps st
               (storeRef (Timestamps st) channel (Name activity)
                  {| ChannelID := channelId; Timestamp := timestamp |}),
             None)
        end
      else (st, None)
  end.

(** *** The two flows *)

(** A [for _, cfg := range ...] loop whose body may return from the
    function: the body gives the error it returns with, or [None] to go on
    with the next rule; after the last rule the function returns [nil]. *)
Fixpoint forRules (body : SlackBotMode -> BotState CS -> Outcome (BotState CS * option error))
    (rules : list SlackBotMode) (st : BotState CS) : Outcome (BotState CS * error) :=
  match rules with
  | [] => Done (st, None)
  | cfg :: rest =>
      try! r := body cfg st in
      match r with
      | (st, Some err) => Done (st, err)
      | (st, None) => forRules body rest st
      end
  end.

(** The body of the loop of [PipelineMessage].  The source formats the
    author of the pull request into the message that wraps a failed
    resolution of the user; the model keeps the fixed part of that text. *)
Definition pipelineRule (now : Z) (activity : ActivityRecord) (cfg : SlackBotMode)
    (st : BotState CS) : Outcome (BotState CS * option error) :=
  try! en := isEnabled activity (Orgs cfg) (IgnoreLabels cfg) in
  let '(enabled, pullRequest, resolver, err) := en in
  match err with
  | Some e => Done (st, Some (Some (WithStack e)))
  | None =>
      if enabled then
        try! msg := createPipelineMessage now activity pullRequest in
        let '(attachments, createIfMissing, err) := msg in
        match err with
        | Some e => Done (st, Some (Some e))
        | None =>
            let attachments := default [] attachments in
            let '(st, ret) :=
              if negb (str_eqb (Channel cfg) "") then
                let channel := channelName (Channel cfg) in
                let '(st, err) :=
                  postMessage channel false pipelineMessageType activity [] attachments
                    createIfMissing st in
                match err with
                | Some e =>
                    (st, Some (Some (Wrap e ("error posting cfg for " +:+ Name activity
                                             +:+ " to channel " +:+ channel))))
                | None => (st, None)
                end
              else (st, None) in
            match ret with
            | Some r => Done (st, Some r)
            | None =>
                if DirectMessage cfg then
                  match pullRequest with
                  | Some p =>
                      try! rid := resolveGitUserToSlackUser (Author p) resolver in
                      let '(id, err) := rid in
                      match err with
                      | Some e =>
                          Done (st, Some (Some (Wrap e "Cannot resolve Slack ID for Git user")))
                      | None =>
                          if negb (str_eqb id "") then
                            let '(st, err) :=
                              postMessage id true pipelineMessageType activity [] attachments
                                createIfMissing st in
                            match err with
                            | Some e =>
                                Done (st, Some (Some (Wrap e ("error sending direct pipeline for "
                                                              +:+ Name activity +:+ " to " +:+ id))))
                            | None => Done (st, None)
                            end
                          else Done (st, None)
                      end
                  | None => Done (st, None)
                  end
                else Done (st, None)
            end
        end
      else Done (st, None)
  end.

(** [PipelineMessage]; [now] is the [Unix()] value of [time.Now()]. *)
Definition PipelineMessage (now : Z) (activity : ActivityRecord) (st : BotState CS)
  : Outcome (BotState CS * error) :=
  if str_eqb (Name activity) "" then
    Done (st, Some (Errorf "PipelineActivity name cannot be empty"))
  else forRules (pipelineRule now activity) (Pipelines o) st.

(** The loop of [ReviewRequestMessage] over the reviewers. *)
Fixpoint directReviewMessages (activity oldestActivity : ActivityRecord)
    (all : list ActivityRecord) (attachments : list Attachment) (createIfMissing : bool)
    (reviewers : list (option SlackUser)) (st : BotState CS) : BotState CS * option error :=
  match reviewers with
  | [] => (st, None)
  | None :: rest =>
      directReviewMessages activity oldestActivity all attachments createIfMissing rest st
  | Some user :: rest =>
      let '(st, err) :=
        postMessage (ID user) true pullRequestReviewMessageType oldestActivity all attachments
          createIfMissing st in
      match err with
      | Some e =>
          (st, Some (Some (Wrap e ("error sending direct PR review request for "
                                   +:+ Name activity +:+ " to " +:+ ID user))))
      | None =>
          directReviewMessages activity oldestActivity all attachments createIfMissing rest st
      end
  end.

(** The [createIfMissing] flag that [ReviewRequestMessage] computes from the
    build status: the pointer is compared with the two pointers
    [defaultStatuses.Merged] and [defaultStatuses.Closed]. *)
Definition reviewCreateIfMissing (buildStatus : option StatusPtr) : bool :=
  let createIfMissing := true in
  if bool_decide (buildStatus = Some (defaultStatuses Merged))
     || bool_decide (buildStatus = Some (defaultStatuses Closed))
  then false else createIfMissing.

(** The branch of [ReviewRequestMessage] taken when the build number of
    the activity is not below the latest one: the message is rendered and
    posted, keyed by the oldest activity. *)
Definition reviewPost (activity : ActivityRecord) (cfg : SlackBotMode)
    (pullRequest : option GitPullRequest) (resolver : option GitUserResolver)
    (oldestActivity : ActivityRecord) (all : list ActivityRecord)
    (st : BotState CS) : Outcome (BotState CS * option error) :=
  try! msg := createReviewersMessage activity (NotifyReviewers cfg) pullRequest resolver in
  let '(attachments, reviewers, buildStatus, err) := msg in
  match err with
  | Some e => Done (st, Some (Some e))
  | None =>
      let createIfMissing := reviewCreateIfMissing buildStatus in
      match attachments with
      | Some attachments =>
          let '(st, ret) :=
            if negb (str_eqb (Channel cfg) "") then
              let channel := channelName (Channel cfg) in
              let '(st, err) :=
                postMessage channel false pullRequestReviewMessageType oldestActivity all
                  attachments createIfMissing st in
              match err with
              | Some e =>
                  (st, Some (Some (Wrap e ("error posting PR review request for "
                                           +:+ Name activity +:+ " to channel " +:+ channel))))
              | None => (st, None)
              end
            else (st, None) in
          match ret with
          | Some r => Done (st, Some r)
          | None =>
              if DirectMessage cfg && NotifyReviewers cfg then
                Done (directReviewMessages activity oldestActivity all attachments
                        createIfMissing reviewers st)
              else Done (st, None)
          end
      | None => Done (st, None)
      end
  end.

(** The body of the loop of [ReviewRequestMessage]. *)
Definition reviewRule (activity : ActivityRecord) (cfg : SlackBotMode) (st : BotState CS)
  : Outcome (BotState CS * option error) :=
  try! en := isEnabled activity (Orgs cfg) (IgnoreLabels cfg) in
  let '(enabled, pullRequest, resolver, err) := en in
  match err with
  | Some e => Done (st, Some (Some (WithStack e)))
  | None =>
      if enabled then
        let '(oldestActivity, latestActivity, all, err) := findPipelineActivities activity in
        match err with
        | Some e => Done (st, Some (Some e))
        | None =>
            let '(buildNumber, err) := Atoi (Build (createPipelineDetails activity)) in
            match err with
            | Some e => Done (st, Some (Some e))
            | None =>
                let latestBuildNumber := -1 in
                let latestBuildNumber :=
                  match latestActivity with
                  | Some latest => fst (Atoi (Build (createPipelineDetails latest)))
                  | None => latestBuildNumber
                  end in
                let oldestActivity :=
                  match oldestActivity with
                  | Some oldest => oldest
                  | None => activity
                  end in
                if latestBuildNumber <=? buildNumber then
                  reviewPost activity cfg pullRequest resolver oldestActivity all st
                else Done (st, None)
            end
        end
      else Done (st, None)
  end.

(** [ReviewRequestMessage]. *)
Definition ReviewRequestMessage (activity : ActivityRecord) (st : BotState CS)
  : Outcome (BotState CS * error) :=
  if str_eqb (Name activity) "" then
    Done (st, Some (Errorf "PipelineActivity name cannot be empty"))
  else
    let '(prn, err) := getPullRequestNumber activity in
    match err with
    | Some e => Done (st, Some (Wrap e ("getting pull request number " +:+ Name activity)))
    | None =>
        if 0 <? prn then forRules (reviewRule activity) (PullRequests o) st
        else Done (st, None)
    end.

End Bot.

(** *** Other helpers of the package *)

Section Helpers.

Context {CS : Type}.

(** [strings.Title] and [util.UrlJoin], which are library functions. *)
Variable strings_Title : string -> string.
Variable UrlJoin : list string -> string.

Variable o : SlackBotOptions CS.

(** [getSlackUserID]; a [nil] resolver is taken to fault when it is used. *)
Definition getSlackUserID (gitUser : option GitUser) (resolver : option GitUserResolver)
  : Outcome (string * error) :=
  match gitUser with
  | None => Done ("", Some (Errorf "User cannot be nil"))
  | Some _ =>
      match resolver with
      | None => Panicked
      | Some r =>
          let '(user, err) := Resolve r gitUser in
          match err with
          | Some e => Done ("", Some e)
          | None => Done (SlackUserLogin o user)
          end
      end
  end.

(** [mergeShaText]; [sha[0:7]] faults on a string of fewer than seven
    bytes. *)
Definition mergeShaText (gitURL sha : string) : Outcome string :=
  if (String.length sha <? 7)%nat then Panicked
  else
    let short := take_bytes 7 sha in
    let cleanUrl := TrimSuffix gitURL ".git" in
    let cleanUrl :=
      if negb (str_eqb cleanUrl "") then UrlJoin [cleanUrl; "commit"; sha] else cleanUrl in
    Done (link short cleanUrl).

(** [pullRequestStatusString]. *)
Definition pullRequestStatusString (text : string) : string :=
  let title := strings_Title text in
  if str_eqb text "success" then title
  else if str_eqb text "error" || str_eqb text "failed" then title
  else title.

End Helpers.

(** ** A concrete installation

    One repository ([acme/widgets]), one rule posting to the channel
    [general], a git provider that knows one pull request, and a chat client
    that numbers the messages it accepts.  It is used to run the package on
    explicit inputs. *)

Module Demo.

Definition activity (branch build : string) (status : PipelineState)
    (stages : list (option ActivityStageOrStep)) : ActivityRecord :=
  {| Name := "acme-widgets-" +:+ branch +:+ "-" +:+ build;
     Owner := "acme"; Repo := "widgets"; Branch := branch;
     BuildIdentifier := build; Context := ""; Status := status;
     GitURL := "https://github.com/acme/widgets"; LinkURL := ""; LogURL := "";
     StartTime := Some 1000; CompletionTime := None; Stages := stages |}.

Definition sibling (build : string) : PipelineActivity :=
  {| SpecBuild := build; Converted := inl (activity "pr-42" build RunningState []) |}.

Definition siblings : list PipelineActivity := [sibling "3"; sibling "1"; sibling "2"].

Definition pullRequest (labels : list string) (merged : option bool) : GitPullRequest :=
  {| URL := "https://github.com/acme/widgets/pull/42"; Title := "Fix the widget";
     Author := Some {| Login := "alice" |}; RequestedReviewers := [];
     Labels := labels; PRMerged := merged; IsClosed := false; UpdatedAt := Some 2000 |}.

Definition alice : User :=
  {| UserName := "alice"; SpecName := "Alice"; SpecURL := ""; SpecEmail := "" |}.

Definition provider (labels : list string) (merged : option bool) : GitProvider :=
  {| GetPullRequest := fun _ _ _ => (Some (pullRequest labels merged), None);
     ResolveUser := fun _ => (Some alice, None);
     ProviderKey := "github" |}.

Definition resolver (labels : list string) (merged : option bool) : GitUserResolver :=
  {| ResolverNamespace := "jx"; ResolverGitProvider := provider labels merged |}.

(** The client accepts every call; the [n]-th message gets the timestamp
    [n]. *)
Definition client : SlackClient Z :=
  {| OpenConversation := fun s user => (s, inl ("D-" +:+ user));
     SendMessageContext := fun s channelId _ => (s + 1, inl (channelId, FormatInt s)) |}.

(** A client whose every call fails. *)
Definition deadClient : SlackClient Z :=
  {| OpenConversation := fun s _ => (s, inr (External "not_authed"));
     SendMessageContext := fun s _ _ => (s, inr (External "not_authed")) |}.

Definition rule (ignoreLabels : list string) : SlackBotMode :=
  {| Orgs := []; IgnoreLabels := ignoreLabels; Channel := "general";
     DirectMessage := false; NotifyReviewers := false |}.

Definition bot (c : SlackClient Z) (statuses : Statuses) (labels : list string)
    (merged : option bool) : SlackBotOptions Z :=
  {| Pipelines := [rule []]; PullRequests := [rule []]; OStatuses := statuses;
     Namespace := "jx"; Client := c;
     CreateGitProviderForURLWithoutKind :=
       fun _ => inl (provider labels merged,
                     {| Organisation := "acme"; RepositoryName := "widgets" |});
     SlackUserLogin := fun _ => ("", None);
     GetProwConfig := inl [];
     getPipelineActivities := fun _ _ _ => inl siblings |}.

Definition noOverrides : Statuses := fun _ => None.

(** A policy that overrides the merged status only. *)
Definition mergedOverride : Statuses :=
  fun k => match k with
           | Merged => Some (ConfigStatus 1 {| Emoji := ":tada:"; Text := "merged" |})
           | _ => None
           end.

Definition emptyState : BotState Z := {| Timestamps := ∅; slack := 1; calls := [] |}.

(** A store that already holds a reference for the thread of pull request
    42 in the channel. *)
Definition threadState : BotState Z :=
  {| Timestamps :=
       {[ "#general" := {[ "acme-widgets-pr-42-1" :=
                             {| ChannelID := "C024BE91L"; Timestamp := "1503435956.000247" |} ]} ]};
     slack := 1; calls := [] |}.

(** A rule that is limited to one organisation. *)
Definition orgRule (org : string) : SlackBotMode :=
  {| Orgs := [ {| OrgName := org; Repos := [] |} ]; IgnoreLabels := [];
     Channel := "general"; DirectMessage := false; NotifyReviewers := false |}.

(** The installation with other rules for both flows. *)
Definition botRules (c : SlackClient Z) (rules : list SlackBotMode) : SlackBotOptions Z :=
  {| Pipelines := rules; PullRequests := rules; OStatuses := noOverrides;
     Namespace := "jx"; Client := c;
     CreateGitProviderForURLWithoutKind :=
       fun _ => inl (provider [] None,
                     {| Organisation := "acme"; RepositoryName := "widgets" |});
     SlackUserLogin := fun _ => ("", None);
     GetProwConfig := inl [];
     getPipelineActivities := fun _ _ _ => inl siblings |}.

(** A sibling that cannot be converted. *)
Definition brokenSibling : PipelineActivity :=
  {| SpecBuild := "4"; Converted := inr (External "cannot convert") |}.

End Demo.

(** ** Vocabulary of the specification *)

(** The value of a string of decimal digits, continuing from [n]. *)
Fixpoint decimalFrom (n : Z) (s : string) : Z :=
  match s with
  | EmptyString => n
  | String c s' => decimalFrom (n * 10 + digit_val c) s'
  end.

(** The integer that a string of decimal digits denotes. *)
Definition decimalValue (s : string) : Z := decimalFrom 0 s.

Fixpoint all_digits (s : string) : bool :=
  match s with
  | EmptyString => true
  | String c s' => is_digit c && all_digits s'
  end.

(** An optional sign followed by at least one digit. *)
Definition is_integer (s : string) : bool :=
  match s with
  | EmptyString => false
  | String c s' =>
      if Ascii.eqb c "-" || Ascii.eqb c "+"
      then negb (str_eqb s' "") && all_digits s'
      else all_digits s
  end.

(** Whether the byte [c] occurs in [s]. *)
Fixpoint has_byte (c : ascii) (s : string) : bool :=
  match s with
  | EmptyString => false
  | String c' s' => Ascii.eqb c' c || has_byte c s'
  end.

(** The status of a kind under the policy of the bot: the override when the
    policy has one, the default otherwise. *)
Definition resolveStatus {CS : Type} (o : SlackBotOptions CS) (k : StatusKind) : StatusPtr :=
  getStatus (OStatuses o k) (defaultStatuses k).

Definition has_label (l : string) (labels : list string) : bool :=
  existsb (str_eqb l) labels.

(** The review rules after the default, in their fixed order: the label that
    triggers the rule and the status it gives. *)
Definition specReviewRules (lgtmRepo : bool) : list (string * StatusKind) :=
  [ (if lgtmRepo then "lgtm" else "approved", if lgtmRepo then LGTM else Approved);
    ("do-not-merge/hold", Hold);
    ("needs-ok-to-test", NeedsOkToTest) ].

(** The review status in the words of the specification: the rules are
    tried in order from the default, and the last one that matches wins. *)
Definition specReviewKind (lgtmRepo : bool) (labels : list string) : StatusKind :=
  fold_left (fun k rule => if has_label (fst rule) labels then snd rule else k)
    (specReviewRules lgtmRepo) NotApproved.

(** The build status in the words of the specification. *)
Definition specBuildKind (pr : GitPullRequest) (activity : ActivityRecord) : StatusKind :=
  if bool_decide (PRMerged pr = Some true) then Merged
  else if IsClosed pr then Closed
  else match Status activity with
       | PendingState => Pending
       | RunningState => Running
       | SuccessState => Succeeded
       | FailureState => Failed
       | AbortedState => Aborted
       | _ => Unknown
       end.

(** The order of the siblings: by build number. *)
Definition byBuild (x y : PipelineActivity) : Prop := buildKey x <= buildKey y.

(** A sibling whose build identifier is an integer and which converts to a
    record with the same build identifier. *)
Definition convertible (a : PipelineActivity) : Prop :=
  snd (Atoi (SpecBuild a)) = None
  /\ exists r, Converted a = inl r /\ BuildIdentifier r = SpecBuild a.

(** The latest of the times that are present, [-1] when none is later. *)
Definition latestOf (times : list (option Z)) : Z :=
  fold_left (fun acc t => match t with Some v => Z.max acc v | None => acc end) times (-1).

(** The activity passes the allow-list: some entry names its owner and
    lists either no repository or its repository. *)
Definition allowedBy (orgs : list Org) (activity : ActivityRecord) : Prop :=
  exists org, In org orgs /\ OrgName org = Owner activity
              /\ (Repos org = [] \/ In (Repo activity) (Repos org)).

(** Every reference of the store [ts] is still there in [ts']. *)
Definition keepsReferences (ts ts' : gmap string (gmap string MessageReference)) : Prop :=
  forall c k, is_Some (lookupRef ts c k) -> is_Some (lookupRef ts' c k).

Definition isSendMessage (c : SlackCall) : Prop :=
  match c with
  | CallSendMessage _ _ => True
  | CallOpenConversation _ => False
  end.

(** [st'] comes after [st]: at most [n] more calls on the chat client, and
    no reference lost. *)
Definition follows {CS : Type} (n : nat) (st st' : BotState CS) : Prop :=
  (exists new, calls st' = (calls st ++ new)%list /\ (length new <= n)%nat)
  /\ keepsReferences (Timestamps st) (Timestamps st').

(** [st'] comes after [st] with at most [n] more calls, all of them sends,
    and no reference lost. *)
Definition sendsOnly {CS : Type} (n : nat) (st st' : BotState CS) : Prop :=
  (exists new, calls st' = (calls st ++ new)%list /\ (length new <= n)%nat
               /\ Forall isSendMessage new)
  /\ keepsReferences (Timestamps st) (Timestamps st').

(** The rules [pre] all run through, from [st] to [st1], without
    returning. *)
Fixpoint continues {CS : Type}
    (body : SlackBotMode -> BotState CS -> Outcome (BotState CS * option error))
    (pre : list SlackBotMode) (st st1 : BotState CS) : Prop :=
  match pre with
  | [] => st1 = st
  | cfg :: pre' => exists st', body cfg st = Done (st', None) /\ continues body pre' st' st1
  end.

(** * Properties *)

(** Case analysis on the scrutinees of a hypothesis, innermost first. *)
Ltac break_in H :=
  repeat match type of H with
         | context [match ?x with _ => _ end] =>
             match x with
             | context [match _ with _ => _ end] => fail 1
             | _ => destruct x eqn:?
             end
         | bindO ?m _ = _ => destruct m eqn:?; cbn [bindO] in H
         | Panicked = Done _ => discriminate H
         end.

(** ** Strings and numbers *)

Lemma digit_val_range c : is_digit c = true -> 0 <= digit_val c <= 9.
Proof.
  unfold is_digit, digit_val. intros H.
  apply andb_true_iff in H as [H1 H2].
  apply Nat.leb_le in H1, H2. lia.
Qed.

Lemma decimalFrom_ge s : forall n, 0 <= n -> all_digits s = true -> n <= decimalFrom n s.
Proof.
  induction s as [|c s IH]; intros n Hn Hd; simpl in *; [lia|].
  apply andb_true_iff in Hd as [Hc Hs].
  pose proof (digit_val_range c Hc).
  specialize (IH (n * 10 + digit_val c) ltac:(lia) Hs). lia.
Qed.

Lemma parse_digits_decimal s : forall n,
  0 <= n -> all_digits s = true -> decimalFrom n s <= maxUint64 ->
  parse_digits n s = inl (decimalFrom n s).
Proof.
  induction s as [|c s IH]; intros n Hn Hd Hmax; simpl in *; [reflexivity|].
  apply andb_true_iff in Hd as [Hc Hs]. rewrite Hc.
  pose proof (digit_val_range c Hc).
  pose proof (decimalFrom_ge s (n * 10 + digit_val c) ltac:(lia) Hs).
  destruct (Z.gtb_spec (n * 10 + digit_val c) maxUint64); [lia|].
  apply IH; [lia | assumption | assumption].
Qed.

Lemma digit_not_sign c : is_digit c = true -> Ascii.eqb c "-" = false /\ Ascii.eqb c "+" = false.
Proof.
  unfold is_digit. intros H. apply andb_true_iff in H as [H1 H2].
  split; apply Ascii.eqb_neq; intros ->; vm_compute in H1, H2; discriminate.
Qed.

(** [Atoi] on a non-empty string of digits that fits an [int]. *)
Lemma Atoi_digits s :
  s <> "" -> all_digits s = true -> decimalValue s <= maxInt64 ->
  Atoi s = (decimalValue s, None).
Proof.
  intros Hne Hd Hmax. destruct s as [|c s]; [congruence|].
  unfold Atoi. pose proof Hd as Hd'. simpl in Hd'.
  apply andb_true_iff in Hd' as [Hc _].
  destruct (digit_not_sign c Hc) as [-> ->]. cbn [orb negb andb].
  rewrite (parse_digits_decimal (String c s) 0); [| lia | assumption |].
  - fold (decimalValue (String c s)).
    destruct (Z.ltb_spec maxInt64 (decimalValue (String c s))); [lia | reflexivity].
  - fold (decimalValue (String c s)). unfold maxUint64, maxInt64 in *. lia.
Qed.

Lemma parse_digits_bad s : forall n,
  all_digits s = false -> exists k, parse_digits n s = inr k.
Proof.
  induction s as [|c s IH]; intros n Hd; simpl in *; [discriminate|].
  destruct (is_digit c); simpl in Hd; [|eauto].
  destruct (n * 10 + digit_val c >? maxUint64); eauto.
Qed.

(** [Atoi] fails on anything that is not a decimal integer. *)
Lemma Atoi_not_integer s : is_integer s = false -> exists v e, Atoi s = (v, Some e).
Proof.
  destruct s as [|c s]; [intros _; cbn; eauto|].
  unfold is_integer, Atoi.
  destruct (Ascii.eqb c "-" || Ascii.eqb c "+").
  - destruct s as [|c' s]; [eauto|]. cbn [str_eqb String.eqb negb andb].
    intros Hd. destruct (parse_digits_bad (String c' s) 0 Hd) as [k ->].
    destruct k; eauto.
  - intros Hd. destruct (parse_digits_bad (String c s) 0 Hd) as [k ->].
    destruct k; eauto.
Qed.

Lemma Split_no_sep sep s : has_byte sep s = false -> Split s sep = [s].
Proof.
  induction s as [|c s IH]; simpl; [reflexivity|].
  intros H. apply orb_false_iff in H as [Hc Hs].
  rewrite Hc, (IH Hs). reflexivity.
Qed.

Lemma Split_app sep a rest :
  has_byte sep a = false ->
  Split (a +:+ String sep rest) sep = a :: Split rest sep.
Proof.
  induction a as [|c a IH]; simpl.
  - intros _. rewrite Ascii.eqb_refl. reflexivity.
  - intros H. apply orb_false_iff in H as [Hc Ha].
    rewrite Hc, (IH Ha). reflexivity.
Qed.

(** For an owner, a repository and a non-empty branch without a slash, the
    branch name of the pipeline details is the branch of the activity. *)
Lemma pipeline_path_nonempty (a b c : string) :
  String.eqb (a +:+ "/" +:+ b +:+ "/" +:+ c) "" = false.
Proof. destruct a; reflexivity. Qed.

Lemma createPipelineDetails_branch activity :
  has_byte "/" (Owner activity) = false ->
  has_byte "/" (Repo activity) = false ->
  has_byte "/" (Branch activity) = false ->
  Branch activity <> "" ->
  BranchName (createPipelineDetails activity) = Branch activity.
Proof.
  intros Ho Hr Hb Hne. unfold createPipelineDetails.
  rewrite pipeline_path_nonempty.
  assert (Hp : Split (Owner activity +:+ "/" +:+ Repo activity +:+ "/" +:+ Branch activity) "/"
               = [Owner activity; Repo activity; Branch activity]).
  { change (Split (Owner activity +:+ String "/" (Repo activity +:+ String "/" (Branch activity))) "/"
            = [Owner activity; Repo activity; Branch activity]).
    rewrite (Split_app "/" _ _ Ho), (Split_app "/" _ _ Hr), (Split_no_sep "/" _ Hb).
    reflexivity. }
  rewrite Hp. cbn [negb List.length nth].
  change (2 <? Z.of_nat 3) with true. cbv beta iota zeta. cbn [BranchName].
  destruct (String.eqb (Branch activity) "") eqn:E; [|reflexivity].
  apply String.eqb_eq in E. contradiction.
Qed.

(** ** C7: the pull request number of a branch *)

Lemma HasPrefix_pr rest : HasPrefix ("pr-" +:+ rest) "pr-" = true.
Proof. unfold HasPrefix. cbn. destruct rest; reflexivity. Qed.

Lemma TrimPrefix_pr rest : TrimPrefix ("pr-" +:+ rest) "pr-" = rest.
Proof. unfold TrimPrefix. rewrite HasPrefix_pr. reflexivity. Qed.

Lemma getPullRequestNumber_digits activity digits :
  ToLower (BranchName (createPipelineDetails activity)) = "pr-" +:+ digits ->
  digits <> "" -> all_digits digits = true -> decimalValue digits <= maxInt64 ->
  getPullRequestNumber activity = (decimalValue digits, None).
Proof.
  intros Hb Hne Hd Hmax. unfold getPullRequestNumber.
  rewrite Hb, HasPrefix_pr, TrimPrefix_pr. apply Atoi_digits; assumption.
Qed.

(** The same on the branch of the activity itself, when neither the owner,
    the repository nor the branch holds a slash. *)
Lemma getPullRequestNumber_of_Branch activity digits :
  has_byte "/" (Owner activity) = false ->
  has_byte "/" (Repo activity) = false ->
  has_byte "/" (Branch activity) = false ->
  ToLower (Branch activity) = "pr-" +:+ digits ->
  digits <> "" -> all_digits digits = true -> decimalValue digits <= maxInt64 ->
  getPullRequestNumber activity = (decimalValue digits, None).
Proof.
  intros Ho Hr Hb Hl Hne Hd Hmax.
  assert (Branch activity <> "") by (intros E; rewrite E in Hl; discriminate).
  apply getPullRequestNumber_digits; try assumption.
  rewrite createPipelineDetails_branch; assumption.
Qed.

(** C7 (as amended).  Let the branch name be the one of the pipeline details
    of the activity, in lower case.  If it is [pr-] followed by a non-empty
    string of decimal digits whose value fits a 64-bit [int],
    [getPullRequestNumber] returns that value and no error.  If it does not
    start with [pr-], the function returns 0 and no error.  If it is [pr-]
    followed by anything that is not a decimal integer, the function returns
    an error. *)
Theorem getPullRequestNumber_branch (activity : ActivityRecord) :
  let branch := ToLower (BranchName (createPipelineDetails activity)) in
  (forall digits,
      branch = "pr-" +:+ digits -> digits <> "" -> all_digits digits = true ->
      decimalValue digits <= maxInt64 ->
      getPullRequestNumber activity = (decimalValue digits, None))
  /\ (HasPrefix branch "pr-" = false -> getPullRequestNumber activity = (0, None))
  /\ (forall rest,
         branch = "pr-" +:+ rest -> is_integer rest = false ->
         exists v e, getPullRequestNumber activity = (v, Some e)).
Proof.
  intros branch. repeat split.
  - intros digits. apply getPullRequestNumber_digits.
  - unfold getPullRequestNumber. fold branch. intros ->. reflexivity.
  - intros rest Hb Hi. unfold getPullRequestNumber. fold branch.
    rewrite Hb, HasPrefix_pr, TrimPrefix_pr. apply Atoi_not_integer; assumption.
Qed.

Lemma getPullRequestNumber_branch_witness :
  getPullRequestNumber (Demo.activity "PR-42" "1" RunningState []) = (42, None)
  /\ getPullRequestNumber (Demo.activity "master" "1" RunningState []) = (0, None).
Proof.
  split.
  - apply (proj1 (getPullRequestNumber_branch (Demo.activity "PR-42" "1" RunningState [])) "42");
      [reflexivity | discriminate | reflexivity | vm_compute; discriminate].
  - apply (proj1 (proj2 (getPullRequestNumber_branch (Demo.activity "master" "1" RunningState []))));
      reflexivity.
Defined.

(** C7 as it is claimed fails: the branch [pr-abc] is not of the form
    [pr-<digits>], and the function returns an error for it. *)
Lemma getPullRequestNumber_counterexample :
  all_digits "abc" = false
  /\ getPullRequestNumber (Demo.activity "pr-abc" "1" RunningState [])
     = (0, Some (NumError "Atoi" "abc" ErrSyntax))
  /\ snd (getPullRequestNumber (Demo.activity "pr-abc" "1" RunningState [])) <> None.
Proof. repeat split; discriminate. Qed.

(** ** C1 and C6: the decision table of [postMessage] and the store *)

Section PostMessage.
Context {CS : Type}.
Variable o : SlackBotOptions CS.

Lemma lookupRef_materialise (ts : gmap string (gmap string MessageReference)) channel c k :
  ts !! channel = None ->
  lookupRef (<[channel := ∅]> ts) c k = lookupRef ts c k.
Proof.
  intros Hnone. unfold lookupRef.
  destruct (decide (c = channel)) as [->|Hne].
  - rewrite lookup_insert_eq, Hnone. apply lookup_empty.
  - rewrite lookup_insert_ne by congruence. reflexivity.
Qed.

Lemma lookupRef_storeRef (ts : gmap string (gmap string MessageReference)) channel key ref c k :
  lookupRef (storeRef ts channel key ref) c k
  = if decide (c = channel /\ k = key) then Some ref else lookupRef ts c k.
Proof.
  unfold lookupRef, storeRef.
  destruct (decide (c = channel)) as [->|Hne].
  - rewrite lookup_insert_eq.
    destruct (decide (k = key)) as [->|Hk].
    + rewrite lookup_insert_eq. rewrite decide_True by auto. reflexivity.
    + rewrite lookup_insert_ne by congruence.
      rewrite decide_False by tauto.
      destruct (ts !! channel); [reflexivity | apply lookup_empty].
  - rewrite lookup_insert_ne by congruence.
    rewrite decide_False by tauto. reflexivity.
Qed.

(** C1 (as amended).  Take a call of [postMessage] whose destination is
    resolved: for a channel post the destination is the stored channel id,
    or the channel itself when no reference is stored; for a direct
    message the conversation is opened first (one call on the client, in
    every row of the table) and, when that succeeds, the destination is
    the id of the conversation.  Then: if the stored reference has a
    non-empty timestamp, one message is sent to the destination in update
    mode with the stored timestamp, whatever [createIfMissing] is; if there
    is no stored timestamp and [createIfMissing] is true, one message is
    sent to the destination without the update option; if there is no
    stored timestamp and [createIfMissing] is false, nothing is sent, the
    call returns no error and every lookup in the store is unchanged. *)
Theorem postMessage_decision_table channel directMessage messageType activity all
    attachments createIfMissing (st : BotState CS) target opening :
  let ref := lookupRef (Timestamps st) channel (Name activity) in
  let timestamp := from_option Timestamp "" ref in
  let res := postMessage o channel directMessage messageType activity all attachments
               createIfMissing st in
  (if directMessage
   then (exists s', OpenConversation (Client o) (slack st) channel = (s', inl target))
        /\ opening = [CallOpenConversation channel]
   else target = from_option ChannelID channel ref /\ opening = []) ->
  (timestamp <> "" ->
     calls (fst res)
     = (calls st ++ opening
        ++ [CallSendMessage target
              [MsgOptionAttachments attachments; MsgOptionUpdate timestamp]])%list)
  /\ (timestamp = "" -> createIfMissing = true ->
        calls (fst res)
        = (calls st ++ opening
           ++ [CallSendMessage target [MsgOptionAttachments attachments]])%list)
  /\ (timestamp = "" -> createIfMissing = false ->
        calls (fst res) = (calls st ++ opening)%list
        /\ snd res = None
        /\ forall c k, lookupRef (Timestamps (fst res)) c k = lookupRef (Timestamps st) c k).
Proof.
  intros ref timestamp res Hdest.
  subst res. unfold postMessage. fold ref.
  set (st1 := match Timestamps st !! channel with
              | Some _ => st
              | None => withTimestamps st (<[channel:=∅]> (Timestamps st))
              end).
  assert (Hst1 : slack st1 = slack st /\ calls st1 = calls st
                 /\ forall c k, lookupRef (Timestamps st1) c k = lookupRef (Timestamps st) c k).
  { subst st1. destruct (Timestamps st !! channel) eqn:E; [auto|].
    repeat split. intros c k. apply lookupRef_materialise; assumption. }
  destruct Hst1 as (Hslack & Hcalls & Hlook).
  assert (Hempty : str_eqb timestamp "" = true <-> timestamp = "") by apply String.eqb_eq.
  clearbody st1.
  destruct ref as [r|]; cbn [from_option] in *; subst timestamp;
    (destruct directMessage;
     [ destruct Hdest as [[s' Hopen] ->]; rewrite Hslack, Hopen
     | destruct Hdest as [-> ->] ]);
    (destruct (str_eqb _ "") eqn:Hts;
     [ pose proof (proj1 Hempty eq_refl) as Hts'
     | assert (Hts' : ~ (str_eqb "" "" = false)) by (cbn; congruence) ]).
  all: cbn [negb]; destruct createIfMissing; cbv beta iota;
    repeat match goal with
           | |- context [SendMessageContext ?c ?s ?t ?os] =>
               destruct (SendMessageContext c s t os) as [? [[? ?]|?]]
           end;
    cbn [fst snd calls called withTimestamps Timestamps slack app];
    rewrite ?Hcalls;
    repeat split; intros; try congruence; try contradiction;
    rewrite <- ?app_assoc; try reflexivity; try apply Hlook.
  all: rewrite app_nil_r; reflexivity.
Qed.

(** C6.  When [postMessage] returns an error (the client refused to open
    the conversation or to send), no reference has been recorded: the store
    is the one before the call, up to an empty inner map for the channel
    when the channel had none, and every lookup [(channel, key)] gives what
    it gave before the call.  A lookup changes only for the channel and the
    activity name of the call, only when the call returns no error, and then
    the last call on the client is a send that succeeded and the new entry
    holds the channel id and timestamp it returned. *)
Theorem postMessage_store_unchanged_on_failure channel directMessage messageType activity all
    attachments createIfMissing (st : BotState CS) :
  let res := postMessage o channel directMessage messageType activity all attachments
               createIfMissing st in
  (snd res <> None ->
   (Timestamps (fst res) = Timestamps st
    \/ (Timestamps st !! channel = None
        /\ Timestamps (fst res) = <[channel := ∅]> (Timestamps st)))
   /\ forall c k, lookupRef (Timestamps (fst res)) c k = lookupRef (Timestamps st) c k)
  /\ (forall c k,
        lookupRef (Timestamps (fst res)) c k <> lookupRef (Timestamps st) c k ->
        snd res = None /\ c = channel /\ k = Name activity
        /\ exists s target options s' channelId timestamp,
             SendMessageContext (Client o) s target options
             = (s', inl (channelId, timestamp))
             /\ last (calls (fst res)) = Some (CallSendMessage target options)
             /\ lookupRef (Timestamps (fst res)) c k
                = Some {| ChannelID := channelId; Timestamp := timestamp |}).
Proof.
  intros res. subst res. unfold postMessage.
  set (st1 := match Timestamps st !! channel with
              | Some _ => st
              | None => withTimestamps st (<[channel:=∅]> (Timestamps st))
              end).
  assert (Hlook : forall c k, lookupRef (Timestamps st1) c k = lookupRef (Timestamps st) c k).
  { subst st1. destruct (Timestamps st !! channel) eqn:E; [auto|].
    intros c k. apply lookupRef_materialise; assumption. }
  assert (Hmat : Timestamps st1 = Timestamps st
                 \/ (Timestamps st !! channel = None
                     /\ Timestamps st1 = <[channel := ∅]> (Timestamps st))).
  { subst st1. destruct (Timestamps st !! channel) eqn:E; [left | right]; auto. }
  clearbody st1.
  destruct (lookupRef (Timestamps st) channel (Name activity)) as [r|];
    (destruct directMessage;
     [ destruct (OpenConversation (Client o) (slack st1) channel) as [? [?|?]] | ]);
    repeat match goal with
           | |- context [str_eqb ?a ""] => destruct (str_eqb a "")
           end;
    cbn [negb]; destruct createIfMissing; cbv beta iota;
    repeat match goal with
           | |- context [SendMessageContext ?c ?s ?t ?os] =>
               destruct (SendMessageContext c s t os) as [? [[? ?]|?]] eqn:Hsend
           end;
    cbn [fst snd calls called withTimestamps Timestamps slack];
    (split; [intros Herr; first [congruence | split; [exact Hmat | apply Hlook]]
            | intros dest key Hneq]);
    try (exfalso; apply Hneq; apply Hlook).
  all: rewrite lookupRef_storeRef in *; rewrite Hlook in Hneq;
    destruct (decide (dest = channel /\ key = Name activity)) as [[-> ->]|]; [|congruence];
    (split; [reflexivity|]); (split; [reflexivity|]); (split; [reflexivity|]);
    do 6 eexists; split; [exact Hsend|]; split; [apply last_snoc | reflexivity].
Qed.

End PostMessage.

Lemma postMessage_decision_table_witness :
  calls (fst (postMessage (Demo.bot Demo.client Demo.noOverrides [] None) "#general" false "pr"
                (Demo.activity "pr-42" "1" RunningState []) [] [] false Demo.emptyState))
  = []
  /\ calls (fst (postMessage (Demo.bot Demo.client Demo.noOverrides [] None) "#general" false "pr"
                   (Demo.activity "pr-42" "1" RunningState []) [] [] true Demo.threadState))
     = [CallSendMessage "C024BE91L"
          [MsgOptionAttachments []; MsgOptionUpdate "1503435956.000247"]].
Proof.
  split.
  - apply (postMessage_decision_table (Demo.bot Demo.client Demo.noOverrides [] None)
             "#general" false "pr" (Demo.activity "pr-42" "1" RunningState []) [] [] false
             Demo.emptyState "#general" []); [split; reflexivity | reflexivity | reflexivity].
  - apply (postMessage_decision_table (Demo.bot Demo.client Demo.noOverrides [] None)
             "#general" false "pr" (Demo.activity "pr-42" "1" RunningState []) [] [] true
             Demo.threadState "C024BE91L" []); [split; reflexivity | discriminate].
Defined.

(** C1 as it is claimed fails for a direct message: with no stored reference
    and [createIfMissing] false the conversation is opened all the same (a
    call on the client), and when the client refuses, the call returns an
    error. *)
Lemma postMessage_counterexample :
  lookupRef (Timestamps Demo.emptyState) "U123"
    (Name (Demo.activity "pr-42" "1" RunningState [])) = None
  /\ calls (fst (postMessage (Demo.bot Demo.client Demo.noOverrides [] None) "U123" true "pr"
                   (Demo.activity "pr-42" "1" RunningState []) [] [] false Demo.emptyState))
     = [CallOpenConversation "U123"]
  /\ snd (postMessage (Demo.bot Demo.deadClient Demo.noOverrides [] None) "U123" true "pr"
            (Demo.activity "pr-42" "1" RunningState []) [] [] false Demo.emptyState)
     <> None.
Proof. repeat split; discriminate. Qed.

Lemma postMessage_store_unchanged_on_failure_witness :
  snd (postMessage (Demo.bot Demo.deadClient Demo.noOverrides [] None) "#general" false "pr"
         (Demo.activity "pr-42" "1" RunningState []) [] [] true Demo.threadState) <> None
  /\ lookupRef
       (Timestamps
          (fst (postMessage (Demo.bot Demo.deadClient Demo.noOverrides [] None) "#general" false
                  "pr" (Demo.activity "pr-42" "1" RunningState []) [] [] true Demo.threadState)))
       "#general" "acme-widgets-pr-42-1"
     = Some {| ChannelID := "C024BE91L"; Timestamp := "1503435956.000247" |}.
Proof.
  split; [discriminate|].
  rewrite (proj2 (proj1 (postMessage_store_unchanged_on_failure
                    (Demo.bot Demo.deadClient Demo.noOverrides [] None) "#general" false "pr"
                    (Demo.activity "pr-42" "1" RunningState []) [] [] true Demo.threadState)
                  ltac:(discriminate))).
  reflexivity.
Defined.

(** ** C3: precedence of the review status *)

Section ReviewStatus.
Context {CS : Type}.
Variable o : SlackBotOptions CS.

Lemma containsOneOf_single labels l : containsOneOf labels [l] = has_label l labels.
Proof.
  unfold containsOneOf, has_label.
  induction labels as [|x labels IH]; [reflexivity|].
  cbn [existsb] in IH |- *. rewrite IH, orb_false_r. reflexivity.
Qed.

Lemma has_label_In l labels : has_label l labels = true <-> In l labels.
Proof.
  unfold has_label. rewrite existsb_exists. split.
  - intros (x & Hin & Heq). apply String.eqb_eq in Heq. subst. assumption.
  - intros Hin. exists l. split; [assumption | apply String.eqb_refl].
Qed.

(** The code follows the ordered rule list. *)
Lemma reviewStatusOf_spec lgtmRepo pr :
  reviewStatusOf o lgtmRepo pr = resolveStatus o (specReviewKind lgtmRepo (Labels pr)).
Proof.
  unfold reviewStatusOf, specReviewKind, specReviewRules, resolveStatus.
  rewrite !containsOneOf_single. cbn [fold_left fst snd].
  destruct lgtmRepo;
    destruct (has_label "needs-ok-to-test" (Labels pr));
    destruct (has_label "do-not-merge/hold" (Labels pr));
    try reflexivity;
    match goal with |- context [has_label ?l ?ls] => destruct (has_label l ls) end;
    reflexivity.
Qed.

(** C3 (as amended).  The review status is the one of the last matching
    rule in the fixed order not-approved, lgtm / approved, hold,
    needs-ok-to-test.  So a pull request whose labels hold [approved] and
    [do-not-merge/hold], in any order, and do not hold [needs-ok-to-test]
    has the status hold; with [needs-ok-to-test] among the labels the
    status is needs-ok-to-test. *)
Theorem review_status_precedence lgtmRepo pr :
  reviewStatusOf o lgtmRepo pr = resolveStatus o (specReviewKind lgtmRepo (Labels pr))
  /\ (In "approved" (Labels pr) -> In "do-not-merge/hold" (Labels pr) ->
      ~ In "needs-ok-to-test" (Labels pr) ->
      reviewStatusOf o lgtmRepo pr = resolveStatus o Hold)
  /\ (In "needs-ok-to-test" (Labels pr) ->
      reviewStatusOf o lgtmRepo pr = resolveStatus o NeedsOkToTest).
Proof.
  split; [apply reviewStatusOf_spec|].
  rewrite reviewStatusOf_spec. unfold specReviewKind, specReviewRules.
  cbn [fold_left fst snd]. split.
  - intros _ Hhold Hneeds.
    apply has_label_In in Hhold. rewrite Hhold.
    destruct (has_label "needs-ok-to-test" (Labels pr)) eqn:E; [|reflexivity].
    apply has_label_In in E. contradiction.
  - intros Hneeds. apply has_label_In in Hneeds. rewrite Hneeds. reflexivity.
Qed.

End ReviewStatus.

Lemma review_status_precedence_witness :
  reviewStatusOf (Demo.bot Demo.client Demo.noOverrides [] None) false
    (Demo.pullRequest ["do-not-merge/hold"; "approved"] None)
  = DefaultStatus Hold.
Proof.
  apply (review_status_precedence (Demo.bot Demo.client Demo.noOverrides [] None) false
           (Demo.pullRequest ["do-not-merge/hold"; "approved"] None)).
  - simpl. auto.
  - simpl. auto.
  - simpl. intros [H|[H|[]]]; discriminate.
Defined.

(** C3 as it is claimed fails: these labels hold [approved] and
    [do-not-merge/hold], and the status is needs-ok-to-test, not hold. *)
Lemma review_status_counterexample :
  In "approved" ["approved"; "do-not-merge/hold"; "needs-ok-to-test"]
  /\ In "do-not-merge/hold" ["approved"; "do-not-merge/hold"; "needs-ok-to-test"]
  /\ reviewStatusOf (Demo.bot Demo.client Demo.noOverrides [] None) false
       (Demo.pullRequest ["approved"; "do-not-merge/hold"; "needs-ok-to-test"] None)
     = DefaultStatus NeedsOkToTest
  /\ reviewStatusOf (Demo.bot Demo.client Demo.noOverrides [] None) false
       (Demo.pullRequest ["approved"; "do-not-merge/hold"; "needs-ok-to-test"] None)
     <> resolveStatus (Demo.bot Demo.client Demo.noOverrides [] None) Hold.
Proof. repeat split; simpl; auto; discriminate. Qed.

(** ** C4: the build status *)

Section BuildStatus.
Context {CS : Type}.
Variable o : SlackBotOptions CS.

Lemma buildStatusOf_spec pr activity :
  buildStatusOf o pr activity = resolveStatus o (specBuildKind pr activity).
Proof.
  unfold buildStatusOf, specBuildKind, resolveStatus.
  destruct (PRMerged pr) as [[|]|]; cbn; try reflexivity;
    destruct (IsClosed pr); try reflexivity;
    destruct (Status activity); reflexivity.
Qed.

Lemma createReviewersMessage_buildStatus activity notifyReviewers pr resolver atts revs bs :
  createReviewersMessage o activity notifyReviewers pr resolver = Done (atts, revs, bs, None) ->
  exists p, pr = Some p /\ bs = Some (buildStatusOf o p activity).
Proof.
  unfold createReviewersMessage. intros H.
  destruct pr as [p|]; [|discriminate]. destruct resolver as [rs|]; [|discriminate].
  exists p. split; [reflexivity|].
  break_in H; try discriminate; congruence.
Qed.

(** C4.  The build status of a pull request and an activity is the
    status, under the policy of the bot, of: merged when the merged flag of
    the pull request is set; else closed when the pull request is closed;
    else the kind of the state of the activity (pending, running,
    succeeded, failed, aborted); else unknown.  It is the build status that
    [createReviewersMessage] returns whenever it returns without error. *)
Theorem build_status_resolution pr activity :
  buildStatusOf o pr activity = resolveStatus o (specBuildKind pr activity)
  /\ (PRMerged pr = Some true -> buildStatusOf o pr activity = resolveStatus o Merged)
  /\ (PRMerged pr <> Some true -> IsClosed pr = true ->
      buildStatusOf o pr activity = resolveStatus o Closed)
  /\ (forall notifyReviewers resolver atts revs bs,
         createReviewersMessage o activity notifyReviewers (Some pr) resolver
         = Done (atts, revs, bs, None) ->
         bs = Some (resolveStatus o (specBuildKind pr activity))).
Proof.
  split; [apply buildStatusOf_spec|]. repeat split.
  - intros Hm. rewrite buildStatusOf_spec. unfold specBuildKind.
    rewrite bool_decide_true by assumption. reflexivity.
  - intros Hm Hc. rewrite buildStatusOf_spec. unfold specBuildKind.
    rewrite bool_decide_false by assumption. rewrite Hc. reflexivity.
  - intros notifyReviewers resolver atts revs bs H.
    apply createReviewersMessage_buildStatus in H as (p & Hp & ->).
    inversion Hp; subst. rewrite buildStatusOf_spec. reflexivity.
Qed.

End BuildStatus.

Lemma build_status_resolution_witness :
  buildStatusOf (Demo.bot Demo.client Demo.noOverrides [] (Some true))
    (Demo.pullRequest [] (Some true)) (Demo.activity "pr-42" "3" FailureState [])
  = DefaultStatus Merged.
Proof.
  apply (build_status_resolution (Demo.bot Demo.client Demo.noOverrides [] (Some true))
           (Demo.pullRequest [] (Some true)) (Demo.activity "pr-42" "3" FailureState [])).
  reflexivity.
Defined.

(** ** C5: terminal states and the creation of a thread *)

(** ** C5: terminal states and the creation of a thread *)

(** Creation is suppressed exactly when the build status is one of the two
    pointers of the default table. *)
Lemma reviewCreateIfMissing_false bs :
  reviewCreateIfMissing bs = false
  <-> bs = Some (defaultStatuses Merged) \/ bs = Some (defaultStatuses Closed).
Proof.
  unfold reviewCreateIfMissing.
  destruct (bool_decide_reflect (bs = Some (defaultStatuses Merged))) as [H1|H1];
    destruct (bool_decide_reflect (bs = Some (defaultStatuses Closed))) as [H2|H2];
    cbn [orb]; split; auto; try discriminate.
  intros [H|H]; contradiction.
Qed.

(** Under a policy that overrides neither the merged nor the closed status,
    a merged or closed pull request never creates a thread. *)
Lemma reviewCreateIfMissing_default {CS : Type} (o : SlackBotOptions CS) pr activity :
  OStatuses o Merged = None -> OStatuses o Closed = None ->
  PRMerged pr = Some true \/ IsClosed pr = true ->
  reviewCreateIfMissing (Some (buildStatusOf o pr activity)) = false.
Proof.
  intros Hm Hc Hterm. apply reviewCreateIfMissing_false.
  unfold buildStatusOf. rewrite Hm, Hc. cbn [getStatus].
  destruct (PRMerged pr) as [[|]|]; auto;
    destruct Hterm as [Ht|Ht]; try discriminate; rewrite Ht; auto.
Qed.

(** Under a policy that overrides the merged status with a pointer of its
    own, a merged pull request is allowed to create a thread. *)
Lemma reviewCreateIfMissing_override {CS : Type} (o : SlackBotOptions CS) pr activity id status :
  OStatuses o Merged = Some (ConfigStatus id status) ->
  PRMerged pr = Some true ->
  reviewCreateIfMissing (Some (buildStatusOf o pr activity)) = true.
Proof.
  intros Hm Hp. unfold buildStatusOf. rewrite Hm, Hp. reflexivity.
Qed.

(** C5 does not hold of the code.  With a policy that overrides the merged
    status, the build status returned for a merged pull request is the
    override, which is not the pointer [defaultStatuses.Merged] that
    [ReviewRequestMessage] compares it with: [createIfMissing] stays true
    and, with no stored reference, a new message is created. *)
Theorem terminal_status_override_creates_thread :
  match ReviewRequestMessage (Demo.bot Demo.client Demo.mergedOverride [] (Some true))
          (Demo.activity "pr-42" "3" RunningState []) Demo.emptyState with
  | Done (st, None) =>
      lookupRef (Timestamps Demo.emptyState) "#general" "acme-widgets-pr-42-1" = None
      /\ (exists atts, calls st = [CallSendMessage "#general" [MsgOptionAttachments atts]])
      /\ lookupRef (Timestamps st) "#general" "acme-widgets-pr-42-1"
         = Some {| ChannelID := "#general"; Timestamp := "1" |}
  | _ => False
  end.
Proof. vm_compute. repeat split. eexists. reflexivity. Qed.

(** With the default status table the same pull request creates nothing,
    and a thread that exists is updated to show the merged state. *)
Example terminal_status_updates_existing_thread :
  match ReviewRequestMessage (Demo.bot Demo.client Demo.noOverrides [] (Some true))
          (Demo.activity "pr-42" "3" RunningState []) Demo.threadState with
  | Done (st, None) =>
      exists a,
        calls st = [CallSendMessage "C024BE91L"
                      [MsgOptionAttachments [a]; MsgOptionUpdate "1503435956.000247"]]
        /\ nth 1 (Fields a) {| FieldValue := ""; FieldShort := false |}
           = {| FieldValue := ":purple_heart: merged"; FieldShort := true |}
  | _ => False
  end.
Proof. vm_compute. eexists. split; reflexivity. Qed.

(** With the default status table the same pull request creates nothing. *)
Lemma terminal_status_default_suppresses_thread :
  match ReviewRequestMessage (Demo.bot Demo.client Demo.noOverrides [] (Some true))
          (Demo.activity "pr-42" "3" RunningState []) Demo.emptyState with
  | Done (st, None) =>
      calls st = [] /\ lookupRef (Timestamps st) "#general" "acme-widgets-pr-42-1" = None
  | _ => False
  end.
Proof. vm_compute. split; reflexivity. Qed.

(** ** C10: the eligibility gate and an absent pull request *)

(** Whenever the activity passes the allow-list, resolves to no pull
    request, and the rule has labels to ignore, [isEnabled] reads the labels
    of the absent pull request. *)
Lemma isEnabled_nil_pull_request {CS : Type} (o : SlackBotOptions CS) activity orgs
    ignoreLabels resolver :
  (orgs = [] \/ orgsFound activity false orgs = true) ->
  getPullRequest o activity = (None, resolver, None) ->
  ignoreLabels <> [] ->
  isEnabled o activity orgs ignoreLabels = Panicked.
Proof.
  intros Horgs Hpr Hlabels. unfold isEnabled. rewrite Hpr.
  assert ((0 <? Z.of_nat (length orgs)) && negb (orgsFound activity false orgs) = false) as ->.
  { destruct Horgs as [-> | ->]; [reflexivity | apply andb_false_r]. }
  destruct ignoreLabels; [contradiction | reflexivity].
Qed.

(** C10 does not hold of the code: for an activity on [master] (not a pull
    request) and a rule that ignores the label [wip], [isEnabled] faults. *)
Theorem isEnabled_faults_without_pull_request :
  isEnabled (Demo.bot Demo.client Demo.noOverrides [] None)
    (Demo.activity "master" "7" RunningState []) [] ["wip"] = Panicked.
Proof. reflexivity. Qed.

(** ** C8 and C9: the timestamp and the colour of the pipeline message *)

Section PipelineMessage.
Context {CS : Type}.
Variable strings_Title : string -> string.
Variable getUserFriendlyMapping : string -> string.
Variable o : SlackBotOptions CS.

Lemma getLastUpdatedTime_activity activity :
  getLastUpdatedTime None (Some activity)
  = latestOf [StartTime activity; CompletionTime activity].
Proof.
  unfold getLastUpdatedTime, latestOf. cbn [fold_left].
  destruct (StartTime activity) as [s|], (CompletionTime activity) as [c|];
    repeat match goal with
           | |- context [?a <? ?b] =>
               lazymatch a with
               | context [if _ then _ else _] => fail
               | _ => destruct (Z.ltb_spec a b)
               end
           end; lia.
Qed.

Lemma stageAttachments_prefix activity stages : forall acc r,
  stageAttachments strings_Title getUserFriendlyMapping o activity acc stages = Done r ->
  exists rest, r = (acc ++ rest)%list.
Proof.
  induction stages as [|step stages IH]; intros acc r H; cbn [stageAttachments] in H.
  - inversion H. exists []. rewrite app_nil_r. reflexivity.
  - destruct (createAttachments _ _ _ _ _) as [sa|]; cbn [bindO] in H; [|discriminate].
    apply IH in H as [rest ->].
    destruct (0 <? Z.of_nat (length sa)).
    + exists (sa ++ rest)%list. rewrite app_assoc. reflexivity.
    + exists rest. reflexivity.
Qed.

Lemma createPipelineMessage_first now activity pr atts createIfMissing :
  createPipelineMessage strings_Title getUserFriendlyMapping o now activity pr
  = Done (Some atts, createIfMissing, None) ->
  exists status first rest,
    pipelineStatus activity = Done status
    /\ atts = first :: rest
    /\ Color first = attachmentColor status
    /\ Ts first = (if 0 <? getLastUpdatedTime None (Some activity)
                   then FormatInt (getLastUpdatedTime None (Some activity)) else "")
    /\ createIfMissing = negb (getLastUpdatedTime None (Some activity) <? now - 86400).
Proof.
  unfold createPipelineMessage. intros H.
  destruct (pipelineStatus activity) as [status|]; cbn [bindO] in H; [|discriminate].
  exists status.
  destruct (pipelineName activity) as [pn [e|]]; [discriminate|].
  destruct (getPullRequestNumber activity) as [prn [e|]]; [discriminate|].
  match type of H with bindO ?m _ = _ => destruct m as [messageText|] end;
    cbn [bindO] in H; [|discriminate].
  destruct (negb (str_eqb (GitURL activity) "")),
           (negb (str_eqb (LinkURL activity) "")),
           (negb (str_eqb (LogURL activity) ""));
    cbv beta iota zeta in H.
  all: match type of H with
  | bindO (stageAttachments _ _ _ _ [?a] _) _ = _ =>
      remember a as first eqn:Hfirst;
      destruct (stageAttachments strings_Title getUserFriendlyMapping o activity [first]
                  (Stages activity)) as [r|] eqn:Hst
  end; cbn [bindO] in H; [|discriminate].
  all: apply stageAttachments_prefix in Hst as [rest ->];
    change ([first] ++ rest)%list with (first :: rest) in H;
    exists first, rest;
    (split; [reflexivity|]); (split; [congruence|]);
    assert (Hc : createIfMissing
                 = negb (getLastUpdatedTime None (Some activity) <? now - 86400))
      by (change (now - 86400) with (now - 24 * 3600);
          destruct (getLastUpdatedTime None (Some activity) <? now - 24 * 3600);
          cbn [negb]; congruence);
    rewrite Hfirst;
    destruct (0 <? getLastUpdatedTime None (Some activity));
    repeat split; first [reflexivity | exact Hc].
Qed.

(** C8 (as amended).  When [createPipelineMessage] returns a message, the
    timestamp of its first attachment is the latest of the start time and
    the completion time of the activity (the update time of the pull
    request is not consulted), written in decimal, and it is set only when
    that time is after the epoch; and [createIfMissing] is false exactly
    when that latest time ([-1] when the activity has neither time) is
    more than 24 hours before [now]. *)
Theorem pipeline_message_timestamp now activity pr atts createIfMissing :
  createPipelineMessage strings_Title getUserFriendlyMapping o now activity pr
  = Done (Some atts, createIfMissing, None) ->
  exists first rest,
    atts = first :: rest
    /\ Ts first = (if 0 <? latestOf [StartTime activity; CompletionTime activity]
                   then FormatInt (latestOf [StartTime activity; CompletionTime activity])
                   else "")
    /\ createIfMissing
       = negb (latestOf [StartTime activity; CompletionTime activity] <? now - 86400).
Proof.
  intros H. apply createPipelineMessage_first in H
    as (status & first & rest & _ & -> & _ & HTs & Hc).
  rewrite getLastUpdatedTime_activity in HTs, Hc. eauto.
Qed.

End PipelineMessage.

Lemma pipeline_message_timestamp_witness :
  exists first rest,
    [ {| CallbackID := "pipelineactivity:acme-widgets-master-7"; Color := "#3AA3E3";
         AttTitle := "Release Pipeline <https://github.com/acme/|acme>/<https://github.com/acme/widgets|widgets> (Build #7)";
         AttText := ""; Fallback := "Repo: https://github.com/acme/widgets";
         Actions := [button "Repository" "https://github.com/acme/widgets"];
         Fields := []; Ts := "1000"; FooterIcon := ""; MarkdownIn := [] |} ]
    = first :: rest
    /\ Ts first = "1000"
    /\ false = negb (1000 <? 90000 - 86400).
Proof.
  apply (pipeline_message_timestamp (fun s => s) (fun s => s)
           (Demo.bot Demo.client Demo.noOverrides [] None) 90000
           (Demo.activity "master" "7" RunningState []) None).
  reflexivity.
Defined.

(** C8 as it is claimed fails: the pull request was updated at 2000, after
    the activity started at 1000, and the message carries the timestamp
    1000. *)
Lemma pipeline_message_timestamp_counterexample :
  latestOf [UpdatedAt (Demo.pullRequest [] None);
            StartTime (Demo.activity "pr-42" "3" RunningState []);
            CompletionTime (Demo.activity "pr-42" "3" RunningState [])] = 2000
  /\ match createPipelineMessage (fun s => s) (fun s => s)
             (Demo.bot Demo.client Demo.noOverrides [] None) 5000
             (Demo.activity "pr-42" "3" RunningState []) (Some (Demo.pullRequest [] None)) with
     | Done (Some (first :: _), _, None) => Ts first = "1000" /\ Ts first <> FormatInt 2000
     | _ => False
     end.
Proof. vm_compute. repeat split; discriminate. Qed.

(** The colours, by status. *)
Lemma attachmentColor_table :
  attachmentColor FailureState = "danger"
  /\ attachmentColor SuccessState = "good"
  /\ attachmentColor RunningState = "#3AA3E3"
  /\ attachmentColor PendingState = "#3AA3E3"
  /\ attachmentColor AbortedState = ""
  /\ attachmentColor TriggeredState = ""
  /\ forall s, attachmentColor (OtherState s) = "".
Proof. repeat split. Qed.

Lemma pipelineStatus_succeeded activity :
  Status activity = SuccessState -> pipelineStatus activity = Done SuccessState.
Proof. unfold pipelineStatus. intros ->. reflexivity. Qed.

Lemma pipelineStatus_no_stage activity :
  Stages activity = [] -> pipelineStatus activity = Done (Status activity).
Proof. unfold pipelineStatus. intros ->. destruct (Status activity); reflexivity. Qed.

Lemma lastStageStatus_last stages : forall statusType stage,
  lastStageStatus statusType (map Some stages ++ [Some stage])%list = Done (StageStatus stage).
Proof.
  induction stages as [|s stages IH]; intros statusType stage; [reflexivity|].
  cbn [map app lastStageStatus]. apply IH.
Qed.

(** An activity that has not succeeded but has stages gets the status of
    its last stage, also when it has failed or was aborted. *)
Lemma pipelineStatus_last_stage activity stages stage :
  Status activity <> SuccessState ->
  Stages activity = (map Some stages ++ [Some stage])%list ->
  pipelineStatus activity = Done (StageStatus stage).
Proof.
  unfold pipelineStatus. intros Hs ->.
  destruct (Status activity); try contradiction; apply lastStageStatus_last.
Qed.

(** C9 does not hold of the code.  The activity has failed and its last
    stage has succeeded: the message is green.  ([pipelineStatus] leaves its
    [switch] without returning for the failed and aborted states.) *)
Theorem failed_activity_colour (strings_Title getUserFriendlyMapping : string -> string) :
  Status (Demo.activity "master" "7" FailureState [Some (mkStageOrStep "build" SuccessState [])])
  = FailureState
  /\ match createPipelineMessage strings_Title getUserFriendlyMapping
             (Demo.bot Demo.client Demo.noOverrides [] None) 5000
             (Demo.activity "master" "7" FailureState
                [Some (mkStageOrStep "build" SuccessState [])]) None with
     | Done (Some (first :: _), _, None) => Color first = "good"
     | _ => False
     end.
Proof. split; reflexivity. Qed.

(** ** C2: stale builds in the review flow *)

Section Siblings.
Context {CS : Type}.
Variable o : SlackBotOptions CS.

Lemma insertByBuild_elem a l x : x ∈ insertByBuild a l <-> x = a \/ x ∈ l.
Proof.
  induction l as [|b l IH]; simpl.
  - rewrite list_elem_of_singleton, elem_of_nil. tauto.
  - destruct (buildKey b <=? buildKey a);
      rewrite !elem_of_cons, ?IH; tauto.
Qed.

Lemma insertByBuild_sorted a l :
  StronglySorted byBuild l -> StronglySorted byBuild (insertByBuild a l).
Proof.
  induction 1 as [|b l Hs IH Hb]; simpl.
  - constructor; constructor.
  - destruct (Z.leb_spec (buildKey b) (buildKey a)) as [Hle|Hlt].
    + constructor; [assumption|].
      apply Forall_forall. intros x Hx.
      apply insertByBuild_elem in Hx as [->|Hx]; [exact Hle|].
      rewrite Forall_forall in Hb. apply Hb. exact Hx.
    + constructor; [constructor; assumption|].
      constructor; [unfold byBuild; lia|].
      eapply Forall_impl; [exact Hb|]. unfold byBuild. intros; lia.
Qed.

Lemma sort_fold_elem l : forall acc x,
  x ∈ fold_left (fun acc a => insertByBuild a acc) l acc <-> x ∈ l \/ x ∈ acc.
Proof.
  induction l as [|a l IH]; intros acc x; simpl.
  - rewrite elem_of_nil. tauto.
  - rewrite IH, insertByBuild_elem, elem_of_cons. tauto.
Qed.

Lemma sort_fold_sorted l : forall acc,
  StronglySorted byBuild acc ->
  StronglySorted byBuild (fold_left (fun acc a => insertByBuild a acc) l acc).
Proof.
  induction l as [|a l IH]; intros acc Hacc; simpl; [assumption|].
  apply IH, insertByBuild_sorted, Hacc.
Qed.

Lemma sortByBuildNumber_elem l x : x ∈ sortByBuildNumber l <-> x ∈ l.
Proof. unfold sortByBuildNumber. rewrite sort_fold_elem, elem_of_nil. tauto. Qed.

Lemma sortByBuildNumber_sorted l : StronglySorted byBuild (sortByBuildNumber l).
Proof. apply sort_fold_sorted. constructor. Qed.

Lemma last_elem {A} (l : list A) z : last l = Some z -> z ∈ l.
Proof. rewrite last_lookup. apply list_elem_of_lookup_2. Qed.

Lemma sorted_last_max l : StronglySorted byBuild l ->
  forall z, last l = Some z -> forall x, x ∈ l -> buildKey x <= buildKey z.
Proof.
  induction 1 as [|b l Hs IH Hb]; intros z Hz x Hx; [inversion Hx|].
  destruct l as [|c l].
  - simpl in Hz. inversion Hz; subst.
    apply list_elem_of_singleton in Hx as ->. lia.
  - change (last (b :: c :: l)) with (last (c :: l)) in Hz.
    apply elem_of_cons in Hx as [->|Hx]; [|eauto].
    rewrite Forall_forall in Hb. apply Hb, last_elem, Hz.
Qed.

(** The latest sibling has the highest build number. *)
Lemma sortByBuildNumber_last_max items z :
  last (sortByBuildNumber items) = Some z ->
  z ∈ items /\ forall x, x ∈ items -> buildKey x <= buildKey z.
Proof.
  intros Hz. split.
  - apply sortByBuildNumber_elem, last_elem, Hz.
  - intros x Hx. eapply sorted_last_max; [apply sortByBuildNumber_sorted | exact Hz |].
    apply sortByBuildNumber_elem. exact Hx.
Qed.

Lemma sortByBuildNumber_nil items : sortByBuildNumber items = [] -> items = [].
Proof.
  intros H. destruct items as [|a items]; [reflexivity|].
  assert (a ∈ sortByBuildNumber (a :: items)) as Hin
    by (apply sortByBuildNumber_elem; left).
  rewrite H in Hin. inversion Hin.
Qed.

Lemma convertAll_ok items : forall acc,
  Forall (fun a => exists r, Converted a = inl r /\ BuildIdentifier r = SpecBuild a) items ->
  exists recs,
    convertAll acc items = inl (acc ++ recs)%list
    /\ Forall2 (fun a r => Converted a = inl r /\ BuildIdentifier r = SpecBuild a) items recs.
Proof.
  induction items as [|a items IH]; intros acc Hall; simpl.
  - exists []. rewrite app_nil_r. split; [reflexivity | constructor].
  - inversion Hall as [|? ? (r & Hr & Hb) Hrest]; subst.
    rewrite Hr. destruct (IH (acc ++ [r])%list Hrest) as (recs & -> & HF).
    exists (r :: recs). rewrite <- app_assoc. split; [reflexivity|].
    constructor; auto.
Qed.

Lemma Forall2_last {A B} (P : A -> B -> Prop) l1 l2 :
  Forall2 P l1 l2 ->
  match last l1, last l2 with
  | Some a, Some b => P a b
  | None, None => True
  | _, _ => False
  end.
Proof.
  induction 1 as [|a b l1 l2 Hab HF IH]; [exact I|].
  destruct HF as [|a' b' l1' l2' ? ?]; [exact Hab|].
  exact IH.
Qed.

Lemma createPipelineDetails_Build activity :
  Build (createPipelineDetails activity) = BuildIdentifier activity.
Proof.
  unfold createPipelineDetails.
  destruct (negb _); [destruct (2 <? _)|]; reflexivity.
Qed.

Lemma findPipelineActivities_sorted activity prn items :
  getPullRequestNumber activity = (prn, None) ->
  getPipelineActivities o (GitOwner (createPipelineDetails activity))
    (GitRepository (createPipelineDetails activity)) prn = inl items ->
  Forall convertible items ->
  exists recs,
    Forall2 (fun a r => Converted a = inl r /\ BuildIdentifier r = SpecBuild a)
      (sortByBuildNumber items) recs
    /\ findPipelineActivities o activity = (head recs, last recs, recs, None).
Proof.
  intros Hprn Hacts Hall. unfold findPipelineActivities. rewrite Hprn, Hacts.
  destruct (convertAll_ok (sortByBuildNumber items) []) as (recs & Hconv & HF).
  { apply Forall_forall. intros a Ha. apply (proj1 (sortByBuildNumber_elem _ _)) in Ha.
    rewrite Forall_forall in Hall. apply Hall in Ha as [_ Hr]. exact Hr. }
  exists recs. split; [exact HF|]. rewrite Hconv. cbn [app].
  destruct recs; reflexivity.
Qed.

(** The two branches of the body of the review loop, for a rule for which
    the activity is enabled, the siblings of the activity as the activity
    provider lists them (each with an integer build identifier), and the
    build number [b] of the activity: with a sibling above [b] the body
    leaves the state as it is; otherwise it goes on to [reviewPost], keyed
    by the oldest sibling, or by the activity itself when there is no
    sibling. *)
Lemma reviewRule_branches activity cfg (st : BotState CS) pr resolver prn items b :
  isEnabled o activity (Orgs cfg) (IgnoreLabels cfg) = Done (true, pr, resolver, None) ->
  getPullRequestNumber activity = (prn, None) ->
  getPipelineActivities o (GitOwner (createPipelineDetails activity))
    (GitRepository (createPipelineDetails activity)) prn = inl items ->
  Forall convertible items ->
  Atoi (BuildIdentifier activity) = (b, None) ->
  ((exists a, a ∈ items /\ b < buildKey a) ->
     reviewRule o activity cfg st = Done (st, None))
  /\ (items <> [] -> (forall a, a ∈ items -> buildKey a <= b) ->
      exists oldest latest all,
        findPipelineActivities o activity = (Some oldest, Some latest, all, None)
        /\ reviewRule o activity cfg st
           = reviewPost o activity cfg pr resolver oldest all st)
  /\ (items = [] -> -1 <= b ->
      reviewRule o activity cfg st = reviewPost o activity cfg pr resolver activity [] st).
Proof.
  intros Hen Hprn Hacts Hall Hb.
  destruct (findPipelineActivities_sorted activity prn items Hprn Hacts Hall)
    as (recs & HF & Hfind).
  pose proof (Forall2_last _ _ _ HF) as Hlast.
  unfold reviewRule. rewrite Hen. cbn [bindO]. rewrite Hfind.
  rewrite createPipelineDetails_Build, Hb.
  repeat split.
  - intros (a & Ha & Hlt).
    destruct (last (sortByBuildNumber items)) as [z|] eqn:Hz.
    + destruct (last recs) as [r|]; [|contradiction].
      destruct Hlast as [_ Hbuild].
      rewrite createPipelineDetails_Build, Hbuild. fold (buildKey z).
      destruct (sortByBuildNumber_last_max items z Hz) as [_ Hmax].
      specialize (Hmax a Ha).
      destruct (Z.leb_spec (buildKey z) b); [lia | reflexivity].
    + apply last_None in Hz. apply sortByBuildNumber_nil in Hz. subst items.
      inversion Ha.
  - intros Hne Hle.
    destruct (last (sortByBuildNumber items)) as [z|] eqn:Hz.
    + destruct (last recs) as [r|] eqn:Hr; [|contradiction].
      destruct Hlast as [_ Hbuild].
      destruct (head recs) as [oldest|] eqn:Hh.
      * exists oldest, r, recs. split; [reflexivity|].
        rewrite createPipelineDetails_Build, Hbuild. fold (buildKey z).
        destruct (sortByBuildNumber_last_max items z Hz) as [Hin _].
        specialize (Hle z Hin).
        destruct (Z.leb_spec (buildKey z) b); [reflexivity | lia].
      * apply head_None in Hh. subst recs. discriminate.
    + apply last_None in Hz. apply sortByBuildNumber_nil in Hz. contradiction.
  - intros -> Hge. inversion HF; subst. cbn [head last].
    destruct (Z.leb_spec (-1) b); [reflexivity | lia].
Qed.
End Siblings.


(** The scenario of the specification: the builds 1, 2 and 3 are known and
    build 2 comes again. *)
Example stale_build_dropped :
  ReviewRequestMessage (Demo.bot Demo.client Demo.noOverrides [] None)
    (Demo.activity "pr-42" "2" RunningState []) Demo.threadState
  = Done (Demo.threadState, None).
Proof. reflexivity. Qed.

(** Build 3 is the latest: the stored message is updated in place. *)
Example latest_build_updates_thread :
  match ReviewRequestMessage (Demo.bot Demo.client Demo.noOverrides [] None)
          (Demo.activity "pr-42" "3" SuccessState []) Demo.threadState with
  | Done (st, None) =>
      exists atts,
        calls st = [CallSendMessage "C024BE91L"
                      [MsgOptionAttachments atts; MsgOptionUpdate "1503435956.000247"]]
  | _ => False
  end.
Proof. vm_compute. eexists. reflexivity. Qed.

(** * Further properties of the package *)

(** ** Channel names and annotation keys *)

Lemma HasPrefix_hash c : HasPrefix ("#" +:+ c) "#" = true.
Proof. unfold HasPrefix. cbn. destruct c; reflexivity. Qed.

(** X1.  The name [channelName] gives always starts with [#], and normalising a
    second time changes nothing. *)
Theorem channelName_normal channel :
  HasPrefix (channelName channel) "#" = true
  /\ channelName (channelName channel) = channelName channel.
Proof.
  unfold channelName.
  destruct (HasPrefix channel "#") eqn:E; cbn [negb].
  - rewrite E. cbn [negb]. auto.
  - rewrite HasPrefix_hash. cbn [negb]. auto.
Qed.

(** X2.  The annotation key of a channel does not depend on whether the channel
    is written with its [#]: it is the same before and after
    [channelName]. *)
Theorem annotationKey_channelName channel messageType :
  annotationKey (channelName channel) messageType = annotationKey channel messageType.
Proof.
  unfold annotationKey, channelName.
  destruct (HasPrefix channel "#") eqn:E; cbn [negb]; [reflexivity|].
  f_equal. f_equal. f_equal. f_equal.
  unfold TrimPrefix. rewrite HasPrefix_hash, E. reflexivity.
Qed.

(** ** Labels *)

(** X3.  [containsOneOf a x] is true exactly when some label of [a] is one of the
    names [x]; so it does not depend on the order of either list. *)
Theorem containsOneOf_common_label a x :
  containsOneOf a x = true <-> exists y, In y a /\ In y x.
Proof.
  unfold containsOneOf. rewrite existsb_exists. split.
  - intros (n & Hn & H). apply existsb_exists in H as (y & Hy & Heq).
    apply String.eqb_eq in Heq. subst. eauto.
  - intros (y & Ha & Hx). exists y. split; [assumption|].
    apply existsb_exists. exists y. split; [assumption | apply String.eqb_refl].
Qed.

(** ** The eligibility check *)

Section Eligibility.
Context {CS : Type}.
Variable o : SlackBotOptions CS.

Lemma orgsFound_iff activity orgs : forall found,
  orgsFound activity found orgs = true <-> found = true \/ allowedBy orgs activity.
Proof.
  unfold allowedBy.
  induction orgs as [|org orgs IH]; intros found; cbn [orgsFound].
  - split; [auto|]. intros [H|(org & [] & _)]. exact H.
  - destruct (str_eqb (OrgName org) (Owner activity)) eqn:E.
    + apply String.eqb_eq in E.
      destruct (Repos org) as [|r rs] eqn:Hr.
      * split; [|reflexivity]. intros _. right. exists org.
        split; [left; reflexivity|]. auto.
      * rewrite IH.
        destruct (existsb (fun r0 => str_eqb r0 (Repo activity)) (r :: rs)) eqn:Hex.
        -- split; [|auto]. intros _. right. exists org. split; [left; reflexivity|].
           split; [assumption|]. right. rewrite Hr.
           apply existsb_exists in Hex as (x & Hx & Heq).
           apply String.eqb_eq in Heq. subst. exact Hx.
        -- split.
           ++ intros [H|(org' & Hin & Hrest)]; [auto|]. right. exists org'.
              split; [right; assumption | assumption].
           ++ intros [H|(org' & [<-|Hin] & Hn & Hrepo)]; [auto| |right; eauto].
              exfalso. destruct Hrepo as [Hnil|Hin]; [congruence|].
              rewrite Hr in Hin.
              assert (existsb (fun r0 => str_eqb r0 (Repo activity)) (r :: rs) = true).
              { apply existsb_exists. exists (Repo activity).
                split; [assumption | apply String.eqb_refl]. }
              congruence.
    + apply String.eqb_neq in E. rewrite IH. split.
      * intros [H|(org' & Hin & Hrest)]; [auto|]. right. exists org'.
        split; [right; assumption | assumption].
      * intros [H|(org' & [<-|Hin] & Hn & Hrepo)]; [auto|contradiction|right; eauto].
Qed.

Lemma isEnabled_rejects activity orgs ignoreLabels :
  orgs <> [] -> ~ allowedBy orgs activity ->
  isEnabled o activity orgs ignoreLabels = Done (false, None, None, None).
Proof.
  intros Hne Hno. unfold isEnabled.
  destruct (orgsFound activity false orgs) eqn:E.
  - apply orgsFound_iff in E as [E|E]; [discriminate | contradiction].
  - destruct orgs; [contradiction | reflexivity].
Qed.

Lemma isEnabled_allowed activity orgs ignoreLabels :
  orgs = [] \/ allowedBy orgs activity ->
  isEnabled o activity orgs ignoreLabels = isEnabled o activity [] ignoreLabels.
Proof.
  intros H. unfold isEnabled.
  assert ((0 <? Z.of_nat (length orgs)) && negb (orgsFound activity false orgs) = false) as ->.
  { destruct H as [-> | H]; [reflexivity|].
    assert (orgsFound activity false orgs = true) as -> by (apply orgsFound_iff; auto).
    apply andb_false_r. }
  reflexivity.
Qed.

(** X4.  With a non-empty allow-list that the activity does not pass,
    [isEnabled] answers false with no pull request and no error, whatever
    the git provider would say; with an empty allow-list, or one that the
    activity passes, the allow-list has no further effect on the answer. *)
Theorem isEnabled_allow_list activity orgs ignoreLabels :
  (orgs <> [] -> ~ allowedBy orgs activity ->
   isEnabled o activity orgs ignoreLabels = Done (false, None, None, None))
  /\ (orgs = [] \/ allowedBy orgs activity ->
      isEnabled o activity orgs ignoreLabels = isEnabled o activity [] ignoreLabels).
Proof. split; [apply isEnabled_rejects | apply isEnabled_allowed]. Qed.

Lemma ignoredLabels_nil ignoreLabels p :
  ignoredLabels ignoreLabels p = []
  <-> forall l, In l ignoreLabels -> ~ In l (Labels p).
Proof.
  unfold ignoredLabels. induction ignoreLabels as [|l ls IH]; cbn [flat_map].
  - split; [intros _ l []|reflexivity].
  - split.
    + intros H. apply app_eq_nil in H as [H1 H2].
      intros l' [<-|Hin]; [|apply IH; assumption].
      intros Hl.
      assert (In l (List.filter (fun v => str_eqb v l) (Labels p))) as Hf.
      { apply filter_In. split; [assumption | apply String.eqb_refl]. }
      rewrite H1 in Hf. destruct Hf.
    + intros H.
      assert (List.filter (fun v => str_eqb v l) (Labels p) = []) as ->.
      { destruct (List.filter _ _) as [|x xs] eqn:E; [reflexivity|].
        assert (In x (List.filter (fun v => str_eqb v l) (Labels p))) as Hx
          by (rewrite E; left; reflexivity).
        apply filter_In in Hx as [Hx Heq]. apply String.eqb_eq in Heq. subst.
        exfalso. apply (H l); [left; reflexivity | assumption]. }
      cbn [app]. apply IH. intros l' Hin. apply H. right. assumption.
Qed.

(** X5.  For an activity that passes the allow-list and resolves to a pull
    request: if the pull request carries one of the labels to ignore,
    [isEnabled] answers false and hands out neither the pull request nor the
    resolver; if it carries none, [isEnabled] answers true and hands out the
    pull request and the resolver it fetched. *)
Theorem isEnabled_ignore_labels activity orgs ignoreLabels p resolver :
  orgs = [] \/ allowedBy orgs activity ->
  getPullRequest o activity = (Some p, resolver, None) ->
  ((exists l, In l ignoreLabels /\ In l (Labels p)) ->
   isEnabled o activity orgs ignoreLabels = Done (false, None, None, None))
  /\ ((forall l, In l ignoreLabels -> ~ In l (Labels p)) ->
      isEnabled o activity orgs ignoreLabels = Done (true, Some p, resolver, None)).
Proof.
  intros Horgs Hpr. unfold isEnabled. rewrite Hpr.
  assert ((0 <? Z.of_nat (length orgs)) && negb (orgsFound activity false orgs) = false) as ->.
  { destruct Horgs as [-> | H]; [reflexivity|].
    assert (orgsFound activity false orgs = true) as -> by (apply orgsFound_iff; auto).
    apply andb_false_r. }
  split.
  - intros (l & Hl & Hp).
    destruct ignoreLabels as [|l0 ls]; [destruct Hl|].
    change (0 <? Z.of_nat (length (l0 :: ls))) with true. cbv iota.
    destruct (ignoredLabels (l0 :: ls) p) eqn:E; [|reflexivity].
    exfalso. exact (proj1 (ignoredLabels_nil _ _) E l Hl Hp).
  - intros Hno. apply (proj2 (ignoredLabels_nil _ _)) in Hno.
    destruct (0 <? Z.of_nat (length ignoreLabels)); [|reflexivity].
    rewrite Hno. reflexivity.
Qed.

Lemma Atoi_syntax_value s v f n :
  Atoi s = (v, Some (NumError f n ErrSyntax)) -> v = 0.
Proof.
  unfold Atoi. intros H.
  destruct s as [|c s]; [congruence|].
  destruct (if Ascii.eqb c "-" || Ascii.eqb c "+" then s else String c s); [congruence|].
  destruct (parse_digits 0 _) as [un|[|]]; try congruence.
  destruct (negb _ && _); [congruence|]. destruct (_ && _); congruence.
Qed.

Lemma getPullRequest_no_number activity :
  fst (getPullRequestNumber activity) <= 0 ->
  getPullRequest o activity = (None, None, None).
Proof.
  unfold getPullRequest. destruct (getPullRequestNumber activity) as [prn err].
  cbn [fst]. intros Hle. destruct (Z.ltb_spec 0 prn); [lia | reflexivity].
Qed.

(** X6.  [getPullRequest] looks at the error of [getPullRequestNumber] only when
    the number is positive: for a number that is not positive it returns no
    pull request, no resolver and no error.  In particular a branch such as
    [pr-abc], whose number does not parse, is reported as not being a pull
    request rather than as an error. *)
Theorem getPullRequest_not_a_pull_request activity :
  (fst (getPullRequestNumber activity) <= 0 ->
   getPullRequest o activity = (None, None, None))
  /\ (forall f n, snd (getPullRequestNumber activity) = Some (NumError f n ErrSyntax) ->
      getPullRequest o activity = (None, None, None)).
Proof.
  split; [apply getPullRequest_no_number|].
  intros f n Herr. apply getPullRequest_no_number.
  unfold getPullRequestNumber in *.
  destruct (HasPrefix _ "pr-"); [|cbn; lia].
  destruct (Atoi _) as [v e] eqn:E. cbn [snd fst] in *. subst e.
  apply Atoi_syntax_value in E. lia.
Qed.

Lemma getPullRequest_resolver activity p resolver err :
  getPullRequest o activity = (Some p, resolver, err) ->
  exists rs, resolver = Some rs /\ 0 < fst (getPullRequestNumber activity)
             /\ GitURL activity <> "".
Proof.
  unfold getPullRequest.
  destruct (getPullRequestNumber activity) as [prn e]. cbn [fst].
  destruct (Z.ltb_spec 0 prn); [|congruence].
  destruct e; [congruence|].
  destruct (str_eqb (GitURL activity) "") eqn:E; [congruence|].
  apply String.eqb_neq in E.
  destruct (CreateGitProviderForURLWithoutKind o (GitURL activity)) as [[gp gi]|]; [|congruence].
  destruct (GetPullRequest gp (Organisation gi) gi prn) as [pr' e'].
  intros Heq. inversion Heq; subst. eauto.
Qed.

(** X7.  Whenever [isEnabled] hands out a pull request, it hands out a resolver
    with it, the answer is true and there is no error: the callers never
    meet a pull request without a resolver. *)
Theorem isEnabled_pull_request_has_resolver activity orgs ignoreLabels enabled p resolver err :
  isEnabled o activity orgs ignoreLabels = Done (enabled, Some p, resolver, err) ->
  enabled = true /\ err = None /\ exists rs, resolver = Some rs.
Proof.
  unfold isEnabled.
  destruct (_ && _); [congruence|].
  destruct (getPullRequest o activity) as [[pr r] e] eqn:Hpr.
  destruct e; [congruence|].
  destruct (0 <? Z.of_nat (length ignoreLabels)).
  - destruct pr as [p'|]; [|congruence].
    destruct (0 <? _); [congruence|].
    intros H. inversion H; subst.
    apply getPullRequest_resolver in Hpr as (rs & -> & _). eauto.
  - intros H. inversion H; subst.
    apply getPullRequest_resolver in Hpr as (rs & -> & _). eauto.
Qed.

End Eligibility.

Lemma isEnabled_allow_list_witness :
  isEnabled (Demo.bot Demo.client Demo.noOverrides [] None)
    (Demo.activity "pr-42" "1" RunningState []) (Orgs (Demo.orgRule "umbrella")) []
  = Done (false, None, None, None).
Proof.
  apply (proj1 (isEnabled_allow_list (Demo.bot Demo.client Demo.noOverrides [] None)
                  (Demo.activity "pr-42" "1" RunningState [])
                  (Orgs (Demo.orgRule "umbrella")) [])).
  - discriminate.
  - intros (org & [<- | []] & Hname & _). discriminate.
Defined.

Lemma isEnabled_ignore_labels_witness :
  isEnabled (Demo.bot Demo.client Demo.noOverrides ["wip"] None)
    (Demo.activity "pr-42" "1" RunningState []) [] ["wip"]
  = Done (false, None, None, None).
Proof.
  apply (proj1 (isEnabled_ignore_labels (Demo.bot Demo.client Demo.noOverrides ["wip"] None)
                  (Demo.activity "pr-42" "1" RunningState []) [] ["wip"]
                  (Demo.pullRequest ["wip"] None) (Some (Demo.resolver ["wip"] None))
                  (or_introl eq_refl) eq_refl)).
  exists "wip". split; left; reflexivity.
Defined.

Lemma getPullRequest_not_a_pull_request_witness :
  getPullRequest (Demo.bot Demo.client Demo.noOverrides [] None)
    (Demo.activity "pr-abc" "1" RunningState []) = (None, None, None).
Proof.
  eapply (proj2 (getPullRequest_not_a_pull_request _ _)). reflexivity.
Defined.

Lemma isEnabled_pull_request_has_resolver_witness :
  true = true /\ @None GoError = None
  /\ exists rs, Some (Demo.resolver [] None) = Some rs.
Proof.
  apply (isEnabled_pull_request_has_resolver (Demo.bot Demo.client Demo.noOverrides [] None)
           (Demo.activity "pr-42" "1" RunningState []) [] [] true
           (Demo.pullRequest [] None) (Some (Demo.resolver [] None)) None).
  reflexivity.
Defined.

(** ** Pipeline details, times and statuses *)

(** X8.  The branch name of the pipeline details is never empty (an empty branch
    becomes [master]); the build is the build identifier of the activity,
    the context its context, and the pipeline is
    [owner/repository/branch]. *)
Theorem createPipelineDetails_fields activity :
  BranchName (createPipelineDetails activity) <> ""
  /\ Build (createPipelineDetails activity) = BuildIdentifier activity
  /\ DetailsContext (createPipelineDetails activity) = Context activity
  /\ Pipeline (createPipelineDetails activity)
     = Owner activity +:+ "/" +:+ Repo activity +:+ "/" +:+ Branch activity.
Proof.
  unfold createPipelineDetails. rewrite pipeline_path_nonempty. cbn [negb andb].
  destruct (2 <? _); cbv beta iota zeta; cbn [BranchName Build DetailsContext Pipeline];
    (split; [|auto]).
  - destruct (String.eqb (nth 2 _ "") "") eqn:E; [discriminate|].
    apply String.eqb_neq in E. exact E.
  - discriminate.
Qed.

(** X9.  The time [getLastUpdatedTime] returns is not before the start time, the
    completion time or the update time of the pull request, when these are
    present; and it is one of them, or [-1]. *)
Theorem getLastUpdatedTime_bounds pr activity :
  let r := getLastUpdatedTime pr (Some activity) in
  (forall s, StartTime activity = Some s -> s <= r)
  /\ (forall c, CompletionTime activity = Some c -> c <= r)
  /\ (forall p u, pr = Some p -> UpdatedAt p = Some u -> u <= r)
  /\ (r = -1
      \/ StartTime activity = Some r \/ CompletionTime activity = Some r
      \/ exists p, pr = Some p /\ UpdatedAt p = Some r).
Proof.
  unfold getLastUpdatedTime.
  destruct pr as [p|]; [destruct (UpdatedAt p) as [u|] eqn:Hu|];
    destruct (StartTime activity) as [s|], (CompletionTime activity) as [c|];
    cbv zeta;
    repeat match goal with
           | |- context [?a <? ?b] =>
               lazymatch a with
               | context [if _ then _ else _] => fail
               | _ => destruct (Z.ltb_spec a b)
               end
           end;
    repeat split; intros;
    repeat match goal with
           | H : Some _ = Some _ |- _ => inversion H; subst; clear H
           | H : None = Some _ |- _ => discriminate H
           end;
    try lia; try congruence; eauto 8;
    match goal with
    | H1 : UpdatedAt ?p = Some ?a, H2 : UpdatedAt ?p = Some ?b |- _ =>
        assert (a = b) by congruence; lia
    end.
Qed.

Lemma lastStageStatus_panic stages : forall statusType,
  lastStageStatus statusType stages = Panicked <-> In None stages.
Proof.
  induction stages as [|[s|] stages IH]; intros statusType; cbn [lastStageStatus In].
  - split; [discriminate | tauto].
  - rewrite IH. split; [auto|]. intros [H|H]; [discriminate | exact H].
  - split; auto.
Qed.

(** X10.  [pipelineStatus] faults exactly when the activity has a [nil] stage and
    has not succeeded: a succeeded activity returns before its stages are
    read. *)
Theorem pipelineStatus_panic activity :
  pipelineStatus activity = Panicked
  <-> Status activity <> SuccessState /\ In None (Stages activity).
Proof.
  unfold pipelineStatus.
  destruct (Status activity); rewrite ?lastStageStatus_panic;
    split; try (intros H; split; [discriminate | exact H]); try tauto;
    try discriminate.
Qed.

(** ** What [postMessage] does to the state *)

Lemma keepsReferences_refl ts : keepsReferences ts ts.
Proof. intros c k H. exact H. Qed.

Lemma keepsReferences_trans ts1 ts2 ts3 :
  keepsReferences ts1 ts2 -> keepsReferences ts2 ts3 -> keepsReferences ts1 ts3.
Proof. intros H1 H2 c k H. apply H2, H1, H. Qed.

Section PostMessageState.
Context {CS : Type}.
Variable o : SlackBotOptions CS.

Lemma postMessage_calls channel directMessage messageType activity all
    attachments createIfMissing (st : BotState CS) :
  let res := postMessage o channel directMessage messageType activity all attachments
               createIfMissing st in
  keepsReferences (Timestamps st) (Timestamps (fst res))
  /\ exists sends,
       calls (fst res)
       = (calls st ++ (if directMessage then [CallOpenConversation channel] else [])
          ++ sends)%list
       /\ (sends = [] \/ exists target options, sends = [CallSendMessage target options]).
Proof.
  intros res. subst res. unfold postMessage.
  set (st1 := match Timestamps st !! channel with
              | Some _ => st
              | None => withTimestamps st (<[channel:=∅]> (Timestamps st))
              end).
  assert (Hlook : forall c k, lookupRef (Timestamps st1) c k = lookupRef (Timestamps st) c k).
  { subst st1. destruct (Timestamps st !! channel) eqn:E; [auto|].
    intros c k. apply lookupRef_materialise; assumption. }
  assert (Hcalls : calls st1 = calls st).
  { subst st1. destruct (Timestamps st !! channel); reflexivity. }
  clearbody st1.
  destruct (lookupRef (Timestamps st) channel (Name activity)) as [r|];
    (destruct directMessage;
     [ destruct (OpenConversation (Client o) (slack st1) channel) as [? [?|?]] | ]);
    repeat match goal with
           | |- context [str_eqb ?a ""] => destruct (str_eqb a "")
           end;
    cbn [negb]; destruct createIfMissing; cbv beta iota;
    repeat match goal with
           | |- context [SendMessageContext ?c ?s ?t ?os] =>
               destruct (SendMessageContext c s t os) as [? [[? ?]|?]] eqn:Hsend
           end;
    cbn [fst snd calls called withTimestamps Timestamps slack];
    rewrite ?Hcalls;
    (split;
     [ intros dest key Hsome; rewrite ?lookupRef_storeRef; try case_decide; rewrite ?Hlook; eauto
     | first [ exists []; split; [rewrite ?app_nil_r, <- ?app_assoc; reflexivity | left; reflexivity]
             | eexists [_]; split; [rewrite <- ?app_assoc; reflexivity | right; eauto] ] ]).
Qed.

(** X11.  [postMessage] never removes a reference from the store, and it only
    adds to the calls made on the chat client: the opening of the
    conversation for a direct message (none for a channel), followed by at
    most one send. *)
Theorem postMessage_keeps_references channel directMessage messageType activity all
    attachments createIfMissing (st : BotState CS) :
  let res := postMessage o channel directMessage messageType activity all attachments
               createIfMissing st in
  keepsReferences (Timestamps st) (Timestamps (fst res))
  /\ exists sends,
       calls (fst res)
       = (calls st ++ (if directMessage then [CallOpenConversation channel] else [])
          ++ sends)%list
       /\ (sends = [] \/ exists target options, sends = [CallSendMessage target options]).
Proof. apply postMessage_calls. Qed.

Lemma postMessage_channel_update channel messageType activity all attachments
    createIfMissing (st : BotState CS) r :
  lookupRef (Timestamps st) channel (Name activity) = Some r ->
  Timestamp r <> "" ->
  calls (fst (postMessage o channel false messageType activity all attachments
                createIfMissing st))
  = (calls st ++ [CallSendMessage (ChannelID r)
                    [MsgOptionAttachments attachments; MsgOptionUpdate (Timestamp r)]])%list.
Proof.
  intros Href Hts. unfold postMessage. rewrite Href.
  assert (str_eqb (Timestamp r) "" = false) as -> by (apply String.eqb_neq; exact Hts).
  cbn [negb]. cbv beta iota.
  destruct (Timestamps st !! channel);
    destruct (SendMessageContext _ _ _ _) as [s2 [[c2 t2]|e2]]; reflexivity.
Qed.

Lemma postMessage_channel_create channel messageType activity all attachments
    (st : BotState CS) s1 channelId timestamp :
  lookupRef (Timestamps st) channel (Name activity) = None ->
  SendMessageContext (Client o) (slack st) channel [MsgOptionAttachments attachments]
  = (s1, inl (channelId, timestamp)) ->
  let res := postMessage o channel false messageType activity all attachments true st in
  snd res = None
  /\ calls (fst res)
     = (calls st ++ [CallSendMessage channel [MsgOptionAttachments attachments]])%list
  /\ lookupRef (Timestamps (fst res)) channel (Name activity)
     = Some {| ChannelID := channelId; Timestamp := timestamp |}.
Proof.
  intros Hnone Hsend res. subst res. unfold postMessage. rewrite Hnone.
  cbn [str_eqb String.eqb negb]. cbv beta iota.
  destruct (Timestamps st !! channel); cbn [slack withTimestamps]; rewrite Hsend;
    cbn [fst snd calls called withTimestamps Timestamps];
    (split; [reflexivity|]); (split; [reflexivity|]);
    rewrite lookupRef_storeRef, decide_True by auto; reflexivity.
Qed.

(** X12.  Posting twice to a channel.  When the first call finds no reference and
    the client accepts the message and returns a channel id and a non-empty
    timestamp, that pair is what the store holds afterwards, and a second
    call for the same channel and activity, whatever its attachments and its
    [createIfMissing], sends one message in update mode to the returned
    channel id with the returned timestamp. *)
Theorem postMessage_create_then_update channel messageType activity all attachments
    (st : BotState CS) s1 channelId timestamp :
  lookupRef (Timestamps st) channel (Name activity) = None ->
  SendMessageContext (Client o) (slack st) channel [MsgOptionAttachments attachments]
  = (s1, inl (channelId, timestamp)) ->
  timestamp <> "" ->
  let st1 := fst (postMessage o channel false messageType activity all attachments true st) in
  snd (postMessage o channel false messageType activity all attachments true st) = None
  /\ lookupRef (Timestamps st1) channel (Name activity)
     = Some {| ChannelID := channelId; Timestamp := timestamp |}
  /\ forall messageType' all' attachments' createIfMissing',
       calls (fst (postMessage o channel false messageType' activity all' attachments'
                     createIfMissing' st1))
       = (calls st ++ [CallSendMessage channel [MsgOptionAttachments attachments];
                       CallSendMessage channelId
                         [MsgOptionAttachments attachments'; MsgOptionUpdate timestamp]])%list.
Proof.
  intros Hnone Hsend Hts st1.
  destruct (postMessage_channel_create channel messageType activity all attachments st
              s1 channelId timestamp Hnone Hsend) as (Herr & Hcalls & Hlook).
  fold st1 in Hcalls, Hlook.
  split; [exact Herr|]. split; [exact Hlook|].
  intros messageType' all' attachments' createIfMissing'.
  rewrite (postMessage_channel_update channel messageType' activity all' attachments'
             createIfMissing' st1 _ Hlook Hts).
  rewrite Hcalls, <- app_assoc. reflexivity.
Qed.

End PostMessageState.

Lemma postMessage_create_then_update_witness :
  lookupRef
    (Timestamps
       (fst (postMessage (Demo.bot Demo.client Demo.noOverrides [] None) "#general" false
               "pipeline" (Demo.activity "master" "7" RunningState []) [] [] true
               Demo.emptyState)))
    "#general" (Name (Demo.activity "master" "7" RunningState []))
  = Some {| ChannelID := "#general"; Timestamp := "1" |}.
Proof.
  apply (postMessage_create_then_update (Demo.bot Demo.client Demo.noOverrides [] None)
           "#general" "pipeline" (Demo.activity "master" "7" RunningState []) [] []
           Demo.emptyState 2 "#general" "1").
  - reflexivity.
  - reflexivity.
  - discriminate.
Defined.

Section PostMessageDirect.
Context {CS : Type}.
Variable o : SlackBotOptions CS.

Lemma postMessage_direct_update user messageType activity all attachments
    createIfMissing (st : BotState CS) r s0 conversation :
  lookupRef (Timestamps st) user (Name activity) = Some r ->
  Timestamp r <> "" ->
  OpenConversation (Client o) (slack st) user = (s0, inl conversation) ->
  calls (fst (postMessage o user true messageType activity all attachments
                createIfMissing st))
  = (calls st ++ [CallOpenConversation user;
                  CallSendMessage conversation
                    [MsgOptionAttachments attachments; MsgOptionUpdate (Timestamp r)]])%list.
Proof.
  intros Href Hts Hopen. unfold postMessage. rewrite Href.
  assert (str_eqb (Timestamp r) "" = false) as -> by (apply String.eqb_neq; exact Hts).
  cbn [negb]. cbv beta iota.
  destruct (Timestamps st !! user); cbn [slack withTimestamps]; rewrite Hopen;
    cbv beta iota;
    destruct (SendMessageContext _ _ _ _) as [s2 [[c2 t2]|e2]];
    cbn [fst calls called withTimestamps]; rewrite <- app_assoc; reflexivity.
Qed.

Lemma postMessage_direct_create user messageType activity all attachments
    (st : BotState CS) s0 conversation s1 channelId timestamp :
  lookupRef (Timestamps st) user (Name activity) = None ->
  OpenConversation (Client o) (slack st) user = (s0, inl conversation) ->
  SendMessageContext (Client o) s0 conversation [MsgOptionAttachments attachments]
  = (s1, inl (channelId, timestamp)) ->
  let res := postMessage o user true messageType activity all attachments true st in
  snd res = None
  /\ slack (fst res) = s1
  /\ calls (fst res)
     = (calls st ++ [CallOpenConversation user;
                     CallSendMessage conversation [MsgOptionAttachments attachments]])%list
  /\ lookupRef (Timestamps (fst res)) user (Name activity)
     = Some {| ChannelID := channelId; Timestamp := timestamp |}.
Proof.
  intros Hnone Hopen Hsend res. subst res. unfold postMessage. rewrite Hnone.
  cbn [str_eqb String.eqb negb]. cbv beta iota.
  destruct (Timestamps st !! user); cbn [slack withTimestamps]; rewrite Hopen;
    cbv beta iota; cbn [slack called]; rewrite Hsend;
    cbn [fst snd calls called withTimestamps Timestamps slack];
    rewrite <- app_assoc;
    (split; [reflexivity|]); (split; [reflexivity|]); (split; [reflexivity|]);
    rewrite lookupRef_storeRef, decide_True by auto; reflexivity.
Qed.

(** X13.  Posting twice to a user.  The reference of a direct message is stored
    under the user id, not under the conversation; a second direct message
    to the same user for the same activity opens the conversation again and
    sends one message in update mode, with the stored timestamp, to the
    conversation it has just opened. *)
Theorem postMessage_direct_create_then_update user messageType activity all attachments
    (st : BotState CS) s0 conversation s1 channelId timestamp s2 conversation' :
  lookupRef (Timestamps st) user (Name activity) = None ->
  OpenConversation (Client o) (slack st) user = (s0, inl conversation) ->
  SendMessageContext (Client o) s0 conversation [MsgOptionAttachments attachments]
  = (s1, inl (channelId, timestamp)) ->
  timestamp <> "" ->
  OpenConversation (Client o) s1 user = (s2, inl conversation') ->
  let st1 := fst (postMessage o user true messageType activity all attachments true st) in
  lookupRef (Timestamps st1) user (Name activity)
  = Some {| ChannelID := channelId; Timestamp := timestamp |}
  /\ forall messageType' all' attachments' createIfMissing',
       calls (fst (postMessage o user true messageType' activity all' attachments'
                     createIfMissing' st1))
       = (calls st ++ [CallOpenConversation user;
                       CallSendMessage conversation [MsgOptionAttachments attachments];
                       CallOpenConversation user;
                       CallSendMessage conversation'
                         [MsgOptionAttachments attachments'; MsgOptionUpdate timestamp]])%list.
Proof.
  intros Hnone Hopen Hsend Hts Hopen' st1.
  destruct (postMessage_direct_create user messageType activity all attachments st
              s0 conversation s1 channelId timestamp Hnone Hopen Hsend)
    as (_ & Hslack & Hcalls & Hlook).
  fold st1 in Hslack, Hcalls, Hlook.
  split; [exact Hlook|].
  intros messageType' all' attachments' createIfMissing'.
  rewrite <- Hslack in Hopen'.
  rewrite (postMessage_direct_update user messageType' activity all' attachments'
             createIfMissing' st1 _ _ _ Hlook Hts Hopen').
  rewrite Hcalls, <- app_assoc. reflexivity.
Qed.

End PostMessageDirect.

Lemma postMessage_direct_create_then_update_witness :
  lookupRef
    (Timestamps
       (fst (postMessage (Demo.bot Demo.client Demo.noOverrides [] None) "U1" true
               "pipeline" (Demo.activity "master" "7" RunningState []) [] [] true
               Demo.emptyState)))
    "U1" (Name (Demo.activity "master" "7" RunningState []))
  = Some {| ChannelID := "D-U1"; Timestamp := "1" |}.
Proof.
  apply (postMessage_direct_create_then_update
           (Demo.bot Demo.client Demo.noOverrides [] None)
           "U1" "pipeline" (Demo.activity "master" "7" RunningState []) [] []
           Demo.emptyState 1 "D-U1" 2 "D-U1" "1" 2 "D-U1").
  - reflexivity.
  - reflexivity.
  - reflexivity.
  - discriminate.
  - reflexivity.
Defined.

(** ** The review flow *)

Section ReviewFlow.
Context {CS : Type}.
Variable o : SlackBotOptions CS.

Lemma sendsOnly_refl n (st : BotState CS) : sendsOnly n st st.
Proof.
  split; [|apply keepsReferences_refl].
  exists []. rewrite app_nil_r. repeat split; [simpl; lia | constructor].
Qed.

Lemma sendsOnly_trans n m (st1 st2 st3 : BotState CS) :
  sendsOnly n st1 st2 -> sendsOnly m st2 st3 -> sendsOnly (n + m) st1 st3.
Proof.
  intros [(new1 & H1 & L1 & F1) K1] [(new2 & H2 & L2 & F2) K2]. split.
  - exists (new1 ++ new2)%list. rewrite H2, H1, <- app_assoc.
    repeat split; [rewrite length_app; lia | apply Forall_app; auto].
  - eapply keepsReferences_trans; eassumption.
Qed.

Lemma follows_refl n (st : BotState CS) : follows n st st.
Proof.
  split; [|apply keepsReferences_refl].
  exists []. rewrite app_nil_r. split; [reflexivity | simpl; lia].
Qed.

Lemma follows_trans n m (st1 st2 st3 : BotState CS) :
  follows n st1 st2 -> follows m st2 st3 -> follows (n + m) st1 st3.
Proof.
  intros [(new1 & H1 & L1) K1] [(new2 & H2 & L2) K2]. split.
  - exists (new1 ++ new2)%list. rewrite H2, H1, <- app_assoc.
    split; [reflexivity | rewrite length_app; lia].
  - eapply keepsReferences_trans; eassumption.
Qed.

Lemma follows_weaken n m (st st' : BotState CS) :
  (n <= m)%nat -> follows n st st' -> follows m st st'.
Proof.
  intros Hle [(new & H & L) K]. split; [|exact K]. exists new. split; [exact H | lia].
Qed.

Lemma sendsOnly_weaken n m (st st' : BotState CS) :
  (n <= m)%nat -> sendsOnly n st st' -> sendsOnly m st st'.
Proof.
  intros Hle [(new & H & L & F) K]. split; [|exact K]. exists new.
  repeat split; [exact H | lia | exact F].
Qed.

Lemma postMessage_channel_sendsOnly channel messageType activity all attachments
    createIfMissing (st : BotState CS) :
  sendsOnly 1 st (fst (postMessage o channel false messageType activity all attachments
                         createIfMissing st)).
Proof.
  destruct (postMessage_calls o channel false messageType activity all attachments
              createIfMissing st) as [K (sends & Hc & Hs)].
  split; [|exact K]. exists sends. cbn [app] in Hc.
  split; [exact Hc|].
  destruct Hs as [->|(t & os & ->)]; split; simpl; try lia; repeat constructor.
Qed.

Lemma postMessage_follows channel directMessage messageType activity all attachments
    createIfMissing (st : BotState CS) :
  follows 2 st (fst (postMessage o channel directMessage messageType activity all attachments
                       createIfMissing st)).
Proof.
  destruct (postMessage_calls o channel directMessage messageType activity all attachments
              createIfMissing st) as [K (sends & Hc & Hs)].
  split; [|exact K]. eexists. split; [exact Hc|].
  destruct directMessage; destruct Hs as [->|(t & os & ->)]; simpl; lia.
Qed.

(** X14.  When [createReviewersMessage] returns without error, it returns exactly
    one attachment, whose callback id is [preview:] followed by the name of
    the activity, whose colour is the one of the pipeline status, which has
    two fields, and whose timestamp is the latest of the update time of the
    pull request and the times of the activity when that is after the epoch;
    and it returns no reviewer. *)
Theorem createReviewersMessage_shape activity notifyReviewers pr resolver atts revs bs :
  createReviewersMessage o activity notifyReviewers pr resolver = Done (atts, revs, bs, None) ->
  revs = []
  /\ exists p a status,
       pr = Some p /\ atts = Some [a]
       /\ pipelineStatus activity = Done status
       /\ CallbackID a = "preview:" +:+ Name activity
       /\ Color a = attachmentColor status
       /\ length (Fields a) = 2%nat
       /\ Ts a = (if 0 <? getLastUpdatedTime (Some p) (Some activity)
                  then FormatInt (getLastUpdatedTime (Some p) (Some activity)) else "").
Proof.
  unfold createReviewersMessage. intros H.
  destruct pr as [p|]; [|discriminate]. destruct resolver as [rs|]; [|discriminate].
  destruct (Resolve rs (Author p)) as [author [e|]]; [discriminate|].
  destruct (pipelineStatus activity) as [status|]; cbn [bindO] in H; [|discriminate].
  destruct (mentionOrLinkUser o author) as [[authorName [e|]]|]; cbn [bindO] in H;
    try discriminate.
  match type of H with bindO ?m _ = _ => destruct m as [[mentions [e|]]|] end;
    cbn [bindO] in H; try discriminate.
  destruct (isLgtmRepo o activity) as [lgtm [e|]]; [discriminate|].
  cbv zeta in H. cbn [app] in H.
  split; [congruence|].
  exists p.
  set (t := getLastUpdatedTime (Some p) (Some activity)) in *. clearbody t.
  destruct (0 <? t); injection H as Ha Hr Hb;
    eexists; exists status; (split; [reflexivity|]);
    (split; [symmetry; exact Ha|]); repeat split.
Qed.

Lemma createReviewersMessage_no_reviewers activity notifyReviewers pr resolver atts revs bs err :
  createReviewersMessage o activity notifyReviewers pr resolver = Done (atts, revs, bs, err) ->
  revs = [].
Proof.
  unfold createReviewersMessage. intros H.
  destruct pr as [p|]; [|discriminate]. destruct resolver as [rs|]; [|discriminate].
  break_in H; try discriminate; congruence.
Qed.

Lemma reviewPost_sendsOnly activity cfg pr resolver oldest all (st st' : BotState CS) r :
  reviewPost o activity cfg pr resolver oldest all st = Done (st', r) ->
  sendsOnly 1 st st'.
Proof.
  unfold reviewPost. intros H.
  destruct (createReviewersMessage o activity (NotifyReviewers cfg) pr resolver)
    as [[[[atts revs] bs] err]|] eqn:Hmsg; cbn [bindO] in H; [|discriminate].
  apply createReviewersMessage_no_reviewers in Hmsg as ->.
  destruct err; [injection H as <- _; apply sendsOnly_refl|].
  destruct atts as [atts|]; [|injection H as <- _; apply sendsOnly_refl].
  destruct (negb (str_eqb (Channel cfg) "")).
  - pose proof (postMessage_channel_sendsOnly (channelName (Channel cfg))
                  pullRequestReviewMessageType oldest all atts
                  (reviewCreateIfMissing bs) st) as Hp.
    destruct (postMessage o _ false _ _ _ _ _ st) as [st1 [e|]]; cbn [fst] in Hp.
    + injection H as <- _. exact Hp.
    + destruct (DirectMessage cfg && NotifyReviewers cfg);
        cbn [directReviewMessages] in H; injection H as <- _; exact Hp.
  - destruct (DirectMessage cfg && NotifyReviewers cfg);
      cbn [directReviewMessages] in H; injection H as <- _; apply sendsOnly_refl.
Qed.

Lemma reviewRule_sendsOnly activity cfg (st st' : BotState CS) r :
  reviewRule o activity cfg st = Done (st', r) -> sendsOnly 1 st st'.
Proof.
  unfold reviewRule. intros H.
  destruct (isEnabled o activity (Orgs cfg) (IgnoreLabels cfg))
    as [[[[enabled pr] resolver] err]|]; cbn [bindO] in H; [|discriminate].
  destruct err; [injection H as <- _; apply sendsOnly_refl|].
  destruct enabled; [|injection H as <- _; apply sendsOnly_refl].
  destruct (findPipelineActivities o activity) as [[[oldest latest] all] [e|]];
    [injection H as <- _; apply sendsOnly_refl|].
  destruct (Atoi _) as [b [e|]]; [injection H as <- _; apply sendsOnly_refl|].
  destruct (_ <=? b); [|injection H as <- _; apply sendsOnly_refl].
  eapply reviewPost_sendsOnly. exact H.
Qed.

Lemma forRules_sendsOnly body (n : nat) :
  (forall cfg (st st' : BotState CS) r, body cfg st = Done (st', r) -> sendsOnly n st st') ->
  forall rules st st' e,
    forRules body rules st = Done (st', e) -> sendsOnly (length rules * n) st st'.
Proof.
  intros Hbody. induction rules as [|cfg rules IH]; intros st st' e H; cbn [forRules] in H.
  - injection H as <- _. apply sendsOnly_refl.
  - destruct (body cfg st) as [[st1 r]|] eqn:Hb; cbn [bindO] in H; [|discriminate].
    apply Hbody in Hb. destruct r as [err|].
    + injection H as <- _. eapply sendsOnly_weaken; [|exact Hb]. simpl. lia.
    + apply IH in H. cbn [length]. replace (S (length rules) * n)%nat
        with (n + length rules * n)%nat by lia.
      eapply sendsOnly_trans; eassumption.
Qed.

Lemma forRules_follows body (n : nat) :
  (forall cfg (st st' : BotState CS) r, body cfg st = Done (st', r) -> follows n st st') ->
  forall rules st st' e,
    forRules body rules st = Done (st', e) -> follows (length rules * n) st st'.
Proof.
  intros Hbody. induction rules as [|cfg rules IH]; intros st st' e H; cbn [forRules] in H.
  - injection H as <- _. apply follows_refl.
  - destruct (body cfg st) as [[st1 r]|] eqn:Hb; cbn [bindO] in H; [|discriminate].
    apply Hbody in Hb. destruct r as [err|].
    + injection H as <- _. eapply follows_weaken; [|exact Hb]. simpl. lia.
    + apply IH in H. cbn [length]. replace (S (length rules) * n)%nat
        with (n + length rules * n)%nat by lia.
      eapply follows_trans; eassumption.
Qed.

(** X15.  [ReviewRequestMessage] never opens a direct conversation (the list of
    reviewers it gets is always empty): whenever it returns, it has made at
    most one call per review rule on the chat client, each of them a send,
    and no reference of the store has been lost. *)
Theorem ReviewRequestMessage_sends_only activity (st st' : BotState CS) e :
  ReviewRequestMessage o activity st = Done (st', e) ->
  sendsOnly (length (PullRequests o)) st st'.
Proof.
  unfold ReviewRequestMessage. intros H.
  destruct (str_eqb (Name activity) ""); [injection H as <- _; apply sendsOnly_refl|].
  destruct (getPullRequestNumber activity) as [prn [err|]];
    [injection H as <- _; apply sendsOnly_refl|].
  destruct (0 <? prn); [|injection H as <- _; apply sendsOnly_refl].
  apply (forRules_sendsOnly _ 1) in H; [|apply reviewRule_sendsOnly].
  rewrite Nat.mul_1_r in H. exact H.
Qed.

End ReviewFlow.

Lemma createReviewersMessage_shape_witness :
  exists atts bs,
    createReviewersMessage (Demo.bot Demo.client Demo.noOverrides [] None)
      (Demo.activity "pr-42" "1" RunningState []) false
      (Some (Demo.pullRequest [] None)) (Some (Demo.resolver [] None))
    = Done (Some atts, [], bs, None)
    /\ length atts = 1%nat.
Proof.
  destruct (createReviewersMessage (Demo.bot Demo.client Demo.noOverrides [] None)
              (Demo.activity "pr-42" "1" RunningState []) false
              (Some (Demo.pullRequest [] None)) (Some (Demo.resolver [] None)))
    as [[[[atts revs] bs] [err|]]|] eqn:E; try (vm_compute in E; discriminate).
  destruct (createReviewersMessage_shape _ _ _ _ _ _ _ _ E)
    as [-> (p & a & status & _ & -> & _)].
  exists [a], bs. split; reflexivity.
Defined.

Lemma ReviewRequestMessage_sends_only_witness :
  exists st' e,
    ReviewRequestMessage (Demo.bot Demo.client Demo.noOverrides [] None)
      (Demo.activity "pr-42" "3" RunningState []) Demo.emptyState = Done (st', e)
    /\ sendsOnly 1 Demo.emptyState st'.
Proof.
  destruct (ReviewRequestMessage (Demo.bot Demo.client Demo.noOverrides [] None)
              (Demo.activity "pr-42" "3" RunningState []) Demo.emptyState)
    as [[st' e]|] eqn:E; [|vm_compute in E; discriminate].
  exists st', e. split; [reflexivity|].
  exact (ReviewRequestMessage_sends_only _ _ _ _ _ E).
Defined.

(** ** Stale builds in the review flow *)

Section ReviewStaleness.
Context {CS : Type}.
Variable o : SlackBotOptions CS.

Lemma postMessage_channel_create_calls channel messageType activity all attachments
    (st : BotState CS) :
  lookupRef (Timestamps st) channel (Name activity) = None ->
  calls (fst (postMessage o channel false messageType activity all attachments true st))
  = (calls st ++ [CallSendMessage channel [MsgOptionAttachments attachments]])%list.
Proof.
  intros Hnone. unfold postMessage. rewrite Hnone. cbn [str_eqb negb].
  change (str_eqb "" "") with true. cbn [negb].
  destruct (Timestamps st !! channel);
    destruct (SendMessageContext _ _ _ _) as [s' [[c t]|e]]; reflexivity.
Qed.

Lemma reviewPost_channel activity cfg pr resolver oldest all (st : BotState CS) atts revs bs :
  createReviewersMessage o activity (NotifyReviewers cfg) pr resolver
  = Done (Some atts, revs, bs, None) ->
  Channel cfg <> "" ->
  let channel := channelName (Channel cfg) in
  let post := postMessage o channel false pullRequestReviewMessageType oldest all atts
                (reviewCreateIfMissing bs) st in
  reviewPost o activity cfg pr resolver oldest all st
  = Done (fst post,
          match snd post with
          | Some e => Some (Some (Wrap e ("error posting PR review request for "
                                          +:+ Name activity +:+ " to channel " +:+ channel)))
          | None => None
          end).
Proof.
  intros Hmsg Hchan. cbv zeta.
  pose proof (createReviewersMessage_no_reviewers o _ _ _ _ _ _ _ _ Hmsg) as ->.
  apply String.eqb_neq in Hchan.
  unfold reviewPost. rewrite Hmsg. cbn [bindO]. unfold str_eqb. rewrite Hchan. cbn [negb].
  destruct (postMessage o _ false _ _ _ _ _ st) as [st1 [e|]]; cbn [fst snd]; [reflexivity|].
  destruct (DirectMessage cfg && NotifyReviewers cfg); reflexivity.
Qed.

(** C2.  Take a review rule, an activity for which [isEnabled] answers
    without error, the siblings of the activity as the activity provider
    lists them (each with an integer build identifier), and the build number
    [b] of the activity.

    If some sibling has a build number above [b], the rule leaves the state
    as it is (no call on the chat client, no change of the store) and
    returns no error.

    If the activity is enabled, no sibling has a build number above [b]
    (and [b] is at least [-1] when there is no sibling), the review message
    is rendered and the rule names a channel, then the rule is the call of
    [postMessage] for that channel, keyed by the oldest activity that
    [findPipelineActivities] returns (the activity itself when there is
    none): the state it leaves is the one [postMessage] leaves and it
    returns the error of [postMessage], wrapped.  In particular, with a
    reference stored for that key the rule sends one message, in update
    mode, to the stored channel id with the stored timestamp; with none
    stored, and a build status that lets the message be created, it sends
    one message to the channel. *)
Theorem review_staleness activity cfg (st : BotState CS) enabled pr resolver prn items b :
  isEnabled o activity (Orgs cfg) (IgnoreLabels cfg) = Done (enabled, pr, resolver, None) ->
  getPullRequestNumber activity = (prn, None) ->
  getPipelineActivities o (GitOwner (createPipelineDetails activity))
    (GitRepository (createPipelineDetails activity)) prn = inl items ->
  Forall convertible items ->
  Atoi (BuildIdentifier activity) = (b, None) ->
  ((exists a, a ∈ items /\ b < buildKey a) ->
     reviewRule o activity cfg st = Done (st, None))
  /\ (enabled = true ->
      (forall a, a ∈ items -> buildKey a <= b) -> (items = [] -> -1 <= b) ->
      forall atts revs bs,
        createReviewersMessage o activity (NotifyReviewers cfg) pr resolver
        = Done (Some atts, revs, bs, None) ->
        Channel cfg <> "" ->
        let found := findPipelineActivities o activity in
        let all := snd (fst found) in
        let oldest := default activity (fst (fst (fst found))) in
        let channel := channelName (Channel cfg) in
        let post := postMessage o channel false pullRequestReviewMessageType oldest all atts
                      (reviewCreateIfMissing bs) st in
        snd found = None
        /\ reviewRule o activity cfg st
           = Done (fst post,
                   match snd post with
                   | Some e =>
                       Some (Some (Wrap e ("error posting PR review request for "
                                           +:+ Name activity +:+ " to channel " +:+ channel)))
                   | None => None
                   end)
        /\ (forall ref,
              lookupRef (Timestamps st) channel (Name oldest) = Some ref ->
              Timestamp ref <> "" ->
              calls (fst post)
              = (calls st ++ [CallSendMessage (ChannelID ref)
                                [MsgOptionAttachments atts;
                                 MsgOptionUpdate (Timestamp ref)]])%list)
        /\ (lookupRef (Timestamps st) channel (Name oldest) = None ->
            reviewCreateIfMissing bs = true ->
            calls (fst post)
            = (calls st ++ [CallSendMessage channel [MsgOptionAttachments atts]])%list)).
Proof.
  intros Hen Hprn Hacts Hall Hb. split.
  - intros Hex. destruct enabled.
    + exact (proj1 (reviewRule_branches o activity cfg st pr resolver prn items b
                      Hen Hprn Hacts Hall Hb) Hex).
    + unfold reviewRule. rewrite Hen. reflexivity.
  - intros -> Hle Hnil atts revs bs Hmsg Hchan.
    destruct (findPipelineActivities_sorted o activity prn items Hprn Hacts Hall)
      as (recs & HF & Hfind).
    destruct (reviewRule_branches o activity cfg st pr resolver prn items b
                Hen Hprn Hacts Hall Hb) as (_ & Hpost & Hempty).
    assert (Hrule : reviewRule o activity cfg st
                    = reviewPost o activity cfg pr resolver
                        (default activity (head recs)) recs st).
    { destruct items as [|i items'].
      - rewrite (Hempty eq_refl (Hnil eq_refl)). inversion HF; subst. reflexivity.
      - destruct (Hpost ltac:(discriminate) Hle) as (oldest & latest & all & Hf & ->).
        rewrite Hfind in Hf. injection Hf as -> _ ->. reflexivity. }
    rewrite Hfind. cbn [fst snd]. split; [reflexivity|]. split; [|split].
    + rewrite Hrule. exact (reviewPost_channel _ _ _ _ _ _ _ _ _ _ Hmsg Hchan).
    + intros ref Href Hts. apply postMessage_channel_update; assumption.
    + intros Hnone ->. apply postMessage_channel_create_calls. exact Hnone.
Qed.

End ReviewStaleness.

Lemma review_staleness_witness :
  reviewRule (Demo.bot Demo.client Demo.noOverrides [] None)
    (Demo.activity "pr-42" "2" RunningState []) (Demo.rule []) Demo.threadState
  = Done (Demo.threadState, None)
  /\ exists st' atts,
       reviewRule (Demo.bot Demo.client Demo.noOverrides [] None)
         (Demo.activity "pr-42" "3" RunningState []) (Demo.rule []) Demo.threadState
       = Done (st', None)
       /\ calls st'
          = [CallSendMessage "C024BE91L"
               [MsgOptionAttachments atts; MsgOptionUpdate "1503435956.000247"]].
Proof.
  split.
  - apply (review_staleness (Demo.bot Demo.client Demo.noOverrides [] None)
             (Demo.activity "pr-42" "2" RunningState []) (Demo.rule []) Demo.threadState
             true (Some (Demo.pullRequest [] None)) (Some (Demo.resolver [] None)) 42
             Demo.siblings 2).
    + reflexivity.
    + reflexivity.
    + reflexivity.
    + repeat constructor; eexists; split; reflexivity.
    + reflexivity.
    + exists (Demo.sibling "3"). split; [left | reflexivity].
  - destruct (createReviewersMessage (Demo.bot Demo.client Demo.noOverrides [] None)
                (Demo.activity "pr-42" "3" RunningState []) false
                (Some (Demo.pullRequest [] None)) (Some (Demo.resolver [] None)))
      as [[[[[atts|] revs] bs] [err|]]|] eqn:E; try (vm_compute in E; discriminate).
    destruct (proj2 (review_staleness (Demo.bot Demo.client Demo.noOverrides [] None)
                       (Demo.activity "pr-42" "3" RunningState []) (Demo.rule [])
                       Demo.threadState true (Some (Demo.pullRequest [] None))
                       (Some (Demo.resolver [] None)) 42 Demo.siblings 3
                       eq_refl eq_refl eq_refl
                       ltac:(repeat constructor; eexists; split; reflexivity) eq_refl)
                eq_refl
                ltac:(intros a Ha; repeat (apply elem_of_cons in Ha as [-> | Ha]);
                      [vm_compute; discriminate .. | inversion Ha])
                ltac:(discriminate) atts revs bs E ltac:(discriminate))
      as (_ & Hrule & Hupdate & _).
    eexists _, atts. split.
    + rewrite Hrule. reflexivity.
    + apply (Hupdate {| ChannelID := "C024BE91L"; Timestamp := "1503435956.000247" |});
        [reflexivity | discriminate].
Defined.

(** ** The pipeline flow *)

Section PipelineFlow.
Context {CS : Type}.
Variable strings_Title : string -> string.
Variable getUserFriendlyMapping : string -> string.
Variable o : SlackBotOptions CS.

Lemma forRules_stops body pre cfg rest (st st1 st2 : BotState CS) err :
  continues body pre st st1 ->
  body cfg st1 = Done (st2, Some err) ->
  forRules body (pre ++ cfg :: rest)%list st = Done (st2, err).
Proof.
  revert st. induction pre as [|c pre IH]; intros st Hpre Hbody; cbn in *.
  - subst st1. rewrite Hbody. reflexivity.
  - destruct Hpre as (st' & Hc & Hpre). rewrite Hc. cbn [bindO]. apply IH; assumption.
Qed.

(** X16.  An error ends [PipelineMessage]: when the rules before a rule run
    through and that rule returns an error, [PipelineMessage] returns this
    error with the state that rule left, and the rules after it are not
    run. *)
Theorem PipelineMessage_stops_at_first_error now activity pre cfg rest
    (st st1 st2 : BotState CS) err :
  Name activity <> "" ->
  Pipelines o = (pre ++ cfg :: rest)%list ->
  continues (pipelineRule strings_Title getUserFriendlyMapping o now activity) pre st st1 ->
  pipelineRule strings_Title getUserFriendlyMapping o now activity cfg st1
  = Done (st2, Some err) ->
  PipelineMessage strings_Title getUserFriendlyMapping o now activity st = Done (st2, err).
Proof.
  intros Hname Hrules Hpre Hbody. unfold PipelineMessage.
  apply String.eqb_neq in Hname. unfold str_eqb. rewrite Hname, Hrules.
  eapply forRules_stops; eassumption.
Qed.

Lemma pipelineRule_follows now activity cfg (st st' : BotState CS) r :
  pipelineRule strings_Title getUserFriendlyMapping o now activity cfg st = Done (st', r) ->
  follows 3 st st'
  /\ (DirectMessage cfg = false \/ fst (getPullRequestNumber activity) <= 0 ->
      sendsOnly 1 st st').
Proof.
  unfold pipelineRule. intros H.
  destruct (isEnabled o activity (Orgs cfg) (IgnoreLabels cfg))
    as [[[[enabled pr] resolver] err]|] eqn:Hen; cbn [bindO] in H; [|discriminate].
  assert (Hrefl : follows 3 st st /\ sendsOnly 1 st st)
    by (split; [apply follows_refl | apply sendsOnly_refl]).
  destruct err; [injection H as <- _; tauto|].
  destruct enabled; [|injection H as <- _; tauto].
  destruct (createPipelineMessage _ _ _ _ _ _) as [[[atts cim] err]|];
    cbn [bindO] in H; [|discriminate].
  destruct err; [injection H as <- _; tauto|].
  assert (Hpr : fst (getPullRequestNumber activity) <= 0 -> pr = None).
  { intros Hle. unfold isEnabled in Hen.
    rewrite (getPullRequest_no_number o activity Hle) in Hen.
    destruct (_ && _); [congruence|].
    destruct (0 <? Z.of_nat (length (IgnoreLabels cfg))); congruence. }
  set (atts' := default [] atts) in *.
  match type of H with
  | (let '(_, _) := ?c in _) = _ => destruct c as [st1 ret] eqn:Hc
  end.
  assert (Hs : sendsOnly 1 st st1).
  { destruct (negb (str_eqb (Channel cfg) "")).
    - pose proof (postMessage_channel_sendsOnly o (channelName (Channel cfg))
                    pipelineMessageType activity [] atts' cim st) as Hp.
      cbv zeta in Hc.
      destruct (postMessage o _ false _ _ _ _ _ st) as [st2 [e|]]; cbn [fst] in Hp;
        injection Hc as <- _; exact Hp.
    - injection Hc as <- _. apply sendsOnly_refl. }
  clear Hc. rename Hs into Hc.
  assert (Hf1 : follows 3 st st1).
  { destruct Hc as [(new & Hn & Hl & _) K]. split; [|exact K]. exists new. split; [exact Hn | lia]. }
  destruct ret; [injection H as <- _; tauto|].
  destruct (DirectMessage cfg) eqn:Hdm.
  - destruct pr as [p|].
    + destruct (resolveGitUserToSlackUser o (Author p) resolver) as [[id [e|]]|];
        cbn [bindO] in H; try discriminate.
      * injection H as <- _. split; [exact Hf1|].
        intros [Hd|Hle]; [discriminate | apply Hpr in Hle; discriminate].
      * destruct (negb (str_eqb id "")).
        -- pose proof (postMessage_follows o id true pipelineMessageType activity [] atts' cim st1)
             as Hp.
           destruct (postMessage o id true _ _ _ _ _ st1) as [st2 e2]; cbn [fst] in Hp.
           assert (follows 3 st st').
           { destruct e2; injection H as <- _;
               (eapply follows_weaken; [|eapply follows_trans; [|exact Hp]]);
               [| destruct Hc as [(new & Hn & Hl & _) K]; split; [exists new; eauto | exact K]
                | | destruct Hc as [(new & Hn & Hl & _) K]; split; [exists new; eauto | exact K]];
               lia. }
           split; [assumption|].
           intros [Hd|Hle]; [discriminate | apply Hpr in Hle; discriminate].
        -- injection H as <- _. split; [exact Hf1|]. intros _. exact Hc.
    + injection H as <- _. split; [exact Hf1|]. intros _. exact Hc.
  - injection H as <- _. split; [exact Hf1|]. intros _. exact Hc.
Qed.

(** X17.  Whenever [PipelineMessage] returns, it has made at most three calls per
    pipeline rule on the chat client (a send to the channel, the opening of
    a conversation and a send to it) and no reference of the store has been
    lost; for an activity that is not a pull request it has made at most one
    call per rule, each of them a send. *)
Theorem PipelineMessage_follows now activity (st st' : BotState CS) e :
  PipelineMessage strings_Title getUserFriendlyMapping o now activity st = Done (st', e) ->
  follows (length (Pipelines o) * 3) st st'
  /\ (fst (getPullRequestNumber activity) <= 0 -> sendsOnly (length (Pipelines o)) st st').
Proof.
  unfold PipelineMessage. intros H.
  destruct (str_eqb (Name activity) "").
  - injection H as <- _. split; [apply follows_refl | intros _; apply sendsOnly_refl].
  - split.
    + eapply forRules_follows; [|exact H].
      intros cfg s s' r Hr. apply pipelineRule_follows in Hr. tauto.
    + intros Hle. apply (forRules_sendsOnly _ 1) in H.
      * rewrite Nat.mul_1_r in H. exact H.
      * intros cfg s s' r Hr. apply pipelineRule_follows in Hr. tauto.
Qed.

Lemma forRules_skip body rules (st : BotState CS) :
  (forall cfg, In cfg rules -> body cfg st = Done (st, None)) ->
  forRules body rules st = Done (st, None).
Proof.
  induction rules as [|cfg rules IH]; intros H; cbn [forRules]; [reflexivity|].
  rewrite (H cfg) by (left; reflexivity). cbn [bindO].
  apply IH. intros c Hc. apply H. right. exact Hc.
Qed.

(** X18.  When no rule lets the activity pass its allow-list, both flows leave
    the state as it is and return no error. *)
Theorem flows_not_allowed now activity (st : BotState CS) :
  Name activity <> "" ->
  ((forall cfg, In cfg (Pipelines o) -> Orgs cfg <> [] /\ ~ allowedBy (Orgs cfg) activity) ->
   PipelineMessage strings_Title getUserFriendlyMapping o now activity st = Done (st, None))
  /\ ((forall cfg, In cfg (PullRequests o) ->
                   Orgs cfg <> [] /\ ~ allowedBy (Orgs cfg) activity) ->
      snd (getPullRequestNumber activity) = None ->
      ReviewRequestMessage o activity st = Done (st, None)).
Proof.
  intros Hname. apply String.eqb_neq in Hname. split.
  - intros Hrules. unfold PipelineMessage, str_eqb. rewrite Hname.
    apply forRules_skip. intros cfg Hin. unfold pipelineRule.
    destruct (Hrules cfg Hin) as [Hne Hno].
    rewrite (isEnabled_rejects o activity _ _ Hne Hno). reflexivity.
  - intros Hrules Herr. unfold ReviewRequestMessage, str_eqb. rewrite Hname.
    destruct (getPullRequestNumber activity) as [prn err]. cbn [snd] in Herr. subst err.
    destruct (0 <? prn); [|reflexivity].
    apply forRules_skip. intros cfg Hin. unfold reviewRule.
    destruct (Hrules cfg Hin) as [Hne Hno].
    rewrite (isEnabled_rejects o activity _ _ Hne Hno). reflexivity.
Qed.

End PipelineFlow.

Lemma PipelineMessage_stops_at_first_error_witness :
  exists st2 err,
    PipelineMessage (fun s => s) (fun s => s)
      (Demo.botRules Demo.deadClient [Demo.rule []; Demo.rule []]) 2000
      (Demo.activity "master" "7" RunningState []) Demo.emptyState = Done (st2, err)
    /\ length (calls st2) = 1%nat.
Proof.
  destruct (pipelineRule (fun s => s) (fun s => s)
              (Demo.botRules Demo.deadClient [Demo.rule []; Demo.rule []]) 2000
              (Demo.activity "master" "7" RunningState []) (Demo.rule []) Demo.emptyState)
    as [[st2 [err|]]|] eqn:E; try (vm_compute in E; discriminate).
  exists st2, err. split.
  - apply (PipelineMessage_stops_at_first_error (fun s => s) (fun s => s)
             (Demo.botRules Demo.deadClient [Demo.rule []; Demo.rule []]) 2000
             (Demo.activity "master" "7" RunningState []) [] (Demo.rule []) [Demo.rule []]
             Demo.emptyState Demo.emptyState st2 err).
    + discriminate.
    + reflexivity.
    + reflexivity.
    + exact E.
  - vm_compute in E. injection E as <- _. reflexivity.
Defined.

Lemma PipelineMessage_follows_witness :
  exists st' e,
    PipelineMessage (fun s => s) (fun s => s) (Demo.bot Demo.client Demo.noOverrides [] None)
      2000 (Demo.activity "pr-42" "3" RunningState []) Demo.emptyState = Done (st', e)
    /\ follows 3 Demo.emptyState st'.
Proof.
  destruct (PipelineMessage (fun s => s) (fun s => s)
              (Demo.bot Demo.client Demo.noOverrides [] None)
              2000 (Demo.activity "pr-42" "3" RunningState []) Demo.emptyState)
    as [[st' e]|] eqn:E; [|vm_compute in E; discriminate].
  exists st', e. split; [reflexivity|].
  exact (proj1 (PipelineMessage_follows _ _ _ _ _ _ _ _ E)).
Defined.

Lemma flows_not_allowed_witness :
  PipelineMessage (fun s => s) (fun s => s)
    (Demo.botRules Demo.client [Demo.orgRule "umbrella"]) 2000
    (Demo.activity "pr-42" "3" RunningState []) Demo.emptyState
  = Done (Demo.emptyState, None).
Proof.
  refine (proj1 (flows_not_allowed (fun s => s) (fun s => s)
                   (Demo.botRules Demo.client [Demo.orgRule "umbrella"]) 2000
                   (Demo.activity "pr-42" "3" RunningState []) Demo.emptyState _) _).
  - discriminate.
  - intros cfg [<- | []]. split; [discriminate|].
    intros (org & [<- | []] & Hname & _). discriminate.
Defined.

Section Replay.
Context {CS : Type}.
Variable strings_Title : string -> string.
Variable getUserFriendlyMapping : string -> string.
Variable o : SlackBotOptions CS.

(** The clock decides only whether a message may be created: the
    attachments of [createPipelineMessage] are the same at every time. *)
Lemma createPipelineMessage_clock now now' activity pr atts create :
  createPipelineMessage strings_Title getUserFriendlyMapping o now activity pr
  = Done (Some atts, create, None) ->
  exists create',
    createPipelineMessage strings_Title getUserFriendlyMapping o now' activity pr
    = Done (Some atts, create', None).
Proof.
  unfold createPipelineMessage. intros H.
  destruct (pipelineStatus activity) as [status|]; [|discriminate]. cbn [bindO] in *.
  destruct (pipelineName activity) as [name [e|]]; [discriminate|].
  destruct (getPullRequestNumber activity) as [prn [e|]]; [discriminate|].
  destruct (if 0 <? prn then _ else _) as [text|]; [|discriminate]. cbn [bindO] in *.
  cbv zeta in *.
  repeat match goal with
         | |- context [if ?c then (_, _) else (_, _)] => destruct c
         end.
  all: destruct (stageAttachments _ _ _ _ _ _) as [l|]; [|discriminate]; cbn [bindO] in *.
  all: injection H as <- _; eexists; reflexivity.
Qed.

(** X19.  Sending the same activity twice through the pipeline flow.  With one
    rule that posts to a channel, an activity that is enabled and whose
    message may be created, no stored reference and a client that accepts
    the message: the first call creates the message and stores its
    reference, and a second call, whatever the time of day it is made at,
    returns and sends the same attachments once more, in update mode, to
    the stored channel id with the stored timestamp. *)
Theorem PipelineMessage_twice now activity cfg pr resolver atts (st : BotState CS)
    s1 channelId timestamp :
  Name activity <> "" ->
  Pipelines o = [cfg] -> Channel cfg <> "" -> DirectMessage cfg = false ->
  isEnabled o activity (Orgs cfg) (IgnoreLabels cfg) = Done (true, pr, resolver, None) ->
  createPipelineMessage strings_Title getUserFriendlyMapping o now activity pr
  = Done (Some atts, true, None) ->
  lookupRef (Timestamps st) (channelName (Channel cfg)) (Name activity) = None ->
  SendMessageContext (Client o) (slack st) (channelName (Channel cfg))
    [MsgOptionAttachments atts] = (s1, inl (channelId, timestamp)) ->
  timestamp <> "" ->
  exists st1,
    PipelineMessage strings_Title getUserFriendlyMapping o now activity st = Done (st1, None)
    /\ calls st1
       = (calls st ++ [CallSendMessage (channelName (Channel cfg))
                         [MsgOptionAttachments atts]])%list
    /\ lookupRef (Timestamps st1) (channelName (Channel cfg)) (Name activity)
       = Some {| ChannelID := channelId; Timestamp := timestamp |}
    /\ forall now',
       exists st2 e,
         PipelineMessage strings_Title getUserFriendlyMapping o now' activity st1
         = Done (st2, e)
         /\ calls st2
            = (calls st1 ++ [CallSendMessage channelId
                               [MsgOptionAttachments atts; MsgOptionUpdate timestamp]])%list.
Proof.
  intros Hname Hrules Hchan Hdm Hen Hmsg Hnone Hsend Hts.
  apply String.eqb_neq in Hname. apply String.eqb_neq in Hchan.
  assert (Hrule : forall t create s,
            createPipelineMessage strings_Title getUserFriendlyMapping o t activity pr
            = Done (Some atts, create, None) ->
            pipelineRule strings_Title getUserFriendlyMapping o t activity cfg s
            = let '(s', err) := postMessage o (channelName (Channel cfg)) false
                                  pipelineMessageType activity [] atts create s in
              match err with
              | Some e => Done (s', Some (Some (Wrap e ("error posting cfg for "
                             +:+ Name activity +:+ " to channel "
                             +:+ channelName (Channel cfg)))))
              | None => Done (s', None)
              end).
  { intros t create s Ht. unfold pipelineRule. rewrite Hen. cbn [bindO]. rewrite Ht.
    cbn [bindO]. unfold str_eqb in *. rewrite Hchan, Hdm. cbn [negb default]. cbv zeta.
    destruct (postMessage o _ false _ _ _ _ _ s) as [s' [e|]]; reflexivity. }
  destruct (postMessage_channel_create o (channelName (Channel cfg)) pipelineMessageType
              activity [] atts st s1 channelId timestamp Hnone Hsend)
    as (Herr & Hcalls & Hlook).
  exists (fst (postMessage o (channelName (Channel cfg)) false pipelineMessageType
                 activity [] atts true st)).
  split; [|split; [exact Hcalls | split; [exact Hlook|]]].
  - unfold PipelineMessage, str_eqb. rewrite Hname, Hrules. cbn [forRules].
    rewrite (Hrule _ _ _ Hmsg).
    destruct (postMessage o _ false _ _ _ _ _ st) as [s' e]. cbn [fst snd] in *.
    subst e. reflexivity.
  - intros now'.
    destruct (createPipelineMessage_clock now now' activity pr atts true Hmsg)
      as (create' & Hmsg').
    pose proof (postMessage_channel_update o (channelName (Channel cfg)) pipelineMessageType
                  activity [] atts create' _ _ Hlook Hts) as Hup.
    cbn [ChannelID Timestamp] in Hup.
    unfold PipelineMessage, str_eqb. rewrite Hname, Hrules. cbn [forRules].
    rewrite (Hrule _ _ _ Hmsg').
    destruct (postMessage o _ false _ _ _ _ _
                (fst (postMessage o (channelName (Channel cfg)) false pipelineMessageType
                        activity [] atts true st))) as [s2 [e2|]];
      cbn [bindO fst] in *; eexists _, _; (split; [reflexivity | exact Hup]).
Qed.

End Replay.

Lemma PipelineMessage_twice_witness :
  exists st1 st2 e atts,
    PipelineMessage (fun s => s) (fun s => s) (Demo.bot Demo.client Demo.noOverrides [] None)
      2000 (Demo.activity "pr-42" "3" RunningState []) Demo.emptyState = Done (st1, None)
    /\ lookupRef (Timestamps st1) "#general"
         (Name (Demo.activity "pr-42" "3" RunningState []))
       = Some {| ChannelID := "#general"; Timestamp := "1" |}
    /\ PipelineMessage (fun s => s) (fun s => s)
         (Demo.bot Demo.client Demo.noOverrides [] None)
         200000 (Demo.activity "pr-42" "3" RunningState []) st1 = Done (st2, e)
    /\ calls st2
       = (calls st1 ++ [CallSendMessage "#general"
                          [MsgOptionAttachments atts; MsgOptionUpdate "1"]])%list.
Proof.
  destruct (createPipelineMessage (fun s => s) (fun s => s)
              (Demo.bot Demo.client Demo.noOverrides [] None) 2000
              (Demo.activity "pr-42" "3" RunningState []) (Some (Demo.pullRequest [] None)))
    as [[[[atts|] [|]] [err|]]|] eqn:E; try (vm_compute in E; discriminate).
  destruct (PipelineMessage_twice (fun s => s) (fun s => s)
              (Demo.bot Demo.client Demo.noOverrides [] None) 2000
              (Demo.activity "pr-42" "3" RunningState []) (Demo.rule [])
              (Some (Demo.pullRequest [] None)) (Some (Demo.resolver [] None)) atts
              Demo.emptyState 2 "#general" "1")
    as (st1 & H1 & _ & H3 & H4).
  - discriminate.
  - reflexivity.
  - discriminate.
  - reflexivity.
  - reflexivity.
  - exact E.
  - reflexivity.
  - reflexivity.
  - discriminate.
  - destruct (H4 200000) as (st2 & e & H5 & H6).
    exists st1, st2, e, atts. repeat split; assumption.
Defined.

(** ** Names and links *)

Lemma str_length_append a b : String.length (a +:+ b) = (String.length a + String.length b)%nat.
Proof. induction a as [|c a IH]; simpl; [reflexivity | rewrite IH; reflexivity]. Qed.

Lemma drop_bytes_append a b : drop_bytes (String.length a) (a +:+ b) = b.
Proof. induction a as [|c a IH]; simpl; [reflexivity | exact IH]. Qed.

Lemma HasSuffix_append a p : HasSuffix (a +:+ p) p = true.
Proof.
  unfold HasSuffix. rewrite str_length_append.
  replace (String.length a + String.length p - String.length p)%nat
    with (String.length a) by lia.
  rewrite drop_bytes_append, String.eqb_refl, andb_true_r.
  apply Nat.leb_le. lia.
Qed.

Lemma str_append_assoc a b c : (a +:+ b) +:+ c = a +:+ (b +:+ c).
Proof.
  induction a as [|x a IH]; [reflexivity|].
  change (String x ((a +:+ b) +:+ c) = String x (a +:+ (b +:+ c))). f_equal. exact IH.
Qed.

(** X20.  An activity on the branch [master] has the pipeline name "Release
    Pipeline", whatever its owner and repository. *)
Theorem pipelineName_master activity :
  Branch activity = "master" -> pipelineName activity = ("Release Pipeline", None).
Proof.
  intros Hb. unfold pipelineName. rewrite Hb.
  change (Owner activity +:+ "/" +:+ Repo activity +:+ "/" +:+ "master")
    with (Owner activity +:+ ("/" +:+ Repo activity +:+ "/master")).
  assert (Owner activity +:+ "/" +:+ Repo activity +:+ "/master"
          = (Owner activity +:+ "/" +:+ Repo activity) +:+ "/master") as ->.
  { rewrite !str_append_assoc. reflexivity. }
  rewrite HasSuffix_append. reflexivity.
Qed.

Lemma pipelineName_master_witness :
  pipelineName (Demo.activity "master" "7" RunningState []) = ("Release Pipeline", None).
Proof.
  apply pipelineName_master. reflexivity.
Defined.

Lemma LastIndex_from_no_sep sep s : forall i last,
  has_byte sep s = false -> LastIndex_from i last s sep = last.
Proof.
  induction s as [|c s IH]; intros i last H; simpl in *; [reflexivity|].
  apply orb_false_iff in H as [Hc Hs]. rewrite Hc. apply IH. exact Hs.
Qed.

Lemma LastIndex_from_last sep a b : forall i last,
  has_byte sep b = false ->
  LastIndex_from i last (a +:+ String sep b) sep = i + Z.of_nat (String.length a).
Proof.
  induction a as [|c a IH]; intros i last Hb; simpl.
  - rewrite Ascii.eqb_refl. rewrite LastIndex_from_no_sep by assumption. lia.
  - rewrite IH by assumption. lia.
Qed.

(** X21.  [pullRequestName] gives a URL without a slash back as it is; for a URL
    that ends in a slash-free segment after a non-empty base it gives [#]
    followed by that segment. *)
Theorem pullRequestName_last_segment :
  (forall url, has_byte "/" url = false -> pullRequestName url = url)
  /\ (forall base n,
        base <> "" -> has_byte "/" n = false ->
        pullRequestName (base +:+ "/" +:+ n) = "#" +:+ n).
Proof.
  split.
  - intros url H. unfold pullRequestName, LastIndex.
    rewrite LastIndex_from_no_sep by assumption. reflexivity.
  - intros base n Hbase Hn. unfold pullRequestName, LastIndex.
    change (base +:+ "/" +:+ n) with (base +:+ String "/" n).
    rewrite LastIndex_from_last by assumption.
    assert (0 < Z.of_nat (String.length base)) by (destruct base; [contradiction | simpl; lia]).
    destruct (Z.ltb_spec 0 (0 + Z.of_nat (String.length base))); [|lia].
    replace (Z.to_nat (0 + Z.of_nat (String.length base) + 1))
      with (String.length (base +:+ "/"))
      by (rewrite str_length_append; simpl; lia).
    assert (base +:+ String "/" n = (base +:+ "/") +:+ n) as ->
      by (rewrite str_append_assoc; reflexivity).
    rewrite drop_bytes_append. reflexivity.
Qed.

Lemma pullRequestName_last_segment_witness :
  pullRequestName ("https://github.com/acme/widgets/pull" +:+ "/" +:+ "42") = "#" +:+ "42".
Proof.
  apply (proj2 pullRequestName_last_segment).
  - discriminate.
  - reflexivity.
Defined.

Lemma take_bytes_length n s :
  (n <= String.length s)%nat -> String.length (take_bytes n s) = n.
Proof.
  revert s. induction n as [|n IH]; intros s H; [reflexivity|].
  destruct s as [|c s]; simpl in *; [lia|]. rewrite IH by lia. reflexivity.
Qed.

(** X22.  [mergeShaText] faults exactly when the sha has fewer than seven bytes;
    for a longer sha and an empty repository URL (or the bare suffix
    [.git]) it returns the first seven bytes of the sha, without a link. *)
Theorem mergeShaText_short_sha (UrlJoin : list string -> string) gitURL sha :
  (mergeShaText UrlJoin gitURL sha = Panicked <-> (String.length sha < 7)%nat)
  /\ ((7 <= String.length sha)%nat -> gitURL = "" \/ gitURL = ".git" ->
      mergeShaText UrlJoin gitURL sha = Done (take_bytes 7 sha)
      /\ String.length (take_bytes 7 sha) = 7%nat).
Proof.
  unfold mergeShaText. split.
  - destruct (Nat.ltb_spec (String.length sha) 7); split; try discriminate; auto; lia.
  - intros Hlen Hurl. destruct (Nat.ltb_spec (String.length sha) 7); [lia|].
    split; [|apply take_bytes_length; lia].
    destruct Hurl as [-> | ->]; reflexivity.
Qed.

Lemma mergeShaText_short_sha_witness :
  mergeShaText (fun _ => "") ".git" "0123456789abcdef" = Done (take_bytes 7 "0123456789abcdef")
  /\ String.length (take_bytes 7 "0123456789abcdef") = 7%nat.
Proof.
  apply (proj2 (mergeShaText_short_sha (fun _ => "") ".git" "0123456789abcdef")).
  - cbn. lia.
  - right. reflexivity.
Defined.

(** ** Stage attachments and siblings *)

Section Attachments.
Context {CS : Type}.
Variable strings_Title : string -> string.
Variable getUserFriendlyMapping : string -> string.
Variable o : SlackBotOptions CS.

Lemma stepAttachments_spec steps : forall acc,
  (stepAttachments strings_Title getUserFriendlyMapping o acc steps = Panicked
   <-> In None steps)
  /\ forall r, stepAttachments strings_Title getUserFriendlyMapping o acc steps = Done r ->
               exists more, r = (acc ++ more)%list /\ (length more <= length steps)%nat.
Proof.
  induction steps as [|[s|] steps IH]; intros acc; cbn [stepAttachments In].
  - split; [split; [discriminate | tauto]|].
    intros r H. injection H as <-. exists []. rewrite app_nil_r. split; [reflexivity | simpl; lia].
  - destruct (isUserPipelineStep (StageName s)).
    + cbn [createStepAttachment bindO].
      match goal with
      | |- context [stepAttachments _ _ _ ?acc' steps] => destruct (IH acc') as [Hp Hd]
      end.
      rewrite Hp. split.
      * split; [auto|]. intros [H|H]; [discriminate | exact H].
      * intros r H. apply Hd in H as (more & -> & Hl).
        eexists (_ :: more). rewrite <- app_assoc. split; [reflexivity | simpl; lia].
    + destruct (IH acc) as [Hp Hd]. rewrite Hp. split.
      * split; [auto|]. intros [H|H]; [discriminate | exact H].
      * intros r H. apply Hd in H as (more & -> & Hl).
        exists more. split; [reflexivity | simpl; lia].
  - split; [split; auto|]. discriminate.
Qed.

(** X23.  [createStageAttachments] faults exactly when the stage is not the meta
    pipeline and has a [nil] step.  Otherwise it returns at least one
    attachment (the one of the stage itself) and at most one more per step;
    for the stage named [meta pipeline] the steps are left out and exactly
    one attachment is returned. *)
Theorem createStageAttachments_shape activity stage :
  (createStageAttachments strings_Title getUserFriendlyMapping o activity stage = Panicked
   <-> StageName stage <> "meta pipeline" /\ In None (StageSteps stage))
  /\ forall l,
       createStageAttachments strings_Title getUserFriendlyMapping o activity stage = Done l ->
       (1 <= length l <= 1 + length (StageSteps stage))%nat
       /\ (StageName stage = "meta pipeline" -> length l = 1%nat)
       /\ Forall (fun a => MarkdownIn a = ["fields"]) (firstn 1 l).
Proof.
  unfold createStageAttachments. cbn [createStepAttachment bindO].
  destruct (str_eqb (StageName stage) "meta pipeline") eqn:E; cbn [negb].
  - apply String.eqb_eq in E. split.
    + split; [discriminate|]. intros [H _]. contradiction.
    + intros l H. injection H as <-. simpl. repeat split; try lia. repeat constructor.
  - apply String.eqb_neq in E.
    match goal with
    | |- context [stepAttachments _ _ _ ?acc' _] =>
        destruct (stepAttachments_spec (StageSteps stage) acc') as [Hp Hd]
    end.
    rewrite Hp. split.
    + split; [auto | tauto].
    + intros l H. apply Hd in H as (more & -> & Hl). simpl.
      repeat split; try lia; [contradiction | repeat constructor].
Qed.

End Attachments.

Section Siblings.
Context {CS : Type}.
Variable strings_Title : string -> string.
Variable getUserFriendlyMapping : string -> string.
Variable o : SlackBotOptions CS.

Lemma insertByBuild_perm a l : insertByBuild a l ≡ₚ a :: l.
Proof.
  induction l as [|b l IH]; simpl; [reflexivity|].
  destruct (buildKey b <=? buildKey a); [|reflexivity].
  rewrite IH. apply Permutation_swap.
Qed.

Lemma sort_fold_perm l : forall acc,
  fold_left (fun acc a => insertByBuild a acc) l acc ≡ₚ (l ++ acc)%list.
Proof.
  induction l as [|a l IH]; intros acc; simpl; [reflexivity|].
  rewrite IH, insertByBuild_perm. symmetry. apply Permutation_middle.
Qed.

Lemma sortByBuildNumber_perm l : sortByBuildNumber l ≡ₚ l.
Proof. unfold sortByBuildNumber. rewrite sort_fold_perm, app_nil_r. reflexivity. Qed.

Lemma convertAll_result items : forall acc records,
  convertAll acc items = inl records ->
  exists recs, records = (acc ++ recs)%list
               /\ Forall2 (fun a r => Converted a = inl r) items recs.
Proof.
  induction items as [|a items IH]; intros acc records H; cbn [convertAll] in H.
  - injection H as <-. exists []. rewrite app_nil_r. split; [reflexivity | constructor].
  - destruct (Converted a) as [r|e] eqn:Hr; [|discriminate].
    apply IH in H as (recs & -> & HF). exists (r :: recs).
    rewrite <- app_assoc. split; [reflexivity | constructor; assumption].
Qed.

Lemma convertAll_error items : forall acc a e,
  In a items -> Converted a = inr e ->
  exists e', convertAll acc items = inr e'.
Proof.
  induction items as [|b items IH]; intros acc a e Hin Ha; [destruct Hin|].
  cbn [convertAll]. destruct (Converted b) as [r|e'] eqn:Hb; [|eauto].
  destruct Hin as [->|Hin]; [congruence|]. eapply IH; eassumption.
Qed.

(** X24.  [findPipelineActivities], once the pull request number and the list of
    siblings are there: if a sibling cannot be converted, the function
    returns an error and no record; when it returns no error, [all] has one
    record per sibling, each the conversion of a sibling, [oldest] is its
    first and [latest] its last element, and both are [nil] exactly when
    there is no sibling. *)
Theorem findPipelineActivities_result activity prn items :
  getPullRequestNumber activity = (prn, None) ->
  getPipelineActivities o (GitOwner (createPipelineDetails activity))
    (GitRepository (createPipelineDetails activity)) prn = inl items ->
  ((exists a e, In a items /\ Converted a = inr e) ->
   exists e, findPipelineActivities o activity = (None, None, [], Some e))
  /\ forall oldest latest all,
       findPipelineActivities o activity = (oldest, latest, all, None) ->
       length all = length items
       /\ oldest = head all /\ latest = last all
       /\ (oldest = None <-> items = []) /\ (latest = None <-> items = [])
       /\ forall r, In r all -> exists a, In a items /\ Converted a = inl r.
Proof.
  intros Hprn Hacts. unfold findPipelineActivities. rewrite Hprn, Hacts. split.
  - intros (a & e & Hin & Ha).
    destruct (convertAll_error (sortByBuildNumber items) [] a e) as [e' ->];
      [|assumption|eauto].
    apply list_elem_of_In, sortByBuildNumber_elem, list_elem_of_In. exact Hin.
  - intros oldest latest all H.
    destruct (convertAll [] (sortByBuildNumber items)) as [records|e] eqn:Hc; [|discriminate].
    apply convertAll_result in Hc as (recs & -> & HF). cbn [app] in H.
    assert (Hlen : length recs = length items).
    { rewrite <- (Forall2_length _ _ _ HF). apply Permutation_length, sortByBuildNumber_perm. }
    assert (Hmem : forall r, In r recs -> exists a, In a items /\ Converted a = inl r).
    { intros r Hr. apply list_elem_of_In in Hr.
      destruct (proj1 (list_elem_of_lookup _ _) Hr) as [i Hi].
      destruct (Forall2_lookup_r _ _ _ _ _ HF Hi) as (a & Ha & Hconv).
      exists a. split; [|exact Hconv].
      apply list_elem_of_In, sortByBuildNumber_elem. eapply list_elem_of_lookup_2. exact Ha. }
    destruct recs as [|r recs].
    + cbn in H. injection H as <- <- <-.
      destruct items; [|discriminate]. repeat split; auto.
    + change (0 <? Z.of_nat (length (r :: recs))) with
        (0 <? Z.of_nat (S (length recs))) in H.
      destruct (Z.ltb_spec 0 (Z.of_nat (S (length recs)))); [|lia].
      injection H as <- <- <-.
      assert (items <> []) by (intros ->; discriminate).
      assert (last (r :: recs) <> None).
      { rewrite last_None. discriminate. }
      repeat split; auto; try discriminate; try contradiction.
Qed.

End Siblings.

Lemma findPipelineActivities_result_witness :
  exists oldest latest all,
    findPipelineActivities (Demo.bot Demo.client Demo.noOverrides [] None)
      (Demo.activity "pr-42" "2" RunningState []) = (oldest, latest, all, None)
    /\ length all = 3%nat.
Proof.
  destruct (findPipelineActivities (Demo.bot Demo.client Demo.noOverrides [] None)
              (Demo.activity "pr-42" "2" RunningState []))
    as [[[oldest latest] all] [err|]] eqn:E; [vm_compute in E; discriminate|].
  exists oldest, latest, all. split; [reflexivity|].
  exact (proj1 (proj2 (findPipelineActivities_result
                         (Demo.bot Demo.client Demo.noOverrides [] None)
                         (Demo.activity "pr-42" "2" RunningState []) 42 Demo.siblings
                         eq_refl eq_refl) _ _ _ E)).
Defined.
